(** * Quantum noise simulator: the IQFT builder, its simulation driver and
      the qubit-count guard of the desktop front end

    Shallow embedding of [src/utils/iqft.py] (class [IQFT]) and of
    [QFTSimulator.build_circuit] from [src/simulator.py].

    Conventions.
    - Python [int] is [Z]; qubit counts and qubit indices are [nat]
      ([QuantumCircuit] rejects a negative register size, so a negative
      [n] never reaches the code modelled here).
    - Python [float] is idealised as a real number [R]: rounding is not
      modelled, and neither is a result that leaves the range of a float
      (numpy then gives [inf] or [nan] and raises nothing). The one float
      operation that changes control flow is modelled: the conversion of
      an [int] too large for a float raises [OverflowError]. A statement
      about the value of an angle or of a Kraus operator therefore
      restricts its inputs to where the float computation stays finite.
    - A raised exception is a value of type [exn]; fallible code returns
      [res A].
    - The interpreter's reading of integer literals and qiskit and
      qiskit-aer are external: what they compute (the value of a literal,
      transpiled circuits, states, counts, rendered images) is taken
      through the interface [Environment]; what the source hands to them
      (gates, noise models, shot numbers) is modelled concretely. The
      instance [recording] reads ASCII literals and records every
      simulator call; it serves the concrete runs. *)

From Stdlib Require Import ZArith List String Ascii Bool Reals Lra Lia.
From stdpp Require Import base gmap strings pretty.
Import ListNotations.

Open Scope string_scope.
Open Scope Z_scope.
Open Scope nat_scope.

(** ** Exceptions and results *)

Inductive exn_class : Type :=
| ValueError
| TypeError
| KeyError
| OverflowError
| AttributeError
| ZeroDivisionError
| ExternalError.   (* any exception raised inside qiskit, PIL or tkinter *)

Record exn : Type := mk_exn { exn_cls : exn_class; exn_str : string }.

Inductive res (A : Type) : Type :=
| Ok (a : A)
| Raise (e : exn).
Arguments Ok {A} a.
Arguments Raise {A} e.

#[global] Instance res_ret : MRet res := fun _ a => Ok a.
#[global] Instance res_bind : MBind res := fun _ _ k r =>
  match r with
  | Ok a => k a
  | Raise e => Raise e
  end.

(** Methods run on an object of type [S], may assign its attributes and
    may raise; the attributes assigned before an exception stay assigned. *)
Definition Method (S A : Type) : Type := S -> res A * S.

#[global] Instance Method_ret {S} : MRet (Method S) :=
  fun _ a self => (Ok a, self).
#[global] Instance Method_bind {S} : MBind (Method S) := fun _ _ k m self =>
  match m self with
  | (Ok a, self') => k a self'
  | (Raise e, self') => (Raise e, self')
  end.

Definition get_self {S} : Method S S := fun self => (Ok self, self).
Definition get {S A} (attr : S -> A) : Method S A :=
  fun self => (Ok (attr self), self).
Definition assign {S} (upd : S -> S) : Method S unit :=
  fun self => (Ok tt, upd self).
Definition lift {S A} (r : res A) : Method S A := fun self => (r, self).
Definition pass {S} : Method S unit := mret tt.

(** [try: body except Exception as e: handler(e)] *)
Definition try_except {S A} (body : Method S A) (handler : exn -> Method S A)
  : Method S A :=
  fun self =>
    match body self with
    | (Ok a, self') => (Ok a, self')
    | (Raise e, self') => handler e self'
    end.

Definition is_ok {A} (r : res A) : bool :=
  match r with Ok _ => true | Raise _ => false end.

Definition raises {A} (r : res A) (c : exn_class) : Prop :=
  exists msg, r = Raise (mk_exn c msg).

(** ** Python built-ins used by the source *)

Module Py.

(** [range(n)] and [reversed(...)]. *)
Definition range (n : nat) : list nat := seq 0 n.
Definition reversed {A} (l : list A) : list A := rev l.

(** Characters that [int()] strips around a literal of ASCII text: the
    space and the characters 9 to 13. *)
Definition is_space (c : ascii) : bool :=
  let k := nat_of_ascii c in
  (k =? 32) || ((9 <=? k) && (k <=? 13)).

Definition digit_val (c : ascii) : option Z :=
  let k := nat_of_ascii c in
  if (48 <=? k) && (k <=? 57) then Some (Z.of_nat (k - 48)) else None.

Fixpoint lstrip (l : list ascii) : list ascii :=
  match l with
  | c :: l' => if is_space c then lstrip l' else l
  | [] => []
  end.

Definition strip (l : list ascii) : list ascii :=
  rev (lstrip (rev (lstrip l))).

(** Digits with single underscores between them: [digit ("_"? digit)*]. *)
Fixpoint parse_digits (acc : Z) (after_underscore : bool) (l : list ascii)
  : option Z :=
  match l with
  | [] => if after_underscore then None else Some acc
  | c :: l' =>
      if Ascii.eqb c "_" then
        if after_underscore then None else parse_digits acc true l'
      else
        match digit_val c with
        | Some d => parse_digits (10 * acc + d)%Z false l'
        | None => None
        end
  end.

Definition parse_unsigned (l : list ascii) : option Z :=
  match l with
  | [] => None
  | c :: l' =>
      match digit_val c with
      | Some d => parse_digits d false l'
      | None => None
      end
  end.

(** The value of a base-10 integer literal of ASCII text, if the text is
    one. CPython refuses a literal of more than 4300 digits with a
    [ValueError] of its own; the function is [int()] on shorter texts. *)
Definition ascii_int_literal (s : string) : option Z :=
  match strip (list_ascii_of_string s) with
  | "+"%char :: l => parse_unsigned l
  | "-"%char :: l => option_map Z.opp (parse_unsigned l)
  | l => parse_unsigned l
  end.

(** [repr(s)] of a [str] of ASCII text. The message of [int()] shows at
    most 200 characters of it; the function is that text for shorter
    ones. *)
Definition hex_digit (k : nat) : ascii :=
  if k <? 10 then ascii_of_nat (48 + k) else ascii_of_nat (87 + k).

Definition backslash : ascii := ascii_of_nat 92.
Definition single_quote : ascii := ascii_of_nat 39.
Definition double_quote : ascii := ascii_of_nat 34.

Definition repr_char (quote : ascii) (c : ascii) : string :=
  let k := nat_of_ascii c in
  if Ascii.eqb c backslash || Ascii.eqb c quote then
    String backslash (String c EmptyString)
  else if k =? 10 then String backslash "n"
  else if k =? 13 then String backslash "r"
  else if k =? 9 then String backslash "t"
  else if (k <? 32) || (k =? 127) then
    String backslash (String "x"%char
      (String (hex_digit (k / 16)) (String (hex_digit (k mod 16)) EmptyString)))
  else String c EmptyString.

Definition contains (c : ascii) (s : string) : bool :=
  existsb (Ascii.eqb c) (list_ascii_of_string s).

Definition ascii_repr (s : string) : string :=
  let quote :=
    if contains single_quote s && negb (contains double_quote s)
    then double_quote else single_quote in
  String quote
    (fold_right (fun c acc => repr_char quote c ++ acc)
       (String quote EmptyString) (list_ascii_of_string s)).

(** [i * f] for an [int] [i] and a [float] [f]: the [int] is first
    converted to a float, rounding to nearest with ties to even, which
    raises [OverflowError] from [2^1024 - 2^970] on. The conversion is
    exact up to [2^53] and the product is taken in the reals: from about
    [5.7e307] on the float product with [pi] is [inf], which is not
    modelled. *)
Definition float_int_limit : Z := (2 ^ 1024 - 2 ^ 970)%Z.

Definition fits_float (i : Z) : bool := (Z.abs i <? float_int_limit)%Z.

Definition float_of_int (i : Z) : res R :=
  if fits_float i then Ok (IZR i)
  else Raise (mk_exn OverflowError "int too large to convert to float").

Definition int_mul_float (i : Z) (f : R) : res R :=
  x ← float_of_int i; Ok (x * f)%R.

(** [f / i] for a [float] [f] and an [int] [i]. *)
Definition float_div_int (f : R) (i : Z) : res R :=
  x ← float_of_int i;
  if (i =? 0)%Z then Raise (mk_exn ZeroDivisionError "float division by zero")
  else Ok (f / x)%R.

(** [for x in l: body], threading the variables the body assigns. *)
Fixpoint for_each {A S} (l : list A) (body : A -> S -> res S) (s : S)
  : res S :=
  match l with
  | [] => Ok s
  | x :: l' => s' ← body x s; for_each l' body s'
  end.

End Py.

(** ** Circuits (the part of [qiskit.QuantumCircuit] the source uses) *)

(** One entry per call of a circuit method. [MeasureAll] stands for all
    that [measure_all()] stores (a barrier and one measurement per qubit),
    so [data] lists calls, not stored instructions. *)
Inductive Gate : Type :=
| Hadamard (qubit : nat)                       (* qc.h(qubit) *)
| Phase (theta : R) (qubit : nat)              (* qc.p(theta, qubit) *)
| SwapGate (qubit1 qubit2 : nat)               (* qc.swap(qubit1, qubit2) *)
| BarrierMarker                                (* qc.barrier() *)
| CPhase (theta : R) (control target : nat)    (* qc.cp(theta, control, target) *)
| SaveDensityMatrix                            (* qc.save_density_matrix() *)
| MeasureAll.                                  (* qc.measure_all() *)

(** A circuit is its register size and the instructions appended so far,
    oldest first. *)
Record QuantumCircuit : Type :=
  { num_qubits : nat; data : list Gate }.

Definition new_QuantumCircuit (n : nat) : QuantumCircuit :=
  {| num_qubits := n; data := [] |}.

Definition append (g : Gate) (qc : QuantumCircuit) : QuantumCircuit :=
  {| num_qubits := num_qubits qc; data := (data qc ++ [g])%list |}.

Definition qc_h (qubit : nat) := append (Hadamard qubit).
Definition qc_p (theta : R) (qubit : nat) := append (Phase theta qubit).
Definition qc_swap (q1 q2 : nat) := append (SwapGate q1 q2).
Definition qc_barrier := append BarrierMarker.
Definition qc_cp (theta : R) (control target : nat) :=
  append (CPhase theta control target).
(** [save_density_matrix()] on a register with at least one qubit;
    qiskit-aer refuses the call on an empty register. *)
Definition qc_save_density_matrix := append SaveDensityMatrix.
Definition qc_measure_all := append MeasureAll.

(** The name under which a noise model refers to an instruction. *)
Definition gate_name (g : Gate) : string :=
  match g with
  | Hadamard _ => "h"
  | Phase _ _ => "p"
  | SwapGate _ _ => "swap"
  | BarrierMarker => "barrier"
  | CPhase _ _ _ => "cp"
  | SaveDensityMatrix => "save_density_matrix"
  | MeasureAll => "measure"
  end.

Definition gate_qubits (g : Gate) : list nat :=
  match g with
  | Hadamard q | Phase _ q => [q]
  | SwapGate a b => [a; b]
  | CPhase _ c t => [c; t]
  | BarrierMarker | SaveDensityMatrix | MeasureAll => []
  end.

(** ** Noise models (the part of [qiskit_aer.noise] the source uses) *)

(** numpy arrays of floats, row by row. *)
Definition matrix : Type := list (list R).

Definition np_eye2 : matrix := [[1; 0]; [0; 1]]%R.
Definition np_scale (s : R) (m : matrix) : matrix :=
  map (map (fun x => (s * x)%R)) m.

(** A quantum error is recorded as the call that makes it. *)
Inductive QuantumError : Type :=
| depolarizing_error (param : R) (num_qubits : nat)
| amplitude_damping_error (param_amp : R)
| phase_damping_error (param_phase : R)
| Kraus (ops : list matrix).

(** [NoiseModel()] is empty; [add_all_qubit_quantum_error(error,
    instructions)] appends one entry. *)
Definition NoiseModel : Type := list (QuantumError * list string).

Definition add_all_qubit_quantum_error
    (error : QuantumError) (instructions : list string) (nm : NoiseModel)
  : NoiseModel :=
  (nm ++ [(error, instructions)])%list.

(** The errors a noise model attaches to an instruction: those registered
    under the instruction's name. *)
Definition errors_on (nm : NoiseModel) (g : Gate) : list QuantumError :=
  map fst
    (filter (fun entry => existsb (String.eqb (gate_name g)) (snd entry)) nm).

(** ** The environment of the program *)

Inductive Simulator : Type :=
| StatevectorSimulator (precision : string)
| AerSimulator (precision : string) (noise_model : option NoiseModel).

Inductive QuantumState (SV DM : Type) : Type :=
| Statevector (amplitudes : SV)
| DensityMatrix (rho : DM).
Arguments Statevector {SV DM} amplitudes.
Arguments DensityMatrix {SV DM} rho.

(** What the interpreter and the libraries compute for the program: which
    texts [int()] reads as base-10 integers and how [repr()] quotes a
    [str], and what qiskit, qiskit-aer and the circuit drawer return. Every
    library call can raise. [result_data r circ key] is
    [r.data(circ.name)[key]]. *)
Class Environment : Type := {
  int_literal : string -> option Z;
  repr : string -> string;
  TargetT : Type;
  StatevectorT : Type;
  DensityMatrixT : Type;
  CountsT : Type;
  ProbabilitiesT : Type;
  JobT : Type;
  ResultT : Type;
  transpile : option QuantumCircuit -> Simulator -> res QuantumCircuit;
  simulator_target : Simulator -> TargetT;
  simulator_run : Simulator -> QuantumCircuit -> nat -> res JobT;
  job_result : JobT -> res ResultT;
  get_statevector : ResultT -> QuantumCircuit -> res StatevectorT;
  get_counts : ResultT -> res CountsT;
  result_data : ResultT -> QuantumCircuit -> string -> res DensityMatrixT;
  probabilities : QuantumState StatevectorT DensityMatrixT -> ProbabilitiesT;
  circuit_drawer : QuantumCircuit -> res string
}.

(** [int(s)] for a [str] argument. *)
Definition py_int `{Environment} (s : string) : res Z :=
  match int_literal s with
  | Some z => Ok z
  | None =>
      Raise (mk_exn ValueError
               ("invalid literal for int() with base 10: " ++ repr s))
  end.

(** [int(x)] where [x] is a [str] or [None]. *)
Definition py_int_of `{Environment} (x : option string) : res Z :=
  match x with
  | Some s => py_int s
  | None =>
      Raise (mk_exn TypeError
        "int() argument must be a string, a bytes-like object or a real number, not 'NoneType'")
  end.

(** ** Class [IQFT] of [src/utils/iqft.py] *)

Module IQFT.
Section WithEnvironment.
Context `{E : Environment}.

Definition State : Type := QuantumState StatevectorT DensityMatrixT.

(** The attributes of an instance; [None] is Python's [None]. *)
Record t : Type := mk {
  n : nat;
  state : option string;
  qc : option QuantumCircuit;
  noise : bool;
  noise_type : option string;
  noise_options : option (gmap string R);
  resulting_state : option State;
  resulting_probabilities : option ProbabilitiesT;
  resulting_counts : option CountsT;
  measure : bool;
  target : option TargetT;
  comparison : bool;
  comp_fidelity : option (State * State);
  comp_counts : option (CountsT * CountsT)
}.

(** [__init__] *)
Definition init (n : nat) (state : option string) (noise : bool)
    (noise_type : option string) (noise_options : option (gmap string R))
    (measure comparison : bool) : t :=
  {| n := n; state := state; qc := None; noise := noise;
     noise_type := noise_type; noise_options := noise_options;
     resulting_state := None; resulting_probabilities := None;
     resulting_counts := None; measure := measure; target := None;
     comparison := comparison; comp_fidelity := None; comp_counts := None |}.

(** Attribute assignments [self.x = v]. *)
Definition set_qc (v : option QuantumCircuit) (s : t) : t :=
  mk (n s) (state s) v (noise s) (noise_type s) (noise_options s)
     (resulting_state s) (resulting_probabilities s) (resulting_counts s)
     (measure s) (target s) (comparison s) (comp_fidelity s) (comp_counts s).
Definition set_resulting_state (v : option State) (s : t) : t :=
  mk (n s) (state s) (qc s) (noise s) (noise_type s) (noise_options s)
     v (resulting_probabilities s) (resulting_counts s)
     (measure s) (target s) (comparison s) (comp_fidelity s) (comp_counts s).
Definition set_resulting_probabilities (v : option ProbabilitiesT) (s : t) : t :=
  mk (n s) (state s) (qc s) (noise s) (noise_type s) (noise_options s)
     (resulting_state s) v (resulting_counts s)
     (measure s) (target s) (comparison s) (comp_fidelity s) (comp_counts s).
Definition set_resulting_counts (v : option CountsT) (s : t) : t :=
  mk (n s) (state s) (qc s) (noise s) (noise_type s) (noise_options s)
     (resulting_state s) (resulting_probabilities s) v
     (measure s) (target s) (comparison s) (comp_fidelity s) (comp_counts s).
Definition set_target (v : option TargetT) (s : t) : t :=
  mk (n s) (state s) (qc s) (noise s) (noise_type s) (noise_options s)
     (resulting_state s) (resulting_probabilities s) (resulting_counts s)
     (measure s) v (comparison s) (comp_fidelity s) (comp_counts s).
Definition set_comp_fidelity (v : option (State * State)) (s : t) : t :=
  mk (n s) (state s) (qc s) (noise s) (noise_type s) (noise_options s)
     (resulting_state s) (resulting_probabilities s) (resulting_counts s)
     (measure s) (target s) (comparison s) v (comp_counts s).
Definition set_comp_counts (v : option (CountsT * CountsT)) (s : t) : t :=
  mk (n s) (state s) (qc s) (noise s) (noise_type s) (noise_options s)
     (resulting_state s) (resulting_probabilities s) (resulting_counts s)
     (measure s) (target s) (comparison s) (comp_fidelity s) v.

Definition M : Type -> Type := Method t.

(** *** [add_iqft_circuit] *)

(** The nested helper [add_iqft_rotations(circuit, n)]. *)
Definition add_iqft_rotations (circuit : QuantumCircuit) (n : nat)
  : res QuantumCircuit :=
  Py.for_each (Py.range n)
    (fun target circuit =>
       circuit ← Py.for_each (Py.reversed (Py.range target))
         (fun control circuit =>
            angle ← Py.float_div_int (- PI) (2 ^ Z.of_nat (target - control));
            Ok (qc_cp angle control target circuit))
         circuit;
       Ok (qc_h target circuit))
    circuit.

(** The body of the second loop (lines 41-42), on the variables
    [(curr_num, qc)] that it updates. *)
Definition phase_body (state : option string) (qubit : nat)
    (vars : Z * QuantumCircuit) : res (Z * QuantumCircuit) :=
  let '(curr_num, qc) := vars in
  i ← py_int_of state;
  x ← Py.int_mul_float i PI;
  theta ← Py.float_div_int x curr_num;
  Ok ((curr_num * 2)%Z, qc_p theta qubit qc).

Definition add_iqft_circuit (self : t) (qc : QuantumCircuit)
  : res QuantumCircuit :=
  let qc := fold_left (fun qc qubit => qc_h qubit qc) (Py.range (n self)) qc in
  '(curr_num, qc) ← Py.for_each (Py.reversed (Py.range (n self)))
     (phase_body (state self)) (1%Z, qc);
  let qc :=
    fold_left
      (fun qc qubit => qc_barrier (qc_swap qubit (n self - qubit - 1) qc))
      (Py.range (n self / 2)) qc in
  qc ← add_iqft_rotations qc (n self);
  let qc := if noise self then qc_save_density_matrix qc else qc in
  let qc := if measure self then qc_measure_all qc else qc in
  Ok qc.

(** *** [build_iqft] *)
Definition build_iqft : M string :=
  self ← get_self;
  let qc := new_QuantumCircuit (n self) in
  qc ← lift (add_iqft_circuit self qc);
  assign (set_qc (Some qc));;
  img_path ← lift (circuit_drawer qc);
  mret img_path.

(** *** [simulate] *)

(** [d[key]] for an attribute [d] that holds a dict or [None]. *)
Definition subscript (d : option (gmap string R)) (key : string) : res R :=
  match d with
  | None => Raise (mk_exn TypeError "'NoneType' object is not subscriptable")
  | Some m =>
      match m !! key with
      | Some v => Ok v
      | None => Raise (mk_exn KeyError (repr key))
      end
  end.

(** [x == s] for an attribute [x] that holds a [str] or [None]. *)
Definition str_eq (x : option string) (s : string) : bool :=
  match x with
  | Some x' => String.eqb x' s
  | None => false
  end.

(** Lines 65-88: the noise model handed to the noisy simulator, for a
    parameter in the domain of its channel. [sqrt] is numpy's on the
    non-negative reals; for a parameter outside the domain qiskit-aer
    raises a [NoiseError] at the constructor of the error or at
    [add_all_qubit_quantum_error], which is not modelled. *)
Definition build_noise_model (self : t) : res (option NoiseModel) :=
  if noise self then
    let noise_model : NoiseModel := [] in
    if str_eq (noise_type self) "Depolarizing" then
      param ← subscript (noise_options self) "depolarizing";
      let error := depolarizing_error param 1 in
      Ok (Some (add_all_qubit_quantum_error error ["h"] noise_model))
    else if str_eq (noise_type self) "Amplitude Damping" then
      param ← subscript (noise_options self) "amplitude_damping";
      let error := amplitude_damping_error param in
      Ok (Some (add_all_qubit_quantum_error error ["h"] noise_model))
    else if str_eq (noise_type self) "Phase Damping" then
      param ← subscript (noise_options self) "phase_damping";
      let error := phase_damping_error param in
      Ok (Some (add_all_qubit_quantum_error error ["h"] noise_model))
    else if str_eq (noise_type self) "Bit flip" then
      error ← subscript (noise_options self) "bit_flip";
      let K0 := np_scale (sqrt error) np_eye2 in
      let K1 := np_scale (sqrt (1 - error)) [[0; 1]; [1; 0]]%R in
      let noise_ops := Kraus [K0; K1] in
      Ok (Some (add_all_qubit_quantum_error noise_ops ["h"] noise_model))
    else if str_eq (noise_type self) "Phase flip" then
      error ← subscript (noise_options self) "phase_flip";
      let K0 := np_scale (sqrt error) np_eye2 in
      let K1 := np_scale (sqrt (1 - error)) [[1; 0]; [0; -1]]%R in
      let noise_ops := Kraus [K0; K1] in
      Ok (Some (add_all_qubit_quantum_error noise_ops ["h"] noise_model))
    else Ok (Some noise_model)
  else Ok None.

(** Lines 90-103. *)
Definition simulate_comparison (noise_model : option NoiseModel) : M unit :=
  let ideal := StatevectorSimulator "single" in
  qc0 ← get qc;
  ideal_circ ← lift (transpile qc0 ideal);
  ideal_job ← lift (simulator_run ideal ideal_circ 1024);
  ideal_result ← lift (job_result ideal_job);
  sv ← lift (get_statevector ideal_result ideal_circ);
  let ideal_state : State := Statevector sv in
  ideal_counts ← lift (get_counts ideal_result);
  let noisy := AerSimulator "single" noise_model in
  qc1 ← get qc;
  noisy_circ ← lift (transpile qc1 noisy);
  noisy_job ← lift (simulator_run noisy noisy_circ 1024);
  noisy_result ← lift (job_result noisy_job);
  dm ← lift (result_data noisy_result noisy_circ "density_matrix");
  let noisy_state : State := DensityMatrix dm in
  noisy_counts ← lift (get_counts noisy_result);
  assign (set_comp_counts (Some (ideal_counts, noisy_counts)));;
  assign (set_comp_fidelity (Some (ideal_state, noisy_state))).

(** Lines 106-113. *)
Definition simulate_ideal : M unit :=
  let statevector := StatevectorSimulator "single" in
  qc0 ← get qc;
  circ ← lift (transpile qc0 statevector);
  assign (set_target (Some (simulator_target statevector)));;
  job ← lift (simulator_run statevector circ 1024);
  r ← lift (job_result job);
  sv ← lift (get_statevector r circ);
  assign (set_resulting_state (Some (Statevector sv)));;
  assign (set_resulting_probabilities (Some (probabilities (Statevector sv))));;
  m ← get measure;
  if (m : bool) return M unit then
    r' ← lift (job_result job);
    counts ← lift (get_counts r');
    assign (set_resulting_counts (Some counts))
  else pass.

(** Lines 115-124. *)
Definition simulate_noisy (noise_model : option NoiseModel) : M unit :=
  let aer := AerSimulator "single" noise_model in
  qc0 ← get qc;
  circ ← lift (transpile qc0 aer);
  assign (set_target (Some (simulator_target aer)));;
  job ← lift (simulator_run aer circ 1024);
  result ← lift (job_result job);
  density_matrix ← lift (result_data result circ "density_matrix");
  assign (set_resulting_state (Some (DensityMatrix density_matrix)));;
  assign (set_resulting_probabilities
            (Some (probabilities (DensityMatrix density_matrix))));;
  m ← get measure;
  if (m : bool) return M unit then
    counts ← lift (get_counts result);
    assign (set_resulting_counts (Some counts))
  else pass.

Definition simulate : M unit :=
  self ← get_self;
  noise_model ← lift (build_noise_model self);
  c ← get comparison;
  if (c : bool) then simulate_comparison noise_model
  else
    ns ← get noise;
    if negb (ns : bool) then simulate_ideal else simulate_noisy noise_model.

(** The accessors. *)
Definition get_resulting_state (self : t) := resulting_state self.
Definition get_resulting_probabilities (self : t) := resulting_probabilities self.
Definition get_resulting_counts (self : t) := resulting_counts self.
Definition get_circuit (self : t) := qc self.
Definition get_target (self : t) := target self.
Definition get_comp_fidelity (self : t) := comp_fidelity self.
Definition get_comp_counts (self : t) := comp_counts self.

(** A caller's method calls on one instance, in order. A call that raises
    leaves the instance as it was when the exception left the method. *)
Inductive call : Type := call_build_iqft | call_simulate.

Definition run_call (c : call) (self : t) : t :=
  match c with
  | call_build_iqft => snd (build_iqft self)
  | call_simulate => snd (simulate self)
  end.

Definition run_calls (cs : list call) (self : t) : t :=
  fold_left (fun self c => run_call c self) cs self.

End WithEnvironment.
End IQFT.

(** ** An environment that records what it was asked

    Used for concrete runs: literals are ASCII, and a job, its result and
    every value read from it are the simulator, circuit and shot number of
    the run. Transpiling keeps the circuit; there is no circuit to
    transpile when [qc] is [None], a result holds a density matrix only if
    the circuit asked to save one, and it holds counts only if the circuit
    measures. *)

Inductive Run : Type :=
| RunOf (sim : Simulator) (circ : QuantumCircuit) (shots : nat).

Definition has_gate (g : Gate) (circ : QuantumCircuit) : bool :=
  existsb (fun g' => String.eqb (gate_name g') (gate_name g)) (data circ).

Definition recording : Environment := {|
  int_literal := Py.ascii_int_literal;
  repr := Py.ascii_repr;
  TargetT := Simulator;
  StatevectorT := Run;
  DensityMatrixT := Run;
  CountsT := Run;
  ProbabilitiesT := QuantumState Run Run;
  JobT := Run;
  ResultT := Run;
  transpile := fun qc _ =>
    match qc with
    | Some c => Ok c
    | None => Raise (mk_exn ExternalError "no circuit")
    end;
  simulator_target := fun sim => sim;
  simulator_run := fun sim circ shots => Ok (RunOf sim circ shots);
  job_result := fun job => Ok job;
  get_statevector := fun r _ => Ok r;
  get_counts := fun r =>
    match r with
    | RunOf _ circ _ =>
        if has_gate MeasureAll circ then Ok r
        else Raise (mk_exn ExternalError "No counts for experiment")
    end;
  result_data := fun r circ key =>
    if String.eqb key "density_matrix" && has_gate SaveDensityMatrix circ
    then Ok r else Raise (mk_exn KeyError (Py.ascii_repr key));
  probabilities := fun st => st;
  circuit_drawer := fun _ => Ok "circuit.png"
|}.


(** ** The gate sequence of the IQFT builder, layer by layer *)

Module Layers.

(** Hadamard on every qubit, in index order. *)
Definition hadamard_layer (n : nat) : list Gate :=
  map Hadamard (seq 0 n).

(** The [j]-th phase rotation (counting from 0) acts on qubit [n - 1 - j]
    with divisor [2^j]: the divisor starts at 1 and doubles. *)
Definition phase_gate (x : Z) (n j : nat) : Gate :=
  Phase (IZR x * PI / IZR (2 ^ Z.of_nat j))%R (n - 1 - j).

Definition phase_layer (x : Z) (n : nat) : list Gate :=
  map (phase_gate x n) (seq 0 n).

(** Swaps of qubit [q] with its mirror image for the first [n / 2]
    qubits, a barrier after each. *)
Definition swap_layer (n : nat) : list Gate :=
  flat_map (fun q => [SwapGate q (n - q - 1); BarrierMarker]) (seq 0 (n / 2)).

(** For target [t]: controlled phases from controls [t-1] down to [0],
    then a Hadamard on [t]. *)
Definition rotation_gate (t c : nat) : Gate :=
  CPhase (- PI / IZR (2 ^ Z.of_nat (t - c)))%R c t.

Definition rotation_block (t : nat) : list Gate :=
  (map (rotation_gate t) (rev (seq 0 t)) ++ [Hadamard t])%list.

Definition rotation_layer (n : nat) : list Gate :=
  flat_map rotation_block (seq 0 n).

Definition iqft_gates (x : Z) (n : nat) : list Gate :=
  (hadamard_layer n ++ phase_layer x n ++ swap_layer n ++ rotation_layer n)%list.

(** The markers that close a circuit. *)
Definition terminal_markers (noise measure : bool) : list Gate :=
  ((if noise then [SaveDensityMatrix] else []) ++
   (if measure then [MeasureAll] else []))%list.

Definition is_marker (g : Gate) : bool :=
  match g with
  | SaveDensityMatrix | MeasureAll => true
  | _ => false
  end.

(** The phase layer as the specification words it: the angle is
    [integer * pi / 2^k], where [k] starts at 1 and doubles after each
    qubit. *)
Fixpoint claimed_phase_loop (x : Z) (qubits : list nat) (k : Z) : list Gate :=
  match qubits with
  | [] => []
  | qubit :: rest =>
      Phase (IZR x * PI / IZR (2 ^ k))%R qubit
        :: claimed_phase_loop x rest (k * 2)%Z
  end.

Definition claimed_phase_layer (x : Z) (n : nat) : list Gate :=
  claimed_phase_loop x (rev (seq 0 n)) 1%Z.

Definition claimed_iqft_gates (x : Z) (n : nat) : list Gate :=
  (hadamard_layer n ++ claimed_phase_layer x n ++ swap_layer n
     ++ rotation_layer n)%list.

End Layers.

(** [qc] with the gates [gs] appended. *)
Definition extend (qc : QuantumCircuit) (gs : list Gate) : QuantumCircuit :=
  {| num_qubits := num_qubits qc; data := (data qc ++ gs)%list |}.

(** ** Evolution of a density matrix under a noise model

    Modelled from the spec: the noisy path of the Simulation Engine, which
    the repository delegates to qiskit-aer and which is not part of its
    sources. Every gate acts by unitary conjugation; where the noise model
    attaches an error to the gate, the error's Kraus map follows on each
    qubit the gate acts on. The numerical kernel (the state space and the
    two maps) is a parameter. *)

Module Evolution.
Section Kernel.
Variable rho : Type.
Variable apply_gate : Gate -> rho -> rho.
Variable apply_error : QuantumError -> nat -> rho -> rho.

Definition apply_errors (nm : option NoiseModel) (g : Gate) (r : rho) : rho :=
  match nm with
  | None => r
  | Some nm =>
      fold_left
        (fun r e => fold_left (fun r q => apply_error e q r) (gate_qubits g) r)
        (errors_on nm g) r
  end.

Definition step (nm : option NoiseModel) (g : Gate) (r : rho) : rho :=
  apply_errors nm g (apply_gate g r).

Definition evolve (nm : option NoiseModel) (circ : list Gate) (r0 : rho) : rho :=
  fold_left (fun r g => step nm g r) circ r0.

Definition evolve_ideal (circ : list Gate) (r0 : rho) : rho :=
  fold_left (fun r g => apply_gate g r) circ r0.

End Kernel.
End Evolution.

(** ** [QFTSimulator.build_circuit] of [src/simulator.py] *)

Module QFTSimulator.
Section WithEnvironment.
Context `{E : Environment}.

(** The classes [QFT] and [PhaseEstimation] live in modules that are not
    among the sources; their constructors and build methods are
    parameters. A build method returns the image path or raises, and
    leaves the object in some state. *)
Context {QFT PhaseEstimation : Type}.
Variable QFT_init :
  Z -> string -> bool -> option string -> option (gmap string R) ->
  bool -> bool -> QFT.
Variable build_qft : Method QFT string.
Variable PhaseEstimation_init :
  Z -> bool -> option string -> option (gmap string R) ->
  bool -> bool -> PhaseEstimation.
Variable build_phase_estimation : Method PhaseEstimation string.

Inductive Simulation : Type :=
| OfQFT (o : QFT)
| OfIQFT (o : IQFT.t)
| OfPhaseEstimation (o : PhaseEstimation).

Inductive MessageBox : Type :=
| showerror (title message : string)
| showwarning (title message : string)
| showinfo (title message : string).

(** The window: the values held by its widgets, the attributes set by
    [__init__] and by the callbacks ([None] for an attribute not yet
    created), the lines of the output panel and the dialogs shown. *)
Record t : Type := mk {
  n_entry : string;
  algorithm_var : string;
  noise_var : bool;
  measure : bool;
  compare_var : bool;
  noise_type : option string;
  noise_params : option (gmap string R);
  qubit_states : option (list string);
  iqft_number_entry : option string;
  current_simulation : option Simulation;
  output_text : list string;
  status_label : string;
  messageboxes : list MessageBox
}.

(** [display_circuit] draws on the canvas and handles its own errors. *)
Variable display_circuit : string -> t -> t.

Definition set_current_simulation (v : option Simulation) (s : t) : t :=
  mk (n_entry s) (algorithm_var s) (noise_var s) (measure s) (compare_var s)
     (noise_type s) (noise_params s) (qubit_states s) (iqft_number_entry s)
     v (output_text s) (status_label s) (messageboxes s).
Definition set_output_text (v : list string) (s : t) : t :=
  mk (n_entry s) (algorithm_var s) (noise_var s) (measure s) (compare_var s)
     (noise_type s) (noise_params s) (qubit_states s) (iqft_number_entry s)
     (current_simulation s) v (status_label s) (messageboxes s).
Definition set_status_label (v : string) (s : t) : t :=
  mk (n_entry s) (algorithm_var s) (noise_var s) (measure s) (compare_var s)
     (noise_type s) (noise_params s) (qubit_states s) (iqft_number_entry s)
     (current_simulation s) (output_text s) v (messageboxes s).
Definition set_messageboxes (v : list MessageBox) (s : t) : t :=
  mk (n_entry s) (algorithm_var s) (noise_var s) (measure s) (compare_var s)
     (noise_type s) (noise_params s) (qubit_states s) (iqft_number_entry s)
     (current_simulation s) (output_text s) (status_label s) v.

Definition messagebox (box : MessageBox) : Method t unit :=
  assign (fun s => set_messageboxes (messageboxes s ++ [box])%list s).

Definition add_text_to_bottom_panel (text : string) : Method t unit :=
  assign (fun s => set_output_text (output_text s ++ [text])%list s).

(** Reading an attribute that may not exist yet. *)
Definition attribute {A} (attr : t -> option A) (name : string) : Method t A :=
  v ← get attr;
  match v with
  | Some a => mret a
  | None =>
      lift (Raise (mk_exn AttributeError
        ("'_tkinter.tkapp' object has no attribute '" ++ name ++ "'")))
  end.

(** Lines 300-318: the basis labels of the selectors, one character per
    qubit; [inr (i, temp)] when the label of qubit [i] is not known. *)
Fixpoint qft_state (labels : list string) (i : nat) (state : string)
  : string + nat * string :=
  match labels with
  | [] => inl state
  | temp :: rest =>
      if String.eqb temp "|0⟩" then qft_state rest (S i) (state ++ "0")
      else if String.eqb temp "|1⟩" then qft_state rest (S i) (state ++ "1")
      else if String.eqb temp "|+⟩" then qft_state rest (S i) (state ++ "+")
      else if String.eqb temp "|−⟩" then qft_state rest (S i) (state ++ "-")
      else if String.eqb temp "|i⟩" then qft_state rest (S i) (state ++ "r")
      else if String.eqb temp "|−i⟩" then qft_state rest (S i) (state ++ "l")
      else inr (i, temp)
  end.

(** Calling a method of the object held in [current_simulation]: the
    object is updated in place. *)
Definition on_simulation {O A} (wrap : O -> Simulation) (o : O)
    (method : Method O A) : Method t A :=
  fun s =>
    let '(r, o') := method o in
    (r, set_current_simulation (Some (wrap o')) s).

(** Lines 294-329: the qubit count, then the simulation object and its
    circuit image; [None] stands for the early [return]. *)
Definition build_simulation (n_str : string) : Method t (option (Z * string)) :=
  n ← lift (py_int n_str);
  (if (n <? 1)%Z || (n >? 10)%Z return Method t unit then
     lift (Raise (mk_exn ValueError "Number of qubits must be between 1 and 10"))
   else pass);;
  algorithm ← get algorithm_var;
  nv ← get noise_var; nt ← get noise_type; np ← get noise_params;
  ms ← get measure; cmp ← get compare_var;
  if String.eqb algorithm "QFT" then
    labels ← attribute qubit_states "qubit_states";
    match qft_state labels 0 "" with
    | inr (i, temp) =>
        messagebox (showerror "Error"
          ("Invalid state for qubit " ++ pretty (i + 1) ++ ": " ++ temp));;
        mret None
    | inl state =>
        let sim := QFT_init n state nv nt np ms cmp in
        assign (set_current_simulation (Some (OfQFT sim)));;
        img_path ← on_simulation OfQFT sim build_qft;
        mret (Some (n, img_path))
    end
  else if String.eqb algorithm "IQFT" then
    state ← attribute iqft_number_entry "iqft_number_entry";
    let sim := IQFT.init (Z.to_nat n) (Some state) nv nt np ms cmp in
    assign (set_current_simulation (Some (OfIQFT sim)));;
    img_path ← on_simulation OfIQFT sim IQFT.build_iqft;
    mret (Some (n, img_path))
  else if String.eqb algorithm "Phase Estimation" then
    let sim := PhaseEstimation_init n nv nt np ms cmp in
    assign (set_current_simulation (Some (OfPhaseEstimation sim)));;
    img_path ← on_simulation OfPhaseEstimation sim build_phase_estimation;
    mret (Some (n, img_path))
  else
    lift (Raise (mk_exn ValueError ("Unknown algorithm: " ++ algorithm))).

(** Lines 293-336, the body of the [try]. *)
Definition build_circuit_try (n_str : string) : Method t unit :=
  built ← build_simulation n_str;
  match built with
  | None => pass
  | Some (n, img_path) =>
      assign (display_circuit img_path);;
      assign (set_status_label
                ("Circuit built with " ++ pretty (n : Z) ++ " qubits"));;
      algorithm ← get algorithm_var;
      add_text_to_bottom_panel
        ("Circuit built with " ++ pretty (n : Z) ++ " qubits using "
           ++ algorithm ++ " algorithm")
  end.

Definition build_circuit : Method t unit :=
  add_text_to_bottom_panel "Building quantum circuit...";;
  n_str ← get n_entry;
  try_except (build_circuit_try n_str)
    (fun e => messagebox (showerror "Error" ("Invalid input: " ++ exn_str e))).

End WithEnvironment.
End QFTSimulator.

(** ** The channels of the specification *)

(** The five channels of the specification: the label the front end
    passes as [noise_type], the key of the parameter in [noise_options],
    and the error made for a parameter. *)
Inductive NoiseChannel : Type :=
| Depolarizing | AmplitudeDamping | PhaseDamping | Bitflip | Phaseflip.

Definition channel_label (ch : NoiseChannel) : string :=
  match ch with
  | Depolarizing => "Depolarizing"
  | AmplitudeDamping => "Amplitude Damping"
  | PhaseDamping => "Phase Damping"
  | Bitflip => "Bit flip"
  | Phaseflip => "Phase flip"
  end.

Definition channel_key (ch : NoiseChannel) : string :=
  match ch with
  | Depolarizing => "depolarizing"
  | AmplitudeDamping => "amplitude_damping"
  | PhaseDamping => "phase_damping"
  | Bitflip => "bit_flip"
  | Phaseflip => "phase_flip"
  end.

(** [K0 = sqrt(p) I] with [K1 = sqrt(1 - p) X], respectively
    [K1 = sqrt(1 - p) Z], entry by entry. *)
Definition bitflip_kraus (p : R) : list matrix :=
  [ [[sqrt p; 0]; [0; sqrt p]];
    [[0; sqrt (1 - p)]; [sqrt (1 - p); 0]] ]%R.

Definition phaseflip_kraus (p : R) : list matrix :=
  [ [[sqrt p; 0]; [0; sqrt p]];
    [[sqrt (1 - p); 0]; [0; - sqrt (1 - p)]] ]%R.

Definition make_channel (ch : NoiseChannel) (p : R) : QuantumError :=
  match ch with
  | Depolarizing => depolarizing_error p 1
  | AmplitudeDamping => amplitude_damping_error p
  | PhaseDamping => phase_damping_error p
  | Bitflip => Kraus (bitflip_kraus p)
  | Phaseflip => Kraus (phaseflip_kraus p)
  end.

(** The parameters for which the channel exists: a probability, and for
    the depolarizing channel on one qubit [0 <= lambda < 4/3], the range
    that the noise panel of the front end shows
    ([0<=lambda<4^n/(4^n-1)], line 163 of [src/simulator.py]). *)
Definition channel_domain (ch : NoiseChannel) (p : R) : Prop :=
  match ch with
  | Depolarizing => (0 <= p < 4 / 3)%R
  | _ => (0 <= p <= 1)%R
  end.

(** ** Predicates used in the statements *)

(** What claim C4 calls an invalid state. *)
Definition claimed_invalid_state `{E : Environment} (n : nat) (s : string)
  : Prop :=
  int_literal s = None \/
  exists x, int_literal s = Some x /\ (x < 0 \/ 2 ^ Z.of_nat n <= x)%Z.

(** What holds of an instance made for comparison, whatever is called on
    it. *)
Definition comparison_only `{E : Environment} (self : IQFT.t) : Prop :=
  IQFT.comparison self = true
  /\ IQFT.resulting_state self = None
  /\ IQFT.resulting_probabilities self = None
  /\ IQFT.resulting_counts self = None.

(** The two runs of a comparison: the circuit held in [qc] is transpiled
    for and run on the statevector simulator and on the Aer simulator
    with the noise model, with 1024 shots each; the first result gives a
    statevector and counts, the second a density matrix and counts. *)
Definition comparison_run `{E : Environment} (qc : option QuantumCircuit)
    (nm : option NoiseModel) (ideal_state noisy_state : IQFT.State)
    (ideal_counts noisy_counts : CountsT) : Prop :=
  let ideal := StatevectorSimulator "single" in
  let noisy := AerSimulator "single" nm in
  exists ideal_circ ideal_job ideal_result sv
         noisy_circ noisy_job noisy_result dm,
    transpile qc ideal = Ok ideal_circ
    /\ simulator_run ideal ideal_circ 1024 = Ok ideal_job
    /\ job_result ideal_job = Ok ideal_result
    /\ get_statevector ideal_result ideal_circ = Ok sv
    /\ get_counts ideal_result = Ok ideal_counts
    /\ transpile qc noisy = Ok noisy_circ
    /\ simulator_run noisy noisy_circ 1024 = Ok noisy_job
    /\ job_result noisy_job = Ok noisy_result
    /\ result_data noisy_result noisy_circ "density_matrix" = Ok dm
    /\ get_counts noisy_result = Ok noisy_counts
    /\ ideal_state = Statevector sv
    /\ noisy_state = DensityMatrix dm.

(** ** Instances for concrete runs *)

(** One qubit, state ["1"], no noise, no measurement. *)
Definition one_qubit_state_1 : @IQFT.t recording :=
  IQFT.init 1 (Some "1") false None None false false.

(** Two qubits, state ["2"], noise and measurement requested. *)
Definition two_qubits_state_2 : @IQFT.t recording :=
  IQFT.init 2 (Some "2") true (Some "Bit flip") (Some {["bit_flip" := 1%R]})
    true false.

(** Two qubits and a negative state. *)
Definition two_qubits_state_minus_1 : @IQFT.t recording :=
  IQFT.init 2 (Some "-1") false None None false false.

Definition bitflip_options : gmap string R := {["bit_flip" := 1%R]}.

(** The circuit built for two qubits and state ["2"] with noise, with and
    without measurement. *)
Definition measured_circuit : QuantumCircuit :=
  {| num_qubits := 2;
     data := (Layers.iqft_gates 2 2 ++ [SaveDensityMatrix; MeasureAll])%list |}.

Definition unmeasured_circuit : QuantumCircuit :=
  {| num_qubits := 2;
     data := (Layers.iqft_gates 2 2 ++ [SaveDensityMatrix])%list |}.

(** An instance with a bit-flip channel of parameter 1, once built. *)
Definition with_bitflip (comparison : bool) : @IQFT.t recording :=
  IQFT.set_qc (Some measured_circuit)
    (IQFT.init 2 (Some "2") true (Some "Bit flip") (Some bitflip_options)
       true comparison).


(** An instance with noise requested and no channel, once built: what the
    front end makes when noise is enabled and the noise settings were
    never opened. *)
Definition without_channel : @IQFT.t recording :=
  IQFT.set_qc (Some unmeasured_circuit)
    (IQFT.init 2 (Some "2") true None None false false).



(** A window whose qubit-count entry holds 11; the classes that are not
    among the sources are stood in for by [unit]. *)
Definition window_11 : @QFTSimulator.t recording unit unit :=
  QFTSimulator.mk "11" "IQFT" false false false None None None (Some "2")
    None [] "Ready to build circuit" [].

(** ** A transpiler that optimises

    [transpile] is free to rewrite a circuit as long as it keeps what the
    circuit computes. The two rewrites here are of that kind: a rotation
    by the angle zero is dropped, and a Hadamard is cancelled against a
    Hadamard that follows it on the same qubit. The environment
    [recording_optimising] is [recording] with this transpiler. *)

Definition is_zero_rotation (g : Gate) : bool :=
  match g with
  | Phase theta _ => if Req_dec_T theta 0 then true else false
  | _ => false
  end.

Fixpoint cancel_hadamards (gates : list Gate) : list Gate :=
  match gates with
  | [] => []
  | Hadamard q :: rest =>
      match rest with
      | Hadamard q' :: rest' =>
          if q =? q' then cancel_hadamards rest'
          else Hadamard q :: cancel_hadamards rest
      | _ => Hadamard q :: cancel_hadamards rest
      end
  | g :: rest => g :: cancel_hadamards rest
  end.

Definition optimise (circ : QuantumCircuit) : QuantumCircuit :=
  {| num_qubits := num_qubits circ;
     data :=
       cancel_hadamards
         (List.filter (fun g => negb (is_zero_rotation g)) (data circ)) |}.

Definition recording_optimising : Environment := {|
  int_literal := Py.ascii_int_literal;
  repr := Py.ascii_repr;
  TargetT := Simulator;
  StatevectorT := Run;
  DensityMatrixT := Run;
  CountsT := Run;
  ProbabilitiesT := QuantumState Run Run;
  JobT := Run;
  ResultT := Run;
  transpile := fun qc _ =>
    match qc with
    | Some c => Ok (optimise c)
    | None => Raise (mk_exn ExternalError "no circuit")
    end;
  simulator_target := @simulator_target recording;
  simulator_run := @simulator_run recording;
  job_result := @job_result recording;
  get_statevector := @get_statevector recording;
  get_counts := @get_counts recording;
  result_data := @result_data recording;
  probabilities := @probabilities recording;
  circuit_drawer := @circuit_drawer recording
|}.

(** One qubit, state ["0"], a bit-flip channel of parameter one half, no
    measurement, in the environment that optimises; the circuit the
    builder makes for it, and what the transpiler leaves of that circuit. *)
Definition one_qubit_state_0 : @IQFT.t recording_optimising :=
  IQFT.init 1 (Some "0") true (Some "Bit flip")
    (Some {["bit_flip" := (1 / 2)%R]}) false false.

Definition one_qubit_circuit : QuantumCircuit :=
  {| num_qubits := 1;
     data := [Hadamard 0; Phase (0 * PI / 1) 0; Hadamard 0;
              SaveDensityMatrix] |}.

Definition one_qubit_transpiled : QuantumCircuit :=
  {| num_qubits := 1; data := [SaveDensityMatrix] |}.

(** A kernel that counts how often an error is applied. *)
Definition count_applications (nm : option NoiseModel) (gates : list Gate)
  : nat :=
  Evolution.evolve nat (fun _ r => r) (fun _ _ r => S r) nm gates 0.

(** ** Notions for the further properties of the builder *)

(** A gate fits a register of [n] qubits when every qubit it names is below
    [n] and a two-qubit gate names two different qubits. *)
Definition gate_fits (n : nat) (g : Gate) : bool :=
  match g with
  | Hadamard q | Phase _ q => q <? n
  | SwapGate a b | CPhase _ a b => (a <? n) && (b <? n) && negb (a =? b)
  | BarrierMarker | SaveDensityMatrix | MeasureAll => true
  end.

(** Where the content of wire [q] is after a gate, and after a list of
    gates: only a swap moves it. *)
Definition move_wire (q : nat) (g : Gate) : nat :=
  match g with
  | SwapGate a b => if q =? a then b else if q =? b then a else q
  | _ => q
  end.

Definition route (gates : list Gate) (q : nat) : nat :=
  fold_left move_wire gates q.

Definition is_hadamard (g : Gate) : bool :=
  match g with Hadamard _ => true | _ => false end.

Definition is_cphase (g : Gate) : bool :=
  match g with CPhase _ _ _ => true | _ => false end.

Definition count_gates (f : Gate -> bool) (gates : list Gate) : nat :=
  length (List.filter f gates).

(** ** Notions for the further properties of [simulate] *)

(** numpy's [a.T @ b] and [a + b] on 2x2 arrays. *)
Definition mat2_tmul (a b : matrix) : matrix :=
  match a, b with
  | [[a11; a12]; [a21; a22]], [[b11; b12]; [b21; b22]] =>
      [[a11 * b11 + a21 * b21; a11 * b12 + a21 * b22];
       [a12 * b11 + a22 * b21; a12 * b12 + a22 * b22]]%R
  | _, _ => []
  end.

Definition mat2_add (a b : matrix) : matrix :=
  match a, b with
  | [[a11; a12]; [a21; a22]], [[b11; b12]; [b21; b22]] =>
      [[a11 + b11; a12 + b12]; [a21 + b21; a22 + b22]]%R
  | _, _ => []
  end.

(** The attributes that configure an instance, as opposed to those that
    hold results. *)
Definition same_configuration `{E : Environment} (a b : IQFT.t) : Prop :=
  IQFT.n a = IQFT.n b
  /\ IQFT.state a = IQFT.state b
  /\ IQFT.qc a = IQFT.qc b
  /\ IQFT.noise a = IQFT.noise b
  /\ IQFT.noise_type a = IQFT.noise_type b
  /\ IQFT.noise_options a = IQFT.noise_options b
  /\ IQFT.measure a = IQFT.measure b
  /\ IQFT.comparison a = IQFT.comparison b.

(** The attributes that hold results. *)
Definition same_results `{E : Environment} (a b : IQFT.t) : Prop :=
  IQFT.resulting_state a = IQFT.resulting_state b
  /\ IQFT.resulting_probabilities a = IQFT.resulting_probabilities b
  /\ IQFT.resulting_counts a = IQFT.resulting_counts b
  /\ IQFT.target a = IQFT.target b
  /\ IQFT.comp_fidelity a = IQFT.comp_fidelity b
  /\ IQFT.comp_counts a = IQFT.comp_counts b.

(** What holds of an instance made for single runs, and of one made
    without measurement, whatever is called on it. *)
Definition single_run_only `{E : Environment} (self : IQFT.t) : Prop :=
  IQFT.comparison self = false
  /\ IQFT.comp_counts self = None
  /\ IQFT.comp_fidelity self = None.

Definition unmeasured `{E : Environment} (self : IQFT.t) : Prop :=
  IQFT.measure self = false /\ IQFT.resulting_counts self = None.

(** ** Notions for the further properties of the front end *)

(** The six basis labels that [build_circuit] knows. *)
Definition basis_labels : list string :=
  ["|0⟩"; "|1⟩"; "|+⟩"; "|−⟩"; "|i⟩"; "|−i⟩"].

Definition is_basis_label (temp : string) : bool :=
  existsb (String.eqb temp) basis_labels.

(** The window once [build_circuit] has written its first line to the
    output panel. *)
Definition announced `{E : Environment} {QFT PhaseEstimation : Type}
    (app : @QFTSimulator.t E QFT PhaseEstimation)
  : @QFTSimulator.t E QFT PhaseEstimation :=
  QFTSimulator.set_output_text
    (QFTSimulator.output_text app ++ ["Building quantum circuit..."])%list app.

(** The window after the error dialog of [build_circuit]. *)
Definition reported `{E : Environment} {QFT PhaseEstimation : Type}
    (message : string) (app : @QFTSimulator.t E QFT PhaseEstimation)
  : @QFTSimulator.t E QFT PhaseEstimation :=
  QFTSimulator.set_messageboxes
    (QFTSimulator.messageboxes app ++
     [QFTSimulator.showerror "Error" message])%list app.

(** ** The other callbacks of [QFTSimulator]

    [run_simulation], [reset_simulation], [create_noise_panel] with the
    [apply] of its button, and [show_comparison_window]. They use three
    things that [build_circuit] does not: the noise-type selector, the
    entries of the Analysis menu and the windows opened on top of the main
    one. *)

Module PyStr.

(** [s.lower()] and [s.replace(old, new)] for one-character [old] and
    [new], on ASCII text. *)
Definition lower_char (c : ascii) : ascii :=
  let k := nat_of_ascii c in
  if (65 <=? k) && (k <=? 90) then ascii_of_nat (k + 32) else c.

Fixpoint lower (s : string) : string :=
  match s with
  | EmptyString => EmptyString
  | String c s' => String (lower_char c) (lower s')
  end.

Fixpoint replace (old new : ascii) (s : string) : string :=
  match s with
  | EmptyString => EmptyString
  | String c s' =>
      String (if Ascii.eqb c old then new else c) (replace old new s')
  end.

End PyStr.

Module Desktop.
Section WithEnvironment.
Context `{E : Environment} {QFT PhaseEstimation : Type}.

(** What the classes that are not among the sources do when simulated and
    asked for their circuit and comparison results. *)
Variable simulate_qft : Method QFT unit.
Variable simulate_phase_estimation : Method PhaseEstimation unit.
Variable qft_get_circuit : QFT -> option QuantumCircuit.
Variable qft_get_comp_counts : QFT -> option (CountsT * CountsT).
Variable qft_get_comp_fidelity : QFT -> option (IQFT.State * IQFT.State).
Variable pe_get_circuit : PhaseEstimation -> option QuantumCircuit.
Variable pe_get_comp_counts : PhaseEstimation -> option (CountsT * CountsT).
Variable pe_get_comp_fidelity :
  PhaseEstimation -> option (IQFT.State * IQFT.State).

(** [state_fidelity] of qiskit with the text of its value as
    [f"{fidelity:.4f}"] prints it, and the drawing of the histogram of two
    count distributions on a canvas. *)
Variable state_fidelity_text : IQFT.State -> IQFT.State -> res string.
Variable plot_histogram : CountsT -> CountsT -> res unit.

Inductive Entry : Type :=
| BlochSphereAnalysis | ProbabilityAnalysis | StateCityAnalysis
| ComparisonAnalysis.

(** Which entries of the Analysis menu are enabled ([tk.NORMAL]). *)
Record Menu : Type := mk_menu {
  bloch_sphere : bool;
  probability : bool;
  state_city : bool;
  comparison_analysis : bool
}.

(** [create_menu] adds the four entries disabled. *)
Definition create_menu : Menu := mk_menu false false false false.

Definition entryconfig (entry : Entry) (enabled : bool) (m : Menu) : Menu :=
  match entry with
  | BlochSphereAnalysis =>
      mk_menu enabled (probability m) (state_city m) (comparison_analysis m)
  | ProbabilityAnalysis =>
      mk_menu (bloch_sphere m) enabled (state_city m) (comparison_analysis m)
  | StateCityAnalysis =>
      mk_menu (bloch_sphere m) (probability m) enabled (comparison_analysis m)
  | ComparisonAnalysis =>
      mk_menu (bloch_sphere m) (probability m) (state_city m) enabled
  end.

(** The main window with what the callbacks below add to it.
    [toplevels] lists the titles of the [tk.Toplevel] windows created so
    far, in order of creation; a window that is destroyed later stays in
    the list. *)
Record t : Type := mk {
  window : @QFTSimulator.t E QFT PhaseEstimation;
  noise_type_var : string;
  analysis_menu : Menu;
  toplevels : list string
}.

Definition set_window (v : @QFTSimulator.t E QFT PhaseEstimation) (s : t) : t :=
  mk v (noise_type_var s) (analysis_menu s) (toplevels s).
Definition set_analysis_menu (v : Menu) (s : t) : t :=
  mk (window s) (noise_type_var s) v (toplevels s).
Definition set_toplevels (v : list string) (s : t) : t :=
  mk (window s) (noise_type_var s) (analysis_menu s) v.

(** A method of the part of the window that [build_circuit] uses. *)
Definition in_window {A} (m : Method (@QFTSimulator.t E QFT PhaseEstimation) A)
  : Method t A :=
  fun s => let '(r, w) := m (window s) in (r, set_window w s).

Definition menu_entryconfig (entry : Entry) (enabled : bool) : Method t unit :=
  assign (fun s => set_analysis_menu (entryconfig entry enabled (analysis_menu s)) s).

Definition set_noise_type (v : option string)
    (s : @QFTSimulator.t E QFT PhaseEstimation)
  : @QFTSimulator.t E QFT PhaseEstimation :=
  QFTSimulator.mk (QFTSimulator.n_entry s) (QFTSimulator.algorithm_var s)
    (QFTSimulator.noise_var s) (QFTSimulator.measure s)
    (QFTSimulator.compare_var s) v (QFTSimulator.noise_params s)
    (QFTSimulator.qubit_states s) (QFTSimulator.iqft_number_entry s)
    (QFTSimulator.current_simulation s) (QFTSimulator.output_text s)
    (QFTSimulator.status_label s) (QFTSimulator.messageboxes s).

Definition set_noise_params (v : option (gmap string R))
    (s : @QFTSimulator.t E QFT PhaseEstimation)
  : @QFTSimulator.t E QFT PhaseEstimation :=
  QFTSimulator.mk (QFTSimulator.n_entry s) (QFTSimulator.algorithm_var s)
    (QFTSimulator.noise_var s) (QFTSimulator.measure s)
    (QFTSimulator.compare_var s) (QFTSimulator.noise_type s) v
    (QFTSimulator.qubit_states s) (QFTSimulator.iqft_number_entry s)
    (QFTSimulator.current_simulation s) (QFTSimulator.output_text s)
    (QFTSimulator.status_label s) (QFTSimulator.messageboxes s).

(** [self.current_simulation.simulate()] *)
Definition simulate_current
  : Method (@QFTSimulator.t E QFT PhaseEstimation) unit :=
  sim ← get QFTSimulator.current_simulation;
  match sim with
  | None =>
      lift (Raise (mk_exn AttributeError
                     "'NoneType' object has no attribute 'simulate'"))
  | Some (QFTSimulator.OfQFT o) =>
      QFTSimulator.on_simulation QFTSimulator.OfQFT o simulate_qft
  | Some (QFTSimulator.OfIQFT o) =>
      QFTSimulator.on_simulation QFTSimulator.OfIQFT o IQFT.simulate
  | Some (QFTSimulator.OfPhaseEstimation o) =>
      QFTSimulator.on_simulation QFTSimulator.OfPhaseEstimation o
        simulate_phase_estimation
  end.

(** Lines 377-395, the body of the [try] of [run_simulation]. *)
Definition run_simulation_try : Method t unit :=
  in_window simulate_current;;
  compare ← get (fun s => QFTSimulator.compare_var (window s));
  (if (compare : bool) return Method t unit then
     menu_entryconfig ComparisonAnalysis true;;
     menu_entryconfig BlochSphereAnalysis false;;
     menu_entryconfig ProbabilityAnalysis false;;
     menu_entryconfig StateCityAnalysis false
   else
     menu_entryconfig BlochSphereAnalysis true;;
     measure ← get (fun s => QFTSimulator.measure (window s));
     (if (measure : bool) return Method t unit then
        menu_entryconfig ProbabilityAnalysis true;;
        menu_entryconfig StateCityAnalysis true
      else
        menu_entryconfig ProbabilityAnalysis false;;
        menu_entryconfig StateCityAnalysis false);;
     menu_entryconfig ComparisonAnalysis false);;
  in_window (assign (QFTSimulator.set_status_label
                       "Simulation completed - Analysis menu enabled"));;
  in_window (QFTSimulator.add_text_to_bottom_panel
               "Simulation completed successfully").

Definition run_simulation : Method t unit :=
  in_window (QFTSimulator.add_text_to_bottom_panel "Running simulation...");;
  try_except run_simulation_try
    (fun e =>
       in_window (QFTSimulator.messagebox
                    (QFTSimulator.showerror "Error"
                       ("Simulation failed: " ++ exn_str e)))).

(** [reset_simulation]; [clear_bottom_panel] empties the output panel. *)
Definition reset_simulation : Method t unit :=
  menu_entryconfig BlochSphereAnalysis false;;
  menu_entryconfig ProbabilityAnalysis false;;
  menu_entryconfig StateCityAnalysis false;;
  menu_entryconfig ComparisonAnalysis false;;
  in_window (assign (QFTSimulator.set_output_text []));;
  in_window (assign (QFTSimulator.set_status_label "Ready to build circuit")).

(** [create_noise_panel] opens the panel and assigns [self.noise_type];
    it returns the noise type that the [apply] of its button keeps. *)
Definition create_noise_panel : Method t string :=
  assign (fun s => set_toplevels (toplevels s ++ ["Noise Parameters"])%list s);;
  noise_type ← get noise_type_var;
  in_window (assign (set_noise_type (Some noise_type)));;
  mret noise_type.

(** The key under which [apply] stores the parameter. *)
Definition options_key (noise_type : string) : string :=
  PyStr.replace " " "_" (PyStr.lower noise_type).

(** [apply], for the noise type of its panel and the value that the
    parameter entry holds. *)
Definition apply (noise_type : string) (param : R) : Method t unit :=
  in_window (assign (set_noise_params
                       (Some {[options_key noise_type := param]})));;
  in_window (assign (QFTSimulator.set_status_label "Noise applied!")).

(** The accessors of whichever simulation the window holds. *)
Definition get_circuit (sim : @QFTSimulator.Simulation E QFT PhaseEstimation)
  : option QuantumCircuit :=
  match sim with
  | QFTSimulator.OfQFT o => qft_get_circuit o
  | QFTSimulator.OfIQFT o => IQFT.get_circuit o
  | QFTSimulator.OfPhaseEstimation o => pe_get_circuit o
  end.

Definition get_comp_counts
    (sim : @QFTSimulator.Simulation E QFT PhaseEstimation)
  : option (CountsT * CountsT) :=
  match sim with
  | QFTSimulator.OfQFT o => qft_get_comp_counts o
  | QFTSimulator.OfIQFT o => IQFT.get_comp_counts o
  | QFTSimulator.OfPhaseEstimation o => pe_get_comp_counts o
  end.

Definition get_comp_fidelity
    (sim : @QFTSimulator.Simulation E QFT PhaseEstimation)
  : option (IQFT.State * IQFT.State) :=
  match sim with
  | QFTSimulator.OfQFT o => qft_get_comp_fidelity o
  | QFTSimulator.OfIQFT o => IQFT.get_comp_fidelity o
  | QFTSimulator.OfPhaseEstimation o => pe_get_comp_fidelity o
  end.

(** [a, b = x] for an [x] that holds a pair or [None]. *)
Definition unpack {A} (x : option (A * A)) : res (A * A) :=
  match x with
  | Some both => Ok both
  | None =>
      Raise (mk_exn TypeError "cannot unpack non-iterable NoneType object")
  end.

(** [show_comparison_window]; nothing catches what it raises. *)
Definition show_comparison_window : Method t unit :=
  held ← get (fun s => QFTSimulator.current_simulation (window s));
  match held with
  | None =>
      lift (Raise (mk_exn AttributeError
                     "'NoneType' object has no attribute 'get_circuit'"))
  | Some sim =>
      match get_circuit sim with
      | None =>
          in_window (QFTSimulator.messagebox
            (QFTSimulator.showwarning "Warning"
               "No simulation results available. Run a simulation first."))
      | Some _ =>
          assign (fun s =>
            set_toplevels (toplevels s ++ ["Fidelity Analysis"])%list s);;
          counts ← lift (unpack (get_comp_counts sim));
          states ← lift (unpack (get_comp_fidelity sim));
          fidelity ← lift (state_fidelity_text (fst states) (snd states));
          in_window (QFTSimulator.add_text_to_bottom_panel
                       ("Fidelity: " ++ fidelity));;
          lift (plot_histogram (fst counts) (snd counts))
      end
  end.

(** What a user does between callbacks, and the callbacks themselves. *)
Inductive action : Type :=
| Edit (change : @QFTSimulator.t E QFT PhaseEstimation ->
                 @QFTSimulator.t E QFT PhaseEstimation)
| RunSimulation
| ResetSimulation.

Definition perform (a : action) (s : t) : t :=
  match a with
  | Edit change => set_window (change (window s)) s
  | RunSimulation => snd (run_simulation s)
  | ResetSimulation => snd (reset_simulation s)
  end.

Definition perform_all (actions : list action) (s : t) : t :=
  fold_left (fun s a => perform a s) actions s.

(** The entries never contradict each other. *)
Definition menu_consistent (m : Menu) : Prop :=
  (comparison_analysis m = true ->
   bloch_sphere m = false /\ probability m = false /\ state_city m = false)
  /\ probability m = state_city m
  /\ (probability m = true -> bloch_sphere m = true).

End WithEnvironment.
End Desktop.

(** ** Further instances for concrete runs *)

(** The recording environment with a drawer that fails, and with a
    simulator that fails. *)
Definition recording_without_drawer : Environment := {|
  int_literal := Py.ascii_int_literal;
  repr := Py.ascii_repr;
  TargetT := Simulator;
  StatevectorT := Run;
  DensityMatrixT := Run;
  CountsT := Run;
  ProbabilitiesT := QuantumState Run Run;
  JobT := Run;
  ResultT := Run;
  transpile := @transpile recording;
  simulator_target := @simulator_target recording;
  simulator_run := @simulator_run recording;
  job_result := @job_result recording;
  get_statevector := @get_statevector recording;
  get_counts := @get_counts recording;
  result_data := @result_data recording;
  probabilities := @probabilities recording;
  circuit_drawer := fun _ => Raise (mk_exn ExternalError "no display")
|}.

Definition recording_without_simulator : Environment := {|
  int_literal := Py.ascii_int_literal;
  repr := Py.ascii_repr;
  TargetT := Simulator;
  StatevectorT := Run;
  DensityMatrixT := Run;
  CountsT := Run;
  ProbabilitiesT := QuantumState Run Run;
  JobT := Run;
  ResultT := Run;
  transpile := @transpile recording;
  simulator_target := @simulator_target recording;
  simulator_run := fun _ _ _ =>
    Raise (mk_exn ExternalError "simulator unavailable");
  job_result := @job_result recording;
  get_statevector := @get_statevector recording;
  get_counts := @get_counts recording;
  result_data := @result_data recording;
  probabilities := @probabilities recording;
  circuit_drawer := @circuit_drawer recording
|}.

(** Instances: an empty register with a state that is no integer, two
    qubits with such a state, two qubits in the environment without a
    drawer, and a built instance without noise in the two environments
    with a simulator and without. *)
Definition empty_register : @IQFT.t recording :=
  IQFT.init 0 (Some "abc") false None None true false.

Definition default_state : @IQFT.t recording :=
  IQFT.init 2 None false None None false false.

Definition two_qubits_state_abc : @IQFT.t recording :=
  IQFT.init 2 (Some "abc") false None None false false.

Definition two_qubits_undrawn : @IQFT.t recording_without_drawer :=
  IQFT.init 2 (Some "2") false None None false false.

Definition plain_circuit : QuantumCircuit :=
  {| num_qubits := 2; data := Layers.iqft_gates 2 2 |}.

Definition without_noise : @IQFT.t recording :=
  IQFT.set_qc (Some plain_circuit)
    (IQFT.init 2 (Some "2") false None None false false).

Definition without_noise_or_simulator : @IQFT.t recording_without_simulator :=
  IQFT.set_qc (Some plain_circuit)
    (IQFT.init 2 (Some "2") false None None false false).

(** Windows: each holds what the entries and selectors show. The classes
    that are not among the sources are stood in for by [unit]. *)
Definition window_with (n_entry algorithm : string)
    (qubit_states : option (list string)) (iqft_number_entry : option string)
  : @QFTSimulator.t recording unit unit :=
  QFTSimulator.mk n_entry algorithm true true false (Some "Bit flip")
    (Some bitflip_options) qubit_states iqft_number_entry None []
    "Ready to build circuit" [].

(** A window that holds the instance built by one call of [build_iqft],
    made without comparison, with the comparison box as given. *)
Definition built_single_run : @IQFT.t recording :=
  IQFT.run_calls [IQFT.call_build_iqft]
    (IQFT.init 2 (Some "2") true (Some "Bit flip") (Some bitflip_options)
       true false).

Definition window_holding (compare_var : bool)
    (held : option (@QFTSimulator.Simulation recording unit unit))
  : @QFTSimulator.t recording unit unit :=
  QFTSimulator.mk "2" "IQFT" true true compare_var (Some "Bit flip")
    (Some bitflip_options) None (Some "2") held []
    "Ready to build circuit" [].

Definition desktop_of (w : @QFTSimulator.t recording unit unit)
  : @Desktop.t recording unit unit :=
  Desktop.mk w "Bit flip" Desktop.create_menu [].

(** Stand-ins for the methods of the classes that are not among the
    sources and for the plotting library. *)
Definition unit_init7 (_ : Z) (_ : string) (_ : bool) (_ : option string)
    (_ : option (gmap string R)) (_ _ : bool) : unit := tt.
Definition unit_init6 (_ : Z) (_ : bool) (_ : option string)
    (_ : option (gmap string R)) (_ _ : bool) : unit := tt.
Definition unit_build (path : string) : Method unit string :=
  fun o => (Ok path, o).
Definition unit_simulate : Method unit unit := fun o => (Ok tt, o).
Definition unit_none {A} (_ : unit) : option A := None.
Definition same_window (_ : string) (w : @QFTSimulator.t recording unit unit)
  : @QFTSimulator.t recording unit unit := w.
Definition fidelity_one (_ _ : @IQFT.State recording) : res string :=
  Ok "1.0000".
Definition plot_nothing (_ _ : Run) : res unit := Ok tt.

(** * Properties *)

(** Runs the binds of a method up to the next call that can raise. *)
Ltac run_method :=
  unfold mbind, Method_bind, get, get_self, lift, assign, pass, mret,
    Method_ret; cbn.

(** Splits on the outcome of the next call that can raise. *)
Ltac backend_call :=
  match goal with
  | |- context [match ?r with Ok _ => _ | Raise _ => _ end] =>
      destruct r; cbn
  end.

(** ** Circuits under construction *)

Lemma append_extend g qc : append g qc = extend qc [g].
Proof. reflexivity. Qed.

Lemma extend_nil qc : extend qc [] = qc.
Proof. destruct qc as [k d]. unfold extend. simpl. now rewrite app_nil_r. Qed.

Lemma extend_extend qc gs hs :
  extend (extend qc gs) hs = extend qc (gs ++ hs)%list.
Proof. unfold extend. simpl. now rewrite <- app_assoc. Qed.

Lemma extend_new n gs :
  extend (new_QuantumCircuit n) gs = {| num_qubits := n; data := gs |}.
Proof. reflexivity. Qed.

(** A loop whose body only appends gates appends their concatenation. *)
Lemma fold_left_extend {A} (f : A -> list Gate)
    (body : QuantumCircuit -> A -> QuantumCircuit) (l : list A) qc :
  (forall qc x, body qc x = extend qc (f x)) ->
  fold_left body l qc = extend qc (flat_map f l).
Proof.
  intros Hbody. revert qc. induction l as [|x l IH]; intros qc; simpl.
  - now rewrite extend_nil.
  - now rewrite IH, Hbody, extend_extend.
Qed.

Lemma for_each_extend {A} (f : A -> list Gate) (l : list A)
    (body : A -> QuantumCircuit -> res QuantumCircuit) qc :
  (forall x qc, In x l -> body x qc = Ok (extend qc (f x))) ->
  Py.for_each l body qc = Ok (extend qc (flat_map f l)).
Proof.
  revert qc. induction l as [|x l IH]; intros qc Hbody; simpl.
  - now rewrite extend_nil.
  - rewrite Hbody by now left. simpl.
    rewrite IH by (intros; apply Hbody; now right).
    now rewrite extend_extend.
Qed.

Lemma for_each_cons {A S} (x : A) l (body : A -> S -> res S) s :
  Py.for_each (x :: l) body s
  = match body x s with
    | Ok s' => Py.for_each l body s'
    | Raise e => Raise e
    end.
Proof. reflexivity. Qed.

Lemma flat_map_singleton {A C} (f : A -> C) (l : list A) :
  flat_map (fun x => [f x]) l = map f l.
Proof. induction l; simpl; congruence. Qed.

(** ** Conversions of integers to floats *)

Lemma float_of_int_fits i :
  Py.fits_float i = true -> Py.float_of_int i = Ok (IZR i).
Proof. unfold Py.float_of_int. now intros ->. Qed.

Lemma float_of_int_overflow i :
  Py.fits_float i = false -> raises (Py.float_of_int i) OverflowError.
Proof. unfold Py.float_of_int. intros ->. now eexists. Qed.

Lemma pow2_fits (k : nat) :
  k <= 1023 -> Py.fits_float (2 ^ Z.of_nat k) = true.
Proof.
  intros Hk. unfold Py.fits_float. apply Z.ltb_lt.
  rewrite Z.abs_eq by (apply Z.pow_nonneg; lia).
  apply Z.le_lt_trans with (2 ^ 1023)%Z.
  - apply Z.pow_le_mono_r; lia.
  - now vm_compute.
Qed.

(** An integer that a float holds exactly is within float range. *)
Lemma exact_int_fits (x : Z) :
  (Z.abs x <= 2 ^ 53)%Z -> Py.fits_float x = true.
Proof.
  intros Hx. unfold Py.fits_float. apply Z.ltb_lt.
  apply Z.le_lt_trans with (2 ^ 53)%Z; [assumption | now vm_compute].
Qed.

Lemma pow2_nonzero (k : nat) : (2 ^ Z.of_nat k =? 0)%Z = false.
Proof. apply Z.eqb_neq. apply Z.pow_nonzero; lia. Qed.

Lemma float_div_pow2 (f : R) (k : nat) :
  k <= 1023 ->
  Py.float_div_int f (2 ^ Z.of_nat k) = Ok (f / IZR (2 ^ Z.of_nat k))%R.
Proof.
  intros Hk. unfold Py.float_div_int.
  rewrite float_of_int_fits by now apply pow2_fits.
  simpl. now rewrite pow2_nonzero.
Qed.

Lemma int_mul_float_fits i f :
  Py.fits_float i = true -> Py.int_mul_float i f = Ok (IZR i * f)%R.
Proof.
  intros Hi. unfold Py.int_mul_float. now rewrite float_of_int_fits.
Qed.

(** ** The loops of [add_iqft_circuit] *)

Section Builder.
Context `{E : Environment}.
Import Layers.

Lemma rev_seq_mirror (n : nat) :
  rev (seq 0 n) = map (fun j => n - 1 - j) (seq 0 n).
Proof.
  induction n as [|n IH].
  - reflexivity.
  - rewrite seq_S at 1. rewrite rev_app_distr. simpl rev. simpl app.
    rewrite IH. simpl seq. simpl map. f_equal; [lia|].
    rewrite <- seq_shift, map_map. apply map_ext. intros j. lia.
Qed.

Lemma phase_body_ok st x qubit (j : nat) qc :
  py_int_of st = Ok x ->
  Py.fits_float x = true ->
  j <= 1023 ->
  IQFT.phase_body st qubit ((2 ^ Z.of_nat j)%Z, qc)
  = Ok ((2 ^ Z.of_nat (S j))%Z,
        extend qc [Phase (IZR x * PI / IZR (2 ^ Z.of_nat j))%R qubit]).
Proof.
  intros Hst Hx Hj. unfold IQFT.phase_body. rewrite Hst. simpl.
  rewrite int_mul_float_fits by assumption. simpl.
  rewrite float_div_pow2 by lia. simpl.
  replace (2 ^ Z.of_nat j * 2)%Z with (2 ^ Z.of_nat (S j))%Z
    by (rewrite Nat2Z.inj_succ, Z.pow_succ_r; lia).
  reflexivity.
Qed.

Lemma phase_loop_ok st x n k : forall j0 qc,
  py_int_of st = Ok x ->
  Py.fits_float x = true ->
  j0 + k <= 1024 ->
  Py.for_each (map (fun j => n - 1 - j) (seq j0 k)) (IQFT.phase_body st)
    ((2 ^ Z.of_nat j0)%Z, qc)
  = Ok ((2 ^ Z.of_nat (j0 + k))%Z,
        extend qc (map (phase_gate x n) (seq j0 k))).
Proof.
  induction k as [|k IH]; intros j0 qc Hst Hx Hk.
  - simpl. rewrite extend_nil. now rewrite Nat.add_0_r.
  - cbn [seq map]. rewrite for_each_cons.
    rewrite phase_body_ok with (x := x) by (assumption || lia).
    rewrite IH by (assumption || lia).
    rewrite extend_extend.
    replace (S j0 + k) with (j0 + S k) by lia.
    reflexivity.
Qed.

Lemma phase_loop_raises st e n qc :
  1 <= n ->
  py_int_of st = Raise e ->
  Py.for_each (Py.reversed (Py.range n)) (IQFT.phase_body st) (1%Z, qc) = Raise e.
Proof.
  intros Hn Hst. unfold Py.reversed, Py.range.
  rewrite rev_seq_mirror. destruct n as [|n]; [lia|].
  cbn [seq map]. rewrite for_each_cons.
  unfold IQFT.phase_body at 1. now rewrite Hst.
Qed.

Lemma phase_loop_overflow st x n qc :
  1 <= n ->
  py_int_of st = Ok x ->
  Py.fits_float x = false ->
  raises (Py.for_each (Py.reversed (Py.range n)) (IQFT.phase_body st) (1%Z, qc))
         OverflowError.
Proof.
  intros Hn Hst Hx. unfold Py.reversed, Py.range.
  rewrite rev_seq_mirror. destruct n as [|n]; [lia|].
  cbn [seq map]. rewrite for_each_cons.
  unfold IQFT.phase_body at 1. rewrite Hst.
  unfold Py.int_mul_float, Py.float_of_int.
  cbn [mbind res_bind]. rewrite Hx. now eexists.
Qed.

Lemma rotations_ok qc n :
  n <= 1024 ->
  IQFT.add_iqft_rotations qc n = Ok (extend qc (rotation_layer n)).
Proof.
  intros Hn. unfold IQFT.add_iqft_rotations, rotation_layer.
  apply for_each_extend. intros t c Ht.
  apply in_seq in Ht.
  rewrite for_each_extend with (f := fun c => [rotation_gate t c]).
  - simpl. unfold qc_h. rewrite append_extend, extend_extend.
    now rewrite flat_map_singleton.
  - intros ctl c' Hc. unfold Py.reversed, Py.range in Hc.
    apply in_rev, in_seq in Hc.
    rewrite float_div_pow2 by lia. reflexivity.
Qed.

Lemma swaps_ok qc n :
  fold_left (fun qc qubit => qc_barrier (qc_swap qubit (n - qubit - 1) qc))
    (Py.range (n / 2)) qc
  = extend qc (swap_layer n).
Proof.
  unfold swap_layer. apply fold_left_extend. intros c q.
  unfold qc_barrier, qc_swap. now rewrite !append_extend, extend_extend.
Qed.

Lemma hadamards_ok qc n :
  fold_left (fun qc qubit => qc_h qubit qc) (Py.range n) qc
  = extend qc (hadamard_layer n).
Proof.
  unfold hadamard_layer. rewrite <- flat_map_singleton.
  apply fold_left_extend. reflexivity.
Qed.

Lemma markers_ok qc noise measure :
  (let qc := if noise : bool then qc_save_density_matrix qc else qc in
   if measure : bool then qc_measure_all qc else qc)
  = extend qc (terminal_markers noise measure).
Proof.
  destruct noise, measure; simpl; unfold terminal_markers; simpl;
    unfold qc_measure_all, qc_save_density_matrix;
    rewrite ?append_extend, ?extend_extend, ?extend_nil; reflexivity.
Qed.

(** The builder on a state that converts: all four layers, then the
    markers. *)
Lemma add_iqft_circuit_ok (self : IQFT.t) qc x :
  IQFT.n self <= 1024 ->
  py_int_of (IQFT.state self) = Ok x ->
  Py.fits_float x = true ->
  IQFT.add_iqft_circuit self qc
  = Ok (extend qc (iqft_gates x (IQFT.n self) ++
                   terminal_markers (IQFT.noise self) (IQFT.measure self))).
Proof.
  intros Hn Hst Hx. unfold IQFT.add_iqft_circuit.
  rewrite hadamards_ok.
  unfold Py.reversed, Py.range at 1. rewrite rev_seq_mirror.
  pose proof (phase_loop_ok (IQFT.state self) x (IQFT.n self) (IQFT.n self) 0
                (extend qc (hadamard_layer (IQFT.n self))) Hst Hx Hn) as Hloop.
  change (2 ^ Z.of_nat 0)%Z with 1%Z in Hloop. rewrite Hloop. simpl mbind.
  unfold mbind, res_bind.
  rewrite swaps_ok, rotations_ok by assumption.
  rewrite markers_ok. rewrite !extend_extend.
  unfold iqft_gates, phase_layer. now rewrite <- !app_assoc.
Qed.

(** The builder on a state that does not convert, for a register that is
    not empty: the exception of the conversion. *)
Lemma add_iqft_circuit_raises (self : IQFT.t) qc e :
  1 <= IQFT.n self ->
  py_int_of (IQFT.state self) = Raise e ->
  IQFT.add_iqft_circuit self qc = Raise e.
Proof.
  intros Hn Hst. unfold IQFT.add_iqft_circuit.
  now rewrite (phase_loop_raises _ e) by assumption.
Qed.

(** [build_iqft] on a state that converts: the circuit is stored in [qc]
    and handed to the drawer. *)
Lemma build_iqft_ok (self : IQFT.t) x path :
  let built :=
    extend (new_QuantumCircuit (IQFT.n self))
      (iqft_gates x (IQFT.n self) ++
       terminal_markers (IQFT.noise self) (IQFT.measure self)) in
  IQFT.n self <= 1024 ->
  py_int_of (IQFT.state self) = Ok x ->
  Py.fits_float x = true ->
  circuit_drawer built = Ok path ->
  IQFT.build_iqft self = (Ok path, IQFT.set_qc (Some built) self).
Proof.
  intros built Hn Hst Hx Hdraw. unfold IQFT.build_iqft.
  unfold mbind, Method_bind, get_self, lift, assign, mret, Method_ret.
  rewrite add_iqft_circuit_ok with (x := x) by assumption.
  fold built. now rewrite Hdraw.
Qed.

Lemma add_iqft_circuit_overflow (self : IQFT.t) qc x :
  1 <= IQFT.n self ->
  py_int_of (IQFT.state self) = Ok x ->
  Py.fits_float x = false ->
  raises (IQFT.add_iqft_circuit self qc) OverflowError.
Proof.
  intros Hn Hst Hx. unfold IQFT.add_iqft_circuit.
  destruct (phase_loop_overflow (IQFT.state self) x (IQFT.n self)
              (fold_left (fun qc qubit => qc_h qubit qc)
                 (Py.range (IQFT.n self)) qc) Hn Hst Hx) as [msg Hm].
  rewrite Hm. now exists msg.
Qed.

End Builder.

(** ** The gate sequence of the builder *)

Section BuilderClaims.
Context `{E : Environment}.
Import Layers.

Lemma iqft_gates_no_marker x n :
  Forall (fun g => is_marker g = false) (iqft_gates x n).
Proof.
  unfold iqft_gates, hadamard_layer, phase_layer, swap_layer, rotation_layer,
    rotation_block.
  repeat rewrite List.Forall_app.
  repeat split; apply List.Forall_forall; intros g Hg.
  - apply in_map_iff in Hg as (q & <- & _). reflexivity.
  - apply in_map_iff in Hg as (j & <- & _). reflexivity.
  - apply in_flat_map in Hg as (q & _ & [<- | [<- | []]]); reflexivity.
  - apply in_flat_map in Hg as (t & _ & Hg).
    apply in_app_iff in Hg as [Hg | [<- | []]]; [|reflexivity].
    apply in_map_iff in Hg as (c & <- & _). reflexivity.
Qed.

(** C1 (amended). For a register of 1 to 10 qubits and a state string that
    denotes an integer [x] that a float holds exactly ([|x| <= 2^53], which
    covers every [0 <= x < 2^n]), the builder emits exactly:
    a Hadamard on every qubit; then, for the qubits in reverse order, a
    phase rotation of angle [x * pi / d] where the divisor [d] starts at 1
    and doubles after each qubit; then the swap of each of the first
    [n / 2] qubits with its mirror image, each followed by a barrier; then,
    for each target [t] from 0 to [n - 1], controlled phases of angle
    [- pi / 2^(t - c)] from the controls [c = t - 1] down to [0] followed
    by a Hadamard on [t]; then the closing markers. *)
Theorem iqft_gate_sequence (self : IQFT.t) (s : string) (x : Z) :
  1 <= IQFT.n self <= 10 ->
  IQFT.state self = Some s ->
  int_literal s = Some x ->
  (Z.abs x <= 2 ^ 53)%Z ->
  IQFT.add_iqft_circuit self (new_QuantumCircuit (IQFT.n self))
  = Ok {| num_qubits := IQFT.n self;
          data :=
            (map Hadamard (seq 0 (IQFT.n self))
             ++ map (fun j => Phase (IZR x * PI / IZR (2 ^ Z.of_nat j))%R
                                (IQFT.n self - 1 - j))
                  (seq 0 (IQFT.n self))
             ++ flat_map (fun q => [SwapGate q (IQFT.n self - q - 1);
                                    BarrierMarker])
                  (seq 0 (IQFT.n self / 2))
             ++ flat_map
                  (fun t =>
                     map (fun c =>
                            CPhase (- PI / IZR (2 ^ Z.of_nat (t - c)))%R c t)
                       (rev (seq 0 t)) ++ [Hadamard t])
                  (seq 0 (IQFT.n self))
             ++ terminal_markers (IQFT.noise self) (IQFT.measure self))%list
       |}.
Proof.
  intros [Hlo Hhi] Hs Hlit Hx. apply exact_int_fits in Hx.
  rewrite add_iqft_circuit_ok with (x := x); try assumption; try lia.
  - rewrite extend_new. unfold iqft_gates.
    now rewrite <- !app_assoc.
  - rewrite Hs. simpl. unfold py_int. now rewrite Hlit.
Qed.

(** C7. After the gates of the algorithm, which contain no marker, the
    builder appends the density-matrix marker exactly when noise is
    requested and the measurement of all qubits exactly when measurement is
    requested, the former before the latter, and nothing else. *)
Theorem terminal_markers_appended (self : IQFT.t) (x : Z) :
  1 <= IQFT.n self <= 10 ->
  py_int_of (IQFT.state self) = Ok x ->
  Py.fits_float x = true ->
  IQFT.add_iqft_circuit self (new_QuantumCircuit (IQFT.n self))
  = Ok {| num_qubits := IQFT.n self;
          data := (iqft_gates x (IQFT.n self)
                   ++ (if IQFT.noise self then [SaveDensityMatrix] else [])
                   ++ (if IQFT.measure self then [MeasureAll] else []))%list |}
  /\ Forall (fun g => g <> SaveDensityMatrix /\ g <> MeasureAll)
       (iqft_gates x (IQFT.n self)).
Proof.
  intros [Hlo Hhi] Hst Hx. split.
  - rewrite add_iqft_circuit_ok with (x := x); try assumption; try lia.
    reflexivity.
  - eapply List.Forall_impl; [|apply iqft_gates_no_marker].
    intros g Hg. split; intros ->; discriminate.
Qed.

(** C4 (amended). For a register of 1 to 10 qubits, building fails exactly
    when the state string does not denote an integer (a [ValueError]) or
    denotes one too large for a float (an [OverflowError]); every other
    integer, negative or not, below [2^n] or not, builds. *)
Theorem iqft_state_errors (self : IQFT.t) (s : string) :
  1 <= IQFT.n self <= 10 ->
  IQFT.state self = Some s ->
  let built := IQFT.add_iqft_circuit self (new_QuantumCircuit (IQFT.n self)) in
  (is_ok built = false <->
     int_literal s = None \/
     exists x, int_literal s = Some x /\ Py.fits_float x = false)
  /\ (int_literal s = None -> raises built ValueError)
  /\ (forall x, int_literal s = Some x -> Py.fits_float x = false ->
        raises built OverflowError).
Proof.
  intros [Hlo Hhi] Hs built.
  assert (Hint : py_int_of (IQFT.state self) = py_int s) by now rewrite Hs.
  assert (Hnone : int_literal s = None -> raises built ValueError).
  { intros Hlit. unfold built. eexists.
    apply add_iqft_circuit_raises; [lia|].
    rewrite Hint. unfold py_int. rewrite Hlit. reflexivity. }
  assert (Hbig : forall x, int_literal s = Some x ->
                  Py.fits_float x = false -> raises built OverflowError).
  { intros x Hlit Hx. unfold built.
    apply add_iqft_circuit_overflow with (x := x); [lia| |assumption].
    rewrite Hint. unfold py_int. now rewrite Hlit. }
  split; [|split; assumption].
  split.
  - intros Hfail. destruct (int_literal s) as [x|] eqn:Hlit; [|now left].
    right. exists x. split; [reflexivity|].
    destruct (Py.fits_float x) eqn:Hx; [|reflexivity].
    unfold built in Hfail.
    rewrite add_iqft_circuit_ok with (x := x) in Hfail;
      [discriminate | lia | | assumption].
    rewrite Hint. unfold py_int. now rewrite Hlit.
  - intros [Hlit | (x & Hlit & Hx)].
    + destruct (Hnone Hlit) as [msg ->]. reflexivity.
    + destruct (Hbig x Hlit Hx) as [msg ->]. reflexivity.
Qed.

End BuilderClaims.

(** ** Concrete builds *)

Section BuilderRuns.
Import Layers.
#[local] Existing Instance recording.

Lemma iqft_gate_sequence_witness :
  IQFT.add_iqft_circuit two_qubits_state_2 (new_QuantumCircuit 2)
  = Ok {| num_qubits := 2;
          data := [Hadamard 0; Hadamard 1;
                   Phase (2 * PI / IZR (2 ^ 0)) 1;
                   Phase (2 * PI / IZR (2 ^ 1)) 0;
                   SwapGate 0 1; BarrierMarker;
                   Hadamard 0;
                   CPhase (- PI / IZR (2 ^ 1)) 0 1; Hadamard 1;
                   SaveDensityMatrix; MeasureAll] |}.
Proof.
  apply (iqft_gate_sequence two_qubits_state_2 "2" 2).
  - simpl. lia.
  - reflexivity.
  - reflexivity.
  - vm_compute. discriminate.
Defined.

(** The sequence of claim C1 as worded (divisor [2^k], [k] starting at 1
    and doubling) is not what the builder emits for one qubit and state
    ["1"]: the builder's only phase rotation has angle [pi], the worded one
    [pi / 2]. *)
Lemma iqft_gate_sequence_counterexample :
  IQFT.add_iqft_circuit one_qubit_state_1 (new_QuantumCircuit 1)
  = Ok {| num_qubits := 1;
          data := [Hadamard 0; Phase (1 * PI / 1) 0; Hadamard 0] |}
  /\ claimed_iqft_gates 1 1
     = [Hadamard 0; Phase (1 * PI / IZR (2 ^ 1)) 0; Hadamard 0]
  /\ IQFT.add_iqft_circuit one_qubit_state_1 (new_QuantumCircuit 1)
     <> Ok {| num_qubits := 1; data := claimed_iqft_gates 1 1 |}.
Proof.
  assert (Hrun : IQFT.add_iqft_circuit one_qubit_state_1 (new_QuantumCircuit 1)
                 = Ok {| num_qubits := 1;
                         data := [Hadamard 0; Phase (1 * PI / 1) 0;
                                  Hadamard 0] |}).
  { rewrite add_iqft_circuit_ok with (x := 1%Z);
      [reflexivity | simpl; lia | reflexivity | reflexivity]. }
  split; [exact Hrun|]. split; [reflexivity|].
  rewrite Hrun. intros Heq. injection Heq as Heq.
  change (2 ^ 1)%Z with 2%Z in Heq.
  pose proof PI_RGT_0. lra.
Qed.

Lemma terminal_markers_appended_witness :
  IQFT.add_iqft_circuit two_qubits_state_2 (new_QuantumCircuit 2)
  = Ok {| num_qubits := 2;
          data := (iqft_gates 2 2 ++ [SaveDensityMatrix] ++ [MeasureAll])%list |}
  /\ Forall (fun g => g <> SaveDensityMatrix /\ g <> MeasureAll)
       (iqft_gates 2 2).
Proof.
  apply (terminal_markers_appended two_qubits_state_2 2).
  - simpl. lia.
  - reflexivity.
  - reflexivity.
Defined.

(** A negative state is invalid by the claim, and builds. *)
Lemma iqft_state_errors_counterexample :
  ~ (is_ok (IQFT.add_iqft_circuit two_qubits_state_minus_1
              (new_QuantumCircuit 2)) = false
     <-> claimed_invalid_state 2 "-1").
Proof.
  intros [_ Hclaim].
  assert (Hinvalid : claimed_invalid_state 2 "-1").
  { right. exists (-1)%Z. split; [reflexivity | lia]. }
  specialize (Hclaim Hinvalid).
  rewrite add_iqft_circuit_ok with (x := (-1)%Z) in Hclaim;
    [discriminate | simpl; lia | reflexivity | reflexivity].
Qed.

Lemma iqft_state_errors_witness :
  let built :=
    IQFT.add_iqft_circuit two_qubits_state_minus_1 (new_QuantumCircuit 2) in
  (is_ok built = false <->
     int_literal "-1" = None \/
     exists x, int_literal "-1" = Some x /\ Py.fits_float x = false)
  /\ (int_literal "-1" = None -> raises built ValueError)
  /\ (forall x, int_literal "-1" = Some x -> Py.fits_float x = false ->
        raises built OverflowError).
Proof.
  apply (iqft_state_errors two_qubits_state_minus_1 "-1").
  - simpl. lia.
  - reflexivity.
Defined.

End BuilderRuns.

(** ** The methods leave most attributes alone *)

Section Frames.
Context `{E : Environment}.

(** [simulate], branch by branch. *)
Lemma simulate_unfold (self : IQFT.t) :
  IQFT.simulate self
  = match IQFT.build_noise_model self with
    | Ok noise_model =>
        if IQFT.comparison self then IQFT.simulate_comparison noise_model self
        else if negb (IQFT.noise self) then IQFT.simulate_ideal self
        else IQFT.simulate_noisy noise_model self
    | Raise e => (Raise e, self)
    end.
Proof.
  unfold IQFT.simulate. run_method.
  destruct (IQFT.build_noise_model self); [|reflexivity].
  destruct (IQFT.comparison self); [reflexivity|].
  destruct (IQFT.noise self); reflexivity.
Qed.

Lemma set_comp_same (self : IQFT.t) :
  IQFT.set_comp_fidelity (IQFT.comp_fidelity self)
    (IQFT.set_comp_counts (IQFT.comp_counts self) self) = self.
Proof. now destruct self. Qed.

(** A comparison assigns the two comparison attributes or nothing. *)
Lemma simulate_comparison_frame nm (self : IQFT.t) :
  exists cc cf,
    snd (IQFT.simulate_comparison nm self)
    = IQFT.set_comp_fidelity cf (IQFT.set_comp_counts cc self).
Proof.
  unfold IQFT.simulate_comparison. run_method.
  repeat backend_call;
    solve [ eexists _, _; reflexivity
          | exists (IQFT.comp_counts self), (IQFT.comp_fidelity self);
            now rewrite set_comp_same ].
Qed.

Lemma simulate_frame (self : IQFT.t) :
  IQFT.comparison self = true ->
  exists cc cf,
    snd (IQFT.simulate self)
    = IQFT.set_comp_fidelity cf (IQFT.set_comp_counts cc self).
Proof.
  intros Hcmp. rewrite simulate_unfold, Hcmp.
  destruct (IQFT.build_noise_model self) as [nm|e].
  - apply simulate_comparison_frame.
  - exists (IQFT.comp_counts self), (IQFT.comp_fidelity self).
    now rewrite set_comp_same.
Qed.

(** [build_iqft] assigns [qc] or nothing. *)
Lemma build_iqft_frame (self : IQFT.t) :
  snd (IQFT.build_iqft self) = self
  \/ exists c, snd (IQFT.build_iqft self) = IQFT.set_qc (Some c) self.
Proof.
  unfold IQFT.build_iqft. run_method.
  destruct (IQFT.add_iqft_circuit self _) as [c|e]; cbn; [|now left].
  right. exists c. now destruct (circuit_drawer c).
Qed.

Lemma comparison_only_call (c : IQFT.call) (self : IQFT.t) :
  comparison_only self -> comparison_only (IQFT.run_call c self).
Proof.
  intros (Hcmp & Hst & Hpr & Hct). destruct c; simpl.
  - destruct (build_iqft_frame self) as [-> | [c ->]];
      repeat split; assumption.
  - destruct (simulate_frame self Hcmp) as (cc & cf & ->).
    repeat split; assumption.
Qed.

Lemma comparison_only_calls (cs : list IQFT.call) : forall self : IQFT.t,
  comparison_only self -> comparison_only (IQFT.run_calls cs self).
Proof.
  induction cs as [|c cs IH]; intros self Hinv; simpl.
  - assumption.
  - apply IH. now apply comparison_only_call.
Qed.

(** C9. On an instance made with [comparison=True], after any calls of
    [build_iqft] and [simulate], one more [simulate] assigns at most the two
    comparison attributes, and the three single-run accessors return
    [None]. *)
Theorem comparison_keeps_single_run_fields
    (n : nat) (state : option string) (noise : bool)
    (noise_type : option string) (noise_options : option (gmap string R))
    (measure : bool) (calls : list IQFT.call) :
  let self :=
    IQFT.run_calls calls
      (IQFT.init n state noise noise_type noise_options measure true) in
  let after := snd (IQFT.simulate self) in
  (exists cc cf,
     after = IQFT.set_comp_fidelity cf (IQFT.set_comp_counts cc self))
  /\ IQFT.get_resulting_state after = None
  /\ IQFT.get_resulting_probabilities after = None
  /\ IQFT.get_resulting_counts after = None.
Proof.
  intros self after.
  assert (Hinv : comparison_only self).
  { apply comparison_only_calls. repeat split. }
  split.
  - apply simulate_frame, Hinv.
  - apply (comparison_only_call IQFT.call_simulate self Hinv).
Qed.

End Frames.

(** ** The noise model of [simulate] *)

Section NoiseModels.
Context `{E : Environment}.

Lemma str_eq_true x s : IQFT.str_eq x s = true <-> x = Some s.
Proof.
  destruct x as [x'|]; simpl.
  - rewrite String.eqb_eq. split; congruence.
  - split; discriminate.
Qed.

Lemma str_eq_false x s : IQFT.str_eq x s = false <-> x <> Some s.
Proof.
  rewrite <- str_eq_true. destruct (IQFT.str_eq x s); split; congruence.
Qed.

Lemma scale_eye2 (s : R) :
  np_scale s np_eye2 = [[s; 0]; [0; s]]%R.
Proof.
  unfold np_scale, np_eye2. simpl. repeat f_equal; ring.
Qed.

Lemma scale_pauli_x (s : R) :
  np_scale s [[0; 1]; [1; 0]]%R = [[0; s]; [s; 0]]%R.
Proof. unfold np_scale. simpl. repeat f_equal; ring. Qed.

Lemma scale_pauli_z (s : R) :
  np_scale s [[1; 0]; [0; -1]]%R = [[s; 0]; [0; - s]]%R.
Proof. unfold np_scale. simpl. repeat f_equal; ring. Qed.

Lemma build_noise_model_off (self : IQFT.t) :
  IQFT.noise self = false -> IQFT.build_noise_model self = Ok None.
Proof. unfold IQFT.build_noise_model. now intros ->. Qed.

(** A known label whose parameter is in the options: one error, attached
    to the instruction name ["h"]. *)
Lemma build_noise_model_channel (self : IQFT.t) ch (m : gmap string R) p :
  IQFT.noise self = true ->
  IQFT.noise_type self = Some (channel_label ch) ->
  IQFT.noise_options self = Some m ->
  m !! channel_key ch = Some p ->
  IQFT.build_noise_model self = Ok (Some [(make_channel ch p, ["h"])]).
Proof.
  intros Hnoise Htype Hopts Hp.
  unfold IQFT.build_noise_model, IQFT.subscript.
  rewrite Hnoise, Htype, Hopts.
  destruct ch; cbn in *; rewrite Hp; cbn;
    unfold add_all_qubit_quantum_error, bitflip_kraus, phaseflip_kraus;
    try reflexivity; cbn; repeat f_equal; ring.
Qed.

(** A known label without options, or without its key in the options. *)
Lemma build_noise_model_no_options (self : IQFT.t) ch :
  IQFT.noise self = true ->
  IQFT.noise_type self = Some (channel_label ch) ->
  IQFT.noise_options self = None ->
  raises (IQFT.build_noise_model self) TypeError.
Proof.
  intros Hnoise Htype Hopts.
  unfold IQFT.build_noise_model, IQFT.subscript.
  rewrite Hnoise, Htype, Hopts.
  destruct ch; cbn; now eexists.
Qed.

Lemma build_noise_model_no_key (self : IQFT.t) ch (m : gmap string R) :
  IQFT.noise self = true ->
  IQFT.noise_type self = Some (channel_label ch) ->
  IQFT.noise_options self = Some m ->
  m !! channel_key ch = None ->
  raises (IQFT.build_noise_model self) KeyError.
Proof.
  intros Hnoise Htype Hopts Hp.
  unfold IQFT.build_noise_model, IQFT.subscript.
  rewrite Hnoise, Htype, Hopts.
  destruct ch; cbn in *; rewrite Hp; cbn; now eexists.
Qed.

(** Any other label, or none: an empty noise model, whatever the options. *)
Lemma build_noise_model_unknown (self : IQFT.t) :
  IQFT.noise self = true ->
  (forall ch, IQFT.noise_type self <> Some (channel_label ch)) ->
  IQFT.build_noise_model self = Ok (Some []).
Proof.
  intros Hnoise Hother. unfold IQFT.build_noise_model. rewrite Hnoise.
  assert (Hne : forall ch,
            IQFT.str_eq (IQFT.noise_type self) (channel_label ch) = false)
    by (intros ch; apply str_eq_false, Hother).
  rewrite (Hne Depolarizing : IQFT.str_eq _ "Depolarizing" = false).
  rewrite (Hne AmplitudeDamping : IQFT.str_eq _ "Amplitude Damping" = false).
  rewrite (Hne PhaseDamping : IQFT.str_eq _ "Phase Damping" = false).
  rewrite (Hne Bitflip : IQFT.str_eq _ "Bit flip" = false).
  rewrite (Hne Phaseflip : IQFT.str_eq _ "Phase flip" = false).
  reflexivity.
Qed.

(** Where a one-entry model under ["h"] attaches its error. *)
Lemma errors_on_h (e : QuantumError) (g : Gate) :
  errors_on [(e, ["h"])] g
  = match g with Hadamard _ => [e] | _ => [] end.
Proof. now destruct g. Qed.

Lemma errors_on_empty (g : Gate) : errors_on [] g = [].
Proof. reflexivity. Qed.

End NoiseModels.

(** ** What [simulate] runs and stores *)

Section Simulate.
Context `{E : Environment}.

(** The noisy single run, when the simulator answers. *)
Lemma simulate_noisy_ok (self : IQFT.t) nm c circ job result dm :
  let aer := AerSimulator "single" nm in
  IQFT.qc self = Some c ->
  transpile (Some c) aer = Ok circ ->
  simulator_run aer circ 1024 = Ok job ->
  job_result job = Ok result ->
  result_data result circ "density_matrix" = Ok dm ->
  let stored :=
    IQFT.set_resulting_probabilities (Some (probabilities (DensityMatrix dm)))
      (IQFT.set_resulting_state (Some (DensityMatrix dm))
         (IQFT.set_target (Some (simulator_target aer)) self)) in
  (IQFT.measure self = false -> IQFT.simulate_noisy nm self = (Ok tt, stored))
  /\ (forall counts,
        IQFT.measure self = true -> get_counts result = Ok counts ->
        IQFT.simulate_noisy nm self
        = (Ok tt, IQFT.set_resulting_counts (Some counts) stored)).
Proof.
  intros aer Hqc Htr Hrun Hres Hdm stored.
  unfold IQFT.simulate_noisy. run_method.
  rewrite Hqc. fold aer. rewrite Htr. cbn. rewrite Hrun. cbn.
  rewrite Hres. cbn. rewrite Hdm. cbn.
  split.
  - intros ->. reflexivity.
  - intros counts -> Hcounts. rewrite Hcounts. reflexivity.
Qed.

(** A comparison in which every call of the two runs returns stores the
    pair of counts and the pair of states, and [simulate] returns normally
    in no other way. *)
Lemma comparison_run_stores (self : IQFT.t) (nm : option NoiseModel) :
  IQFT.comparison self = true ->
  IQFT.build_noise_model self = Ok nm ->
  (forall ideal_state noisy_state ideal_counts noisy_counts,
     comparison_run (IQFT.qc self) nm ideal_state noisy_state
       ideal_counts noisy_counts ->
     IQFT.simulate self
     = (Ok tt,
        IQFT.set_comp_fidelity (Some (ideal_state, noisy_state))
          (IQFT.set_comp_counts (Some (ideal_counts, noisy_counts)) self))
     /\ IQFT.get_comp_counts (snd (IQFT.simulate self))
        = Some (ideal_counts, noisy_counts)
     /\ IQFT.get_comp_fidelity (snd (IQFT.simulate self))
        = Some (ideal_state, noisy_state))
  /\ (fst (IQFT.simulate self) = Ok tt ->
      exists ideal_state noisy_state ideal_counts noisy_counts,
        comparison_run (IQFT.qc self) nm ideal_state noisy_state
          ideal_counts noisy_counts).
Proof.
  intros Hcmp Hnm. rewrite simulate_unfold, Hnm, Hcmp. split.
  - intros ideal_state noisy_state ideal_counts noisy_counts Hrun.
    destruct Hrun as (ideal_circ & ideal_job & ideal_result & sv &
                      noisy_circ & noisy_job & noisy_result & dm &
                      H1 & H2 & H3 & H4 & H5 & H6 & H7 & H8 & H9 & H10 &
                      -> & ->).
    assert (Hsim : IQFT.simulate_comparison nm self
      = (Ok tt,
         IQFT.set_comp_fidelity (Some (Statevector sv, DensityMatrix dm))
           (IQFT.set_comp_counts (Some (ideal_counts, noisy_counts)) self))).
    { unfold IQFT.simulate_comparison. run_method.
      rewrite H1. cbn. rewrite H2. cbn. rewrite H3. cbn. rewrite H4. cbn.
      rewrite H5. cbn. rewrite H6. cbn. rewrite H7. cbn. rewrite H8. cbn.
      rewrite H9. cbn. rewrite H10. reflexivity. }
    rewrite Hsim. repeat split.
  - unfold IQFT.simulate_comparison, comparison_run. run_method.
    destruct (transpile (IQFT.qc self) (StatevectorSimulator "single"))
      as [ideal_circ|] eqn:H1; cbn; [|discriminate].
    destruct (simulator_run (StatevectorSimulator "single") ideal_circ 1024)
      as [ideal_job|] eqn:H2; cbn; [|discriminate].
    destruct (job_result ideal_job) as [ideal_result|] eqn:H3; cbn;
      [|discriminate].
    destruct (get_statevector ideal_result ideal_circ) as [sv|] eqn:H4; cbn;
      [|discriminate].
    destruct (get_counts ideal_result) as [ideal_counts|] eqn:H5; cbn;
      [|discriminate].
    destruct (transpile (IQFT.qc self) (AerSimulator "single" nm))
      as [noisy_circ|] eqn:H6; cbn; [|discriminate].
    destruct (simulator_run (AerSimulator "single" nm) noisy_circ 1024)
      as [noisy_job|] eqn:H7; cbn; [|discriminate].
    destruct (job_result noisy_job) as [noisy_result|] eqn:H8; cbn;
      [|discriminate].
    destruct (result_data noisy_result noisy_circ "density_matrix")
      as [dm|] eqn:H9; cbn; [|discriminate].
    destruct (get_counts noisy_result) as [noisy_counts|] eqn:H10; cbn;
      [|discriminate].
    intros _.
    exists (Statevector sv), (DensityMatrix dm), ideal_counts, noisy_counts.
    exists ideal_circ, ideal_job, ideal_result, sv.
    exists noisy_circ, noisy_job, noisy_result, dm.
    repeat split; assumption.
Qed.


(** C5 (amended). With noise requested: if no noise type is set,
    [simulate] raises nothing of its own and runs the noisy path or the
    comparison with an empty noise model; if the type is one of the five
    labels but there are no options, it fails with a [TypeError], and if
    the options lack the parameter of the type, with a [KeyError], in both
    cases before anything is run or assigned. *)
Theorem absent_noise_channel (self : IQFT.t) :
  IQFT.noise self = true ->
  (IQFT.noise_type self = None ->
     IQFT.build_noise_model self = Ok (Some [])
     /\ IQFT.simulate self
        = if IQFT.comparison self
          then IQFT.simulate_comparison (Some []) self
          else IQFT.simulate_noisy (Some []) self)
  /\ (forall ch,
        IQFT.noise_type self = Some (channel_label ch) ->
        IQFT.noise_options self = None ->
        raises (fst (IQFT.simulate self)) TypeError
        /\ snd (IQFT.simulate self) = self)
  /\ (forall ch (m : gmap string R),
        IQFT.noise_type self = Some (channel_label ch) ->
        IQFT.noise_options self = Some m ->
        m !! channel_key ch = None ->
        raises (fst (IQFT.simulate self)) KeyError
        /\ snd (IQFT.simulate self) = self).
Proof.
  intros Hnoise. split; [|split].
  - intros Htype.
    assert (Hnm : IQFT.build_noise_model self = Ok (Some [])).
    { apply build_noise_model_unknown; [assumption|].
      intros ch. rewrite Htype. discriminate. }
    split; [exact Hnm|].
    rewrite simulate_unfold, Hnm, Hnoise. reflexivity.
  - intros ch Htype Hopts.
    destruct (build_noise_model_no_options self ch Hnoise Htype Hopts)
      as [msg Hraise].
    rewrite simulate_unfold, Hraise. split; [now exists msg | reflexivity].
  - intros ch m Htype Hopts Hkey.
    destruct (build_noise_model_no_key self ch m Hnoise Htype Hopts Hkey)
      as [msg Hraise].
    rewrite simulate_unfold, Hraise. split; [now exists msg | reflexivity].
Qed.

(** Under a one-entry model registered under ["h"], the modelled
    evolution of any circuit applies the error after each Hadamard, on its
    qubit, and nothing after any other gate. *)
Lemma evolve_under_h (e : QuantumError) (rho : Type)
    (apply_gate : Gate -> rho -> rho)
    (apply_error : QuantumError -> nat -> rho -> rho) (gates : list Gate) :
  forall r0,
    Evolution.evolve rho apply_gate apply_error (Some [(e, ["h"])]) gates r0
    = fold_left
        (fun r g =>
           match g with
           | Hadamard q => apply_error e q (apply_gate g r)
           | _ => apply_gate g r
           end) gates r0.
Proof.
  unfold Evolution.evolve.
  induction gates as [|g gates IH]; intros r0; [reflexivity|].
  cbn [fold_left]. rewrite IH. f_equal.
  unfold Evolution.step, Evolution.apply_errors. rewrite errors_on_h.
  now destruct g.
Qed.

Lemma evolve_without_hadamard (e : QuantumError) (rho : Type)
    (apply_gate : Gate -> rho -> rho)
    (apply_error : QuantumError -> nat -> rho -> rho) (gates : list Gate) :
  forallb (fun g => negb (is_hadamard g)) gates = true ->
  forall r0,
    Evolution.evolve rho apply_gate apply_error (Some [(e, ["h"])]) gates r0
    = Evolution.evolve_ideal rho apply_gate gates r0.
Proof.
  intros Hnone r0. rewrite evolve_under_h. unfold Evolution.evolve_ideal.
  revert r0. induction gates as [|g gates IH]; intros r0; [reflexivity|].
  cbn [forallb] in Hnone. apply andb_true_iff in Hnone as [Hg Hrest].
  cbn [fold_left]. rewrite (IH Hrest).
  destruct g; try reflexivity. discriminate Hg.
Qed.

(** C6. For each of the five channels and a parameter in the channel's
    domain, the noise model that [simulate] makes registers the channel's
    error under the instruction name ["h"] and nothing else, and the
    circuit it runs under that model, in a single noisy run and in the
    noisy run of a comparison, is the transpiled circuit [circ]. For the
    gates of [circ], the circuit that is run: the model attaches the error
    to every Hadamard and to no other gate, the modelled evolution applies
    the channel after each Hadamard and the unitary alone at every other
    gate, and if transpiling left no Hadamard in [circ] the evolution is
    the noise-free one. *)
Theorem noise_at_hadamards_only (self : IQFT.t) (ch : NoiseChannel)
    (m : gmap string R) (p : R) (circ : QuantumCircuit) :
  let nm := [(make_channel ch p, ["h"])] in
  let aer := AerSimulator "single" (Some nm) in
  let ideal := StatevectorSimulator "single" in
  channel_domain ch p ->
  IQFT.noise self = true ->
  IQFT.noise_type self = Some (channel_label ch) ->
  IQFT.noise_options self = Some m ->
  m !! channel_key ch = Some p ->
  transpile (IQFT.qc self) aer = Ok circ ->
  IQFT.build_noise_model self = Ok (Some nm)
  /\ (forall job result dm,
        IQFT.comparison self = false ->
        simulator_run aer circ 1024 = Ok job ->
        job_result job = Ok result ->
        result_data result circ "density_matrix" = Ok dm ->
        (IQFT.measure self = true -> is_ok (get_counts result) = true) ->
        fst (IQFT.simulate self) = Ok tt
        /\ IQFT.get_target (snd (IQFT.simulate self))
           = Some (simulator_target aer)
        /\ IQFT.get_resulting_state (snd (IQFT.simulate self))
           = Some (DensityMatrix dm))
  /\ (forall ideal_circ ideal_job ideal_result sv ideal_counts
             job result dm counts,
        IQFT.comparison self = true ->
        transpile (IQFT.qc self) ideal = Ok ideal_circ ->
        simulator_run ideal ideal_circ 1024 = Ok ideal_job ->
        job_result ideal_job = Ok ideal_result ->
        get_statevector ideal_result ideal_circ = Ok sv ->
        get_counts ideal_result = Ok ideal_counts ->
        simulator_run aer circ 1024 = Ok job ->
        job_result job = Ok result ->
        result_data result circ "density_matrix" = Ok dm ->
        get_counts result = Ok counts ->
        fst (IQFT.simulate self) = Ok tt
        /\ IQFT.get_comp_fidelity (snd (IQFT.simulate self))
           = Some (Statevector sv, DensityMatrix dm)
        /\ IQFT.get_comp_counts (snd (IQFT.simulate self))
           = Some (ideal_counts, counts))
  /\ Forall (fun g => errors_on nm g
                      = if is_hadamard g then [make_channel ch p] else [])
       (data circ)
  /\ (forall (rho : Type) (apply_gate : Gate -> rho -> rho)
             (apply_error : QuantumError -> nat -> rho -> rho) (r0 : rho),
        Evolution.evolve rho apply_gate apply_error (Some nm) (data circ) r0
        = fold_left
            (fun r g =>
               match g with
               | Hadamard q =>
                   apply_error (make_channel ch p) q (apply_gate g r)
               | _ => apply_gate g r
               end) (data circ) r0)
  /\ (forallb (fun g => negb (is_hadamard g)) (data circ) = true ->
      forall (rho : Type) (apply_gate : Gate -> rho -> rho)
             (apply_error : QuantumError -> nat -> rho -> rho) (r0 : rho),
        Evolution.evolve rho apply_gate apply_error (Some nm) (data circ) r0
        = Evolution.evolve_ideal rho apply_gate (data circ) r0).
Proof.
  intros nm aer ideal _ Hnoise Htype Hopts Hp Htr.
  assert (Hnm := build_noise_model_channel self ch m p Hnoise Htype Hopts Hp).
  fold nm in Hnm.
  split; [exact Hnm|]. split; [|split; [|split; [|split]]].
  - intros job result dm Hcmp Hrun Hres Hdm Hcounts.
    rewrite simulate_unfold, Hnm, Hcmp, Hnoise. cbn [negb].
    destruct (IQFT.qc self) as [c|] eqn:Hqc.
    + destruct (simulate_noisy_ok self (Some nm) c circ job result dm
                  Hqc Htr Hrun Hres Hdm) as [Hplain Hmeasured].
      destruct (IQFT.measure self) eqn:Hm.
      * destruct (get_counts result) as [counts|e] eqn:Hc.
        -- rewrite (Hmeasured counts eq_refl eq_refl). repeat split.
        -- specialize (Hcounts eq_refl). discriminate.
      * rewrite (Hplain eq_refl). repeat split.
    + unfold IQFT.simulate_noisy. run_method.
      rewrite Hqc. fold nm aer. rewrite Htr. cbn. rewrite Hrun. cbn.
      rewrite Hres. cbn. rewrite Hdm. cbn.
      destruct (IQFT.measure self) eqn:Hm.
      * destruct (get_counts result) as [counts|e] eqn:Hc.
        -- repeat split.
        -- specialize (Hcounts eq_refl). discriminate.
      * repeat split.
  - intros ideal_circ ideal_job ideal_result sv ideal_counts
           job result dm counts Hcmp H1 H2 H3 H4 H5 H7 H8 H9 H10.
    destruct (comparison_run_stores self (Some nm) Hcmp Hnm) as [Hstores _].
    destruct (Hstores (Statevector sv) (DensityMatrix dm) ideal_counts counts)
      as (Hsim & Hcc & Hcf).
    { exists ideal_circ, ideal_job, ideal_result, sv.
      exists circ, job, result, dm.
      repeat split; assumption. }
    rewrite Hsim. repeat split.
  - apply List.Forall_forall. intros g _. unfold nm.
    rewrite errors_on_h. now destruct g.
  - intros rho apply_gate apply_error r0. apply evolve_under_h.
  - intros Hnone rho apply_gate apply_error r0.
    now apply evolve_without_hadamard.
Qed.


(** C2. For a parameter [p] between 0 and 1, the bit-flip channel is made
    from [K0 = sqrt(p) I] and [K1 = sqrt(1 - p) X] and the phase-flip
    channel from [K0 = sqrt(p) I] and [K1 = sqrt(1 - p) Z]: the identity
    operator carries the weight [p] and the flip the weight [1 - p]. *)
Theorem flip_channels_kraus (self : IQFT.t) (m : gmap string R) (p : R) :
  (0 <= p <= 1)%R ->
  IQFT.noise self = true ->
  IQFT.noise_options self = Some m ->
  (IQFT.noise_type self = Some "Bit flip" ->
   m !! "bit_flip" = Some p ->
   IQFT.build_noise_model self
   = Ok (Some [(Kraus [ [[sqrt p; 0]; [0; sqrt p]];
                        [[0; sqrt (1 - p)]; [sqrt (1 - p); 0]] ]%R,
                ["h"])]))
  /\ (IQFT.noise_type self = Some "Phase flip" ->
      m !! "phase_flip" = Some p ->
      IQFT.build_noise_model self
      = Ok (Some [(Kraus [ [[sqrt p; 0]; [0; sqrt p]];
                           [[sqrt (1 - p); 0]; [0; - sqrt (1 - p)]] ]%R,
                   ["h"])]))
  /\ (sqrt p * sqrt p = p)%R
  /\ (sqrt (1 - p) * sqrt (1 - p) = 1 - p)%R.
Proof.
  intros [Hlo Hhi] Hnoise Hopts. repeat split.
  - intros Htype Hp.
    apply (build_noise_model_channel self Bitflip m p); assumption.
  - intros Htype Hp.
    apply (build_noise_model_channel self Phaseflip m p); assumption.
  - apply sqrt_sqrt. lra.
  - apply sqrt_sqrt. lra.
Qed.

End Simulate.

(** ** The qubit-count guard of [build_circuit] *)

Section CountGuard.
Context `{E : Environment} {QFT PhaseEstimation : Type}.
Variable QFT_init :
  Z -> string -> bool -> option string -> option (gmap string R) ->
  bool -> bool -> QFT.
Variable build_qft : Method QFT string.
Variable PhaseEstimation_init :
  Z -> bool -> option string -> option (gmap string R) ->
  bool -> bool -> PhaseEstimation.
Variable build_phase_estimation : Method PhaseEstimation string.
Local Abbreviation window := (@QFTSimulator.t E QFT PhaseEstimation).
Variable display_circuit : string -> window -> window.

Local Abbreviation build_circuit_try :=
  (QFTSimulator.build_circuit_try QFT_init build_qft
     PhaseEstimation_init build_phase_estimation display_circuit).
Local Abbreviation build_circuit :=
  (QFTSimulator.build_circuit QFT_init build_qft
     PhaseEstimation_init build_phase_estimation display_circuit).

(** C8. When the qubit-count entry holds an integer below 1 or above 10,
    the body of [build_circuit] raises the [ValueError] of the guard
    before any simulation object or circuit is made; [build_circuit]
    reports it in an error dialog, and the simulation held by the window is
    the one it held before (none, if none was built). *)
Theorem invalid_qubit_count (app : window) (n : Z) :
  int_literal (QFTSimulator.n_entry app) = Some n ->
  (n < 1 \/ n > 10)%Z ->
  build_circuit_try (QFTSimulator.n_entry app) app
  = (Raise (mk_exn ValueError "Number of qubits must be between 1 and 10"),
     app)
  /\ build_circuit app
     = (Ok tt,
        QFTSimulator.set_messageboxes
          (QFTSimulator.messageboxes app ++
           [QFTSimulator.showerror "Error"
              "Invalid input: Number of qubits must be between 1 and 10"])%list
          (QFTSimulator.set_output_text
             (QFTSimulator.output_text app ++
              ["Building quantum circuit..."])%list app))
  /\ QFTSimulator.current_simulation (snd (build_circuit app))
     = QFTSimulator.current_simulation app.
Proof.
  intros Hn Hrange.
  assert (Hguard : ((n <? 1) || (n >? 10))%Z = true).
  { apply orb_true_iff. destruct Hrange; [left | right]; lia. }
  assert (Htry : forall app' : window,
            QFTSimulator.n_entry app' = QFTSimulator.n_entry app ->
            build_circuit_try (QFTSimulator.n_entry app) app'
            = (Raise (mk_exn ValueError
                        "Number of qubits must be between 1 and 10"), app')).
  { intros app' _. unfold QFTSimulator.build_circuit_try,
      QFTSimulator.build_simulation.
    run_method. unfold py_int. rewrite Hn. cbn. rewrite Hguard. reflexivity. }
  split; [now apply Htry|].
  assert (Hbuild : build_circuit app
     = (Ok tt,
        QFTSimulator.set_messageboxes
          (QFTSimulator.messageboxes app ++
           [QFTSimulator.showerror "Error"
              "Invalid input: Number of qubits must be between 1 and 10"])%list
          (QFTSimulator.set_output_text
             (QFTSimulator.output_text app ++
              ["Building quantum circuit..."])%list app))).
  { unfold QFTSimulator.build_circuit,
      QFTSimulator.add_text_to_bottom_panel, QFTSimulator.messagebox,
      try_except.
    run_method. rewrite Htry by reflexivity. reflexivity. }
  split; [exact Hbuild|]. rewrite Hbuild. reflexivity.
Qed.

End CountGuard.

(** ** Concrete runs in the recording environment *)

Section Runs.
Import Layers.
#[local] Existing Instance recording.

Lemma with_bitflip_built (comparison : bool) :
  IQFT.build_iqft
    (IQFT.init 2 (Some "2") true (Some "Bit flip") (Some bitflip_options)
       true comparison)
  = (Ok "circuit.png", with_bitflip comparison).
Proof.
  rewrite build_iqft_ok with (x := 2%Z) (path := "circuit.png");
    [reflexivity | simpl; lia | reflexivity | reflexivity | reflexivity].
Qed.

Lemma without_channel_built :
  IQFT.build_iqft (IQFT.init 2 (Some "2") true None None false false)
  = (Ok "circuit.png", without_channel).
Proof.
  rewrite build_iqft_ok with (x := 2%Z) (path := "circuit.png");
    [reflexivity | simpl; lia | reflexivity | reflexivity | reflexivity].
Qed.

Lemma bitflip_options_lookup : bitflip_options !! "bit_flip" = Some 1%R.
Proof. apply lookup_singleton_eq. Qed.

Lemma flip_channels_kraus_witness :
  IQFT.build_noise_model (with_bitflip false)
  = Ok (Some [(Kraus [ [[sqrt 1; 0]; [0; sqrt 1]];
                       [[0; sqrt (1 - 1)]; [sqrt (1 - 1); 0]] ]%R,
               ["h"])])
  /\ (sqrt 1 * sqrt 1 = 1)%R.
Proof.
  destruct (flip_channels_kraus (with_bitflip false) bitflip_options 1%R)
    as (Hbit & _ & Hweight & _).
  - lra.
  - reflexivity.
  - reflexivity.
  - split; [|exact Hweight].
    apply Hbit; [reflexivity | exact bitflip_options_lookup].
Defined.



Lemma optimise_one_qubit_circuit :
  optimise one_qubit_circuit = one_qubit_transpiled.
Proof.
  unfold optimise, one_qubit_circuit, one_qubit_transpiled.
  cbn [data num_qubits List.filter is_zero_rotation negb].
  destruct (Req_dec_T (0 * PI / 1) 0) as [_ | Hnonzero].
  - reflexivity.
  - exfalso. apply Hnonzero. lra.
Qed.

Lemma one_qubit_state_0_built :
  IQFT.build_iqft one_qubit_state_0
  = (Ok "circuit.png", IQFT.set_qc (Some one_qubit_circuit) one_qubit_state_0).
Proof.
  rewrite build_iqft_ok with (x := 0%Z) (path := "circuit.png");
    [reflexivity | simpl; lia | reflexivity | reflexivity | reflexivity].
Qed.

(** Claim C6 places the channel at the Hadamard sites of the circuit.
    Under a transpiler that optimises, the circuit built for one qubit and
    state ["0"] has two Hadamards and the circuit that is run has none:
    the channel would be applied twice on the built circuit and is applied
    nowhere in the run. *)
Lemma noise_at_hadamards_only_counterexample :
  let nm := [(make_channel Bitflip (1 / 2), ["h"])] in
  let built := snd (IQFT.build_iqft one_qubit_state_0) in
  IQFT.get_circuit built = Some one_qubit_circuit
  /\ count_gates is_hadamard (data one_qubit_circuit) = 2
  /\ count_applications (Some nm) (data one_qubit_circuit) = 2
  /\ fst (IQFT.simulate built) = Ok tt
  /\ IQFT.get_resulting_state (snd (IQFT.simulate built))
     = Some (DensityMatrix
               (RunOf (AerSimulator "single" (Some nm)) one_qubit_transpiled
                  1024))
  /\ count_applications (Some nm) (data one_qubit_transpiled) = 0
  /\ count_applications (Some nm) (data one_qubit_transpiled)
     <> count_gates is_hadamard (data one_qubit_circuit).
Proof.
  intros nm built. unfold built. rewrite one_qubit_state_0_built. cbn [snd].
  set (self := IQFT.set_qc (Some one_qubit_circuit) one_qubit_state_0).
  assert (Hnm : IQFT.build_noise_model self = Ok (Some nm)).
  { apply (build_noise_model_channel self Bitflip
             {["bit_flip" := (1 / 2)%R]} (1 / 2)%R);
      [reflexivity | reflexivity | reflexivity | apply lookup_singleton_eq]. }
  set (run := RunOf (AerSimulator "single" (Some nm)) one_qubit_transpiled
                1024).
  destruct (simulate_noisy_ok self (Some nm) one_qubit_circuit
              one_qubit_transpiled run run run) as [Hplain _].
  - reflexivity.
  - cbn. now rewrite optimise_one_qubit_circuit.
  - reflexivity.
  - reflexivity.
  - reflexivity.
  - assert (Hsim : IQFT.simulate self = IQFT.simulate_noisy (Some nm) self).
    { rewrite simulate_unfold, Hnm. reflexivity. }
    rewrite Hsim, (Hplain eq_refl).
    repeat split. discriminate.
Qed.

Lemma noise_at_hadamards_only_witness :
  let nm := [(make_channel Bitflip 1, ["h"])] in
  let run := RunOf (AerSimulator "single" (Some nm)) measured_circuit 1024 in
  IQFT.build_noise_model (with_bitflip false) = Ok (Some nm)
  /\ fst (IQFT.simulate (with_bitflip false)) = Ok tt
  /\ IQFT.get_resulting_state (snd (IQFT.simulate (with_bitflip false)))
     = Some (DensityMatrix run)
  /\ errors_on nm (Hadamard 0) = [make_channel Bitflip 1]
  /\ errors_on nm (CPhase (- PI / IZR (2 ^ 1)) 0 1) = []
  /\ errors_on nm (SwapGate 0 1) = [].
Proof.
  intros nm run.
  destruct (noise_at_hadamards_only (with_bitflip false) Bitflip
              bitflip_options 1%R measured_circuit)
    as (Hnm & Hsingle & _ & Hsites & _).
  - simpl. lra.
  - reflexivity.
  - reflexivity.
  - reflexivity.
  - exact bitflip_options_lookup.
  - reflexivity.
  - destruct (Hsingle run run run) as (Hret & _ & Hstate);
      try reflexivity.
    rewrite List.Forall_forall in Hsites.
    split; [exact Hnm|]. split; [exact Hret|]. split; [exact Hstate|].
    split; [|split].
    + apply (Hsites (Hadamard 0)). simpl. tauto.
    + apply (Hsites (CPhase (- PI / IZR (2 ^ 1)) 0 1)). simpl. tauto.
    + apply (Hsites (SwapGate 0 1)). simpl. tauto.
Defined.

(** Claim C5 expects an error here; [simulate] returns normally and stores
    the density matrix of a run under an empty noise model. *)
Lemma absent_noise_channel_counterexample :
  IQFT.noise without_channel = true
  /\ IQFT.noise_type without_channel = None
  /\ IQFT.noise_options without_channel = None
  /\ fst (IQFT.simulate without_channel) = Ok tt
  /\ IQFT.get_resulting_state (snd (IQFT.simulate without_channel))
     = Some (DensityMatrix
               (RunOf (AerSimulator "single" (Some [])) unmeasured_circuit
                  1024)).
Proof.
  repeat split.
Qed.

Lemma absent_noise_channel_witness :
  IQFT.build_noise_model without_channel = Ok (Some [])
  /\ IQFT.simulate without_channel
     = IQFT.simulate_noisy (Some []) without_channel.
Proof.
  destruct (absent_noise_channel without_channel) as [Hnone _].
  - reflexivity.
  - apply Hnone. reflexivity.
Defined.


Lemma invalid_qubit_count_witness :
  QFTSimulator.build_circuit
    (fun _ _ _ _ _ _ _ => tt) (fun o => (Ok "qft.png", o))
    (fun _ _ _ _ _ _ => tt) (fun o => (Ok "pe.png", o))
    (fun _ w => w) window_11
  = (Ok tt,
     QFTSimulator.mk "11" "IQFT" false false false None None None (Some "2")
       None ["Building quantum circuit..."] "Ready to build circuit"
       [QFTSimulator.showerror "Error"
          "Invalid input: Number of qubits must be between 1 and 10"]).
Proof.
  apply (invalid_qubit_count
           (fun _ _ _ _ _ _ _ => tt) (fun o => (Ok "qft.png", o))
           (fun _ _ _ _ _ _ => tt) (fun o => (Ok "pe.png", o))
           (fun _ w => w) window_11 11%Z).
  - reflexivity.
  - right. lia.
Defined.

End Runs.

(** * Further properties *)

(** ** The circuit of the builder *)

Section BuilderExtras.
Context `{E : Environment}.
Import Layers.

Lemma iqft_gates_fit x n : forallb (gate_fits n) (iqft_gates x n) = true.
Proof.
  unfold iqft_gates, hadamard_layer, phase_layer, swap_layer, rotation_layer,
    rotation_block.
  rewrite !forallb_app. repeat (apply andb_true_iff; split);
    apply forallb_forall; intros g Hg.
  - apply in_map_iff in Hg as (q & <- & Hq). apply in_seq in Hq.
    simpl. apply Nat.ltb_lt. lia.
  - apply in_map_iff in Hg as (j & <- & Hj). apply in_seq in Hj.
    simpl. apply Nat.ltb_lt. lia.
  - apply in_flat_map in Hg as (q & Hq & [<- | [<- | []]]); [|reflexivity].
    apply in_seq in Hq. simpl.
    assert (Hhalf : 2 * (n / 2) <= n) by (apply Nat.Div0.mul_div_le).
    rewrite !andb_true_iff, negb_true_iff, !Nat.ltb_lt, Nat.eqb_neq. lia.
  - apply in_flat_map in Hg as (t & Ht & Hg). apply in_seq in Ht.
    apply in_app_iff in Hg as [Hg | [<- | []]].
    + apply in_map_iff in Hg as (c & <- & Hc).
      apply in_rev, in_seq in Hc. simpl.
      rewrite !andb_true_iff, negb_true_iff, !Nat.ltb_lt, Nat.eqb_neq. lia.
    + simpl. apply Nat.ltb_lt. lia.
Qed.

(** X1. Every gate of a circuit the builder returns fits the register:
    each qubit index is below [n], a swap exchanges two different qubits
    and a controlled phase has a control different from its target. *)
Theorem built_gates_fit_register (self : IQFT.t) (x : Z) :
  IQFT.n self <= 1024 ->
  py_int_of (IQFT.state self) = Ok x ->
  Py.fits_float x = true ->
  exists qc,
    IQFT.add_iqft_circuit self (new_QuantumCircuit (IQFT.n self)) = Ok qc
    /\ num_qubits qc = IQFT.n self
    /\ forallb (gate_fits (num_qubits qc)) (data qc) = true.
Proof.
  intros Hn Hst Hx. eexists. split.
  - apply add_iqft_circuit_ok with (x := x); assumption.
  - split; [reflexivity|]. simpl.
    rewrite forallb_app. apply andb_true_iff. split.
    + apply iqft_gates_fit.
    + now destruct (IQFT.noise self), (IQFT.measure self).
Qed.

Lemma count_gates_app f l1 l2 :
  count_gates f (l1 ++ l2) = count_gates f l1 + count_gates f l2.
Proof. unfold count_gates. now rewrite List.filter_app, length_app. Qed.

Lemma count_gates_all {A} f (g : A -> Gate) l :
  (forall a, f (g a) = true) -> count_gates f (map g l) = length l.
Proof.
  intros Hf. unfold count_gates.
  induction l as [|a l IH]; simpl; [reflexivity|]. rewrite Hf. simpl. lia.
Qed.

Lemma count_gates_none f l :
  (forall g, In g l -> f g = false) -> count_gates f l = 0.
Proof.
  intros Hf. unfold count_gates.
  induction l as [|a l IH]; simpl; [reflexivity|].
  rewrite Hf by now left. apply IH. intros g Hg. apply Hf. now right.
Qed.

Lemma rotation_layer_S n :
  rotation_layer (S n) = (rotation_layer n ++ rotation_block n)%list.
Proof.
  unfold rotation_layer. rewrite seq_S, flat_map_app. simpl.
  now rewrite app_nil_r.
Qed.

Lemma swap_layer_S n k :
  flat_map (fun q => [SwapGate q (n - q - 1); BarrierMarker]) (seq 0 (S k))
  = (flat_map (fun q => [SwapGate q (n - q - 1); BarrierMarker]) (seq 0 k)
     ++ [SwapGate k (n - k - 1); BarrierMarker])%list.
Proof. rewrite seq_S, flat_map_app. reflexivity. Qed.

Lemma rotation_block_counts t :
  count_gates is_hadamard (rotation_block t) = 1
  /\ count_gates is_cphase (rotation_block t) = t
  /\ length (rotation_block t) = t + 1.
Proof.
  unfold rotation_block. rewrite !count_gates_app, length_app.
  rewrite (count_gates_none is_hadamard (map _ _)).
  2:{ intros g Hg. apply in_map_iff in Hg as (c & <- & _). reflexivity. }
  rewrite (count_gates_all is_cphase) by reflexivity.
  rewrite length_map, length_rev, length_seq.
  unfold count_gates. simpl. repeat split; lia.
Qed.

Lemma rotation_layer_counts n :
  count_gates is_hadamard (rotation_layer n) = n
  /\ 2 * count_gates is_cphase (rotation_layer n) = n * (n - 1)
  /\ 2 * length (rotation_layer n) = n * (n + 1).
Proof.
  induction n as [|n (IHh & IHc & IHl)]; [repeat split|].
  rewrite rotation_layer_S, !count_gates_app, length_app.
  destruct (rotation_block_counts n) as (-> & -> & ->).
  repeat split; [lia | | nia].
  destruct n; simpl in *; nia.
Qed.

Lemma swap_layer_length n : length (swap_layer n) = 2 * (n / 2).
Proof.
  unfold swap_layer. induction (n / 2) as [|k IH]; [reflexivity|].
  rewrite swap_layer_S, length_app, IH. simpl. lia.
Qed.

Lemma iqft_gates_counts x n :
  count_gates is_hadamard (iqft_gates x n) = 2 * n
  /\ 2 * count_gates is_cphase (iqft_gates x n) = n * (n - 1)
  /\ 2 * length (iqft_gates x n) = n * (n + 1) + 4 * n + 4 * (n / 2).
Proof.
  unfold iqft_gates. rewrite !count_gates_app, !length_app.
  destruct (rotation_layer_counts n) as (Hh & Hc & Hl).
  assert (Hswap : forall g, In g (swap_layer n) ->
            is_hadamard g = false /\ is_cphase g = false).
  { intros g Hg. apply in_flat_map in Hg as (q & _ & [<- | [<- | []]]);
      now split. }
  unfold hadamard_layer, phase_layer.
  rewrite (count_gates_all is_hadamard Hadamard) by reflexivity.
  rewrite (count_gates_none is_hadamard (map (phase_gate x n) _)).
  2:{ intros g Hg. apply in_map_iff in Hg as (j & <- & _). reflexivity. }
  rewrite (count_gates_none is_hadamard (swap_layer n))
    by (intros g Hg; apply Hswap, Hg).
  rewrite (count_gates_none is_cphase (map Hadamard _)).
  2:{ intros g Hg. apply in_map_iff in Hg as (j & <- & _). reflexivity. }
  rewrite (count_gates_none is_cphase (map (phase_gate x n) _)).
  2:{ intros g Hg. apply in_map_iff in Hg as (j & <- & _). reflexivity. }
  rewrite (count_gates_none is_cphase (swap_layer n))
    by (intros g Hg; apply Hswap, Hg).
  rewrite !length_map, !length_seq, swap_layer_length.
  repeat split; lia.
Qed.

(** X2. A circuit the builder returns for [n] qubits has exactly [2 n]
    Hadamard gates and [n (n - 1) / 2] controlled phases, and before the
    closing markers it holds [n (n + 1) / 2 + 2 n + 2 (n / 2)]
    instructions. The Hadamards are the sites a noise model under ["h"]
    attaches to. *)
Theorem built_gate_counts (self : IQFT.t) (x : Z) :
  IQFT.n self <= 1024 ->
  py_int_of (IQFT.state self) = Ok x ->
  Py.fits_float x = true ->
  exists qc gates,
    IQFT.add_iqft_circuit self (new_QuantumCircuit (IQFT.n self)) = Ok qc
    /\ data qc
       = (gates ++ terminal_markers (IQFT.noise self) (IQFT.measure self))%list
    /\ count_gates is_hadamard (data qc) = 2 * IQFT.n self
    /\ 2 * count_gates is_cphase (data qc)
       = IQFT.n self * (IQFT.n self - 1)
    /\ 2 * length gates
       = IQFT.n self * (IQFT.n self + 1) + 4 * IQFT.n self
         + 4 * (IQFT.n self / 2).
Proof.
  intros Hn Hst Hx. eexists. exists (iqft_gates x (IQFT.n self)). split.
  - apply add_iqft_circuit_ok with (x := x); assumption.
  - unfold extend, new_QuantumCircuit. cbn [data app].
    split; [reflexivity|].
    rewrite !count_gates_app.
    destruct (iqft_gates_counts x (IQFT.n self)) as (Hh & Hc & Hlen).
    unfold terminal_markers.
    set (gates := iqft_gates x (IQFT.n self)) in *.
    destruct (IQFT.noise self), (IQFT.measure self);
      unfold count_gates in *; cbn [List.filter is_hadamard is_cphase app length];
      repeat split; lia.
Qed.

Lemma route_app l1 l2 q : route (l1 ++ l2) q = route l2 (route l1 q).
Proof. unfold route. apply fold_left_app. Qed.

Lemma route_still l q :
  (forall g, In g l -> forall q', move_wire q' g = q') -> route l q = q.
Proof.
  intros Hstill. unfold route.
  induction l as [|g l IH]; simpl; [reflexivity|].
  rewrite Hstill by now left. apply IH. intros g' Hg'. apply Hstill.
  now right.
Qed.

(** After the first [k] swaps the [k] outermost wires on each side are
    mirrored and the others are where they were. *)
Lemma route_swaps n k q :
  2 * k <= n -> q < n ->
  route (flat_map (fun a => [SwapGate a (n - a - 1); BarrierMarker])
           (seq 0 k)) q
  = if (q <? k) || (n - k <=? q) then n - 1 - q else q.
Proof.
  intros Hk Hq. induction k as [|k IH].
  - cbn [seq flat_map route fold_left Nat.ltb Nat.leb orb].
    destruct (n - 0 <=? q) eqn:Hle; [apply Nat.leb_le in Hle; lia|].
    reflexivity.
  - rewrite swap_layer_S, route_app, IH by lia. clear IH.
    unfold route. simpl.
    destruct (q <? k) eqn:H1, (n - k <=? q) eqn:H2,
             (q <? S k) eqn:H3, (n - S k <=? q) eqn:H4; simpl;
      repeat match goal with
      | H : (_ <? _) = true |- _ => apply Nat.ltb_lt in H
      | H : (_ <? _) = false |- _ => apply Nat.ltb_ge in H
      | H : (_ <=? _) = true |- _ => apply Nat.leb_le in H
      | H : (_ <=? _) = false |- _ => apply Nat.leb_gt in H
      end; try lia;
      repeat match goal with
      | |- context [?a =? ?b] =>
          let Heq := fresh "Heq" in
          destruct (a =? b) eqn:Heq;
          [apply Nat.eqb_eq in Heq | apply Nat.eqb_neq in Heq]
      end; lia.
Qed.

(** X3. In a circuit the builder returns, the content of wire [q] ends on
    wire [n - 1 - q]: the swap network reverses the register, and no other
    gate moves a wire. *)
Theorem built_circuit_reverses_wires (self : IQFT.t) (x : Z) (q : nat) :
  IQFT.n self <= 1024 ->
  py_int_of (IQFT.state self) = Ok x ->
  Py.fits_float x = true ->
  q < IQFT.n self ->
  exists qc,
    IQFT.add_iqft_circuit self (new_QuantumCircuit (IQFT.n self)) = Ok qc
    /\ route (data qc) q = IQFT.n self - 1 - q.
Proof.
  intros Hn Hst Hx Hq. eexists. split.
  - apply add_iqft_circuit_ok with (x := x); assumption.
  - simpl. unfold iqft_gates. rewrite !route_app.
    rewrite (route_still (hadamard_layer _)).
    2:{ intros g Hg. apply in_map_iff in Hg as (j & <- & _). reflexivity. }
    rewrite (route_still (phase_layer _ _)).
    2:{ intros g Hg. apply in_map_iff in Hg as (j & <- & _). reflexivity. }
    unfold swap_layer.
    rewrite route_swaps by (try apply Nat.Div0.mul_div_le; assumption).
    assert (Hmid : (q <? IQFT.n self / 2) || (IQFT.n self - IQFT.n self / 2 <=? q)
                   = false -> IQFT.n self - 1 - q = q).
    { intros Hf. apply orb_false_iff in Hf as [H1 H2].
      apply Nat.ltb_ge in H1. apply Nat.leb_gt in H2.
      pose proof (Nat.div_mod_eq (IQFT.n self) 2) as Hdm.
      pose proof (Nat.mod_upper_bound (IQFT.n self) 2). lia. }
    assert (Hswapped :
      (if (q <? IQFT.n self / 2) || (IQFT.n self - IQFT.n self / 2 <=? q)
       then IQFT.n self - 1 - q else q) = IQFT.n self - 1 - q).
    { destruct ((q <? IQFT.n self / 2)
                || (IQFT.n self - IQFT.n self / 2 <=? q)) eqn:Hc;
        [reflexivity | symmetry; now apply Hmid]. }
    rewrite Hswapped.
    rewrite (route_still (rotation_layer _)).
    2:{ intros g Hg. apply in_flat_map in Hg as (t & _ & Hg).
        apply in_app_iff in Hg as [Hg | [<- | []]]; [|reflexivity].
        apply in_map_iff in Hg as (c & <- & _). reflexivity. }
    apply route_still. intros g Hg.
    unfold terminal_markers in Hg.
    destruct (IQFT.noise self), (IQFT.measure self); simpl in Hg;
      repeat destruct Hg as [<- | Hg]; try reflexivity; destruct Hg.
Qed.

End BuilderExtras.

(** ** [build_iqft] and the state of the instance *)

Section BuildExtras.
Context `{E : Environment}.
Import Layers.

(** X4. The state is converted only inside the phase loop. With an empty
    register and no noise requested the builder succeeds for every state,
    even [None] or a text that is no integer, and returns the circuit with
    at most the measurement appended; with at least one qubit and the
    default state [None] it raises a [TypeError]. *)
Theorem state_converted_in_phase_loop (self : IQFT.t) (qc : QuantumCircuit) :
  (IQFT.n self = 0 -> IQFT.noise self = false ->
   IQFT.add_iqft_circuit self qc
   = Ok (extend qc (if IQFT.measure self then [MeasureAll] else [])))
  /\ (1 <= IQFT.n self -> IQFT.state self = None ->
      raises (IQFT.add_iqft_circuit self qc) TypeError).
Proof.
  split.
  - intros Hn Hnoise. unfold IQFT.add_iqft_circuit. rewrite Hn.
    cbn [Py.range Py.reversed seq rev fold_left Py.for_each Nat.div].
    change (0 / 2) with 0. cbn [seq fold_left].
    unfold mbind, res_bind, IQFT.add_iqft_rotations.
    cbn [Py.range seq Py.for_each].
    apply f_equal. rewrite markers_ok, Hnoise. reflexivity.
  - intros Hn Hst. eexists.
    apply add_iqft_circuit_raises; [assumption|].
    rewrite Hst. reflexivity.
Qed.

Lemma add_iqft_circuit_set_qc (self : IQFT.t) v qc :
  IQFT.add_iqft_circuit (IQFT.set_qc v self) qc
  = IQFT.add_iqft_circuit self qc.
Proof. reflexivity. Qed.

Lemma build_iqft_unfold (self : IQFT.t) :
  IQFT.build_iqft self
  = match IQFT.add_iqft_circuit self (new_QuantumCircuit (IQFT.n self)) with
    | Ok qc =>
        match circuit_drawer qc with
        | Ok img_path => (Ok img_path, IQFT.set_qc (Some qc) self)
        | Raise e => (Raise e, IQFT.set_qc (Some qc) self)
        end
    | Raise e => (Raise e, self)
    end.
Proof.
  unfold IQFT.build_iqft.
  unfold mbind, Method_bind, get_self, lift, assign, mret, Method_ret.
  destruct (IQFT.add_iqft_circuit self _) as [qc|e]; [|reflexivity].
  now destruct (circuit_drawer qc).
Qed.

(** X5. When the state of an instance with at least one qubit does not
    convert, [build_iqft] raises the exception of the conversion and
    leaves every attribute as it was: a circuit built before stays in
    [qc]. *)
Theorem build_iqft_bad_state_changes_nothing (self : IQFT.t) (e : exn) :
  1 <= IQFT.n self ->
  py_int_of (IQFT.state self) = Raise e ->
  IQFT.build_iqft self = (Raise e, self).
Proof.
  intros Hn Hst. rewrite build_iqft_unfold.
  now rewrite (add_iqft_circuit_raises self _ e Hn Hst).
Qed.

(** X6. The circuit is stored before it is drawn: when the drawer raises,
    [build_iqft] raises the drawer's exception, and [qc] nevertheless
    holds the complete new circuit. *)
Theorem build_iqft_stores_before_drawing (self : IQFT.t) (x : Z) (e : exn) :
  let built :=
    extend (new_QuantumCircuit (IQFT.n self))
      (iqft_gates x (IQFT.n self) ++
       terminal_markers (IQFT.noise self) (IQFT.measure self)) in
  IQFT.n self <= 1024 ->
  py_int_of (IQFT.state self) = Ok x ->
  Py.fits_float x = true ->
  circuit_drawer built = Raise e ->
  IQFT.build_iqft self = (Raise e, IQFT.set_qc (Some built) self)
  /\ IQFT.get_circuit (snd (IQFT.build_iqft self)) = Some built.
Proof.
  intros built Hn Hst Hx Hdraw.
  assert (Hb : IQFT.build_iqft self
               = (Raise e, IQFT.set_qc (Some built) self)).
  { rewrite build_iqft_unfold.
    rewrite add_iqft_circuit_ok with (x := x) by assumption.
    fold built. now rewrite Hdraw. }
  rewrite Hb. split; reflexivity.
Qed.

(** X7. Building again changes nothing more: after a second [build_iqft]
    the instance is as the first left it, so the gates of the first
    circuit are replaced, not added to. The path returned names a new
    temporary file each time and is not compared. *)
Theorem build_iqft_idempotent (self : IQFT.t) :
  snd (IQFT.build_iqft (snd (IQFT.build_iqft self)))
  = snd (IQFT.build_iqft self).
Proof.
  rewrite (build_iqft_unfold self).
  destruct (IQFT.add_iqft_circuit self (new_QuantumCircuit (IQFT.n self)))
    as [qc|e] eqn:Hadd.
  - assert (Hagain : snd (IQFT.build_iqft (IQFT.set_qc (Some qc) self))
                     = IQFT.set_qc (Some qc) self).
    { rewrite build_iqft_unfold, add_iqft_circuit_set_qc.
      change (IQFT.n (IQFT.set_qc (Some qc) self)) with (IQFT.n self).
      rewrite Hadd. now destruct (circuit_drawer qc). }
    destruct (circuit_drawer qc) eqn:Hd; cbn [snd]; exact Hagain.
  - cbn [snd]. now rewrite build_iqft_unfold, Hadd.
Qed.

(** X8. [build_iqft] writes [qc] and nothing else: the results of an
    earlier [simulate] (state, probabilities, counts, target and the two
    comparison pairs) survive a new build, whether it succeeds or
    raises. *)
Theorem build_iqft_keeps_results (self : IQFT.t) :
  same_results (snd (IQFT.build_iqft self)) self
  /\ IQFT.n (snd (IQFT.build_iqft self)) = IQFT.n self
  /\ IQFT.state (snd (IQFT.build_iqft self)) = IQFT.state self
  /\ IQFT.noise (snd (IQFT.build_iqft self)) = IQFT.noise self
  /\ IQFT.measure (snd (IQFT.build_iqft self)) = IQFT.measure self
  /\ IQFT.comparison (snd (IQFT.build_iqft self)) = IQFT.comparison self.
Proof.
  rewrite build_iqft_unfold. unfold same_results.
  destruct (IQFT.add_iqft_circuit self _) as [qc|e].
  - destruct (circuit_drawer qc); repeat split.
  - repeat split.
Qed.

End BuildExtras.

(** ** What [simulate] leaves alone *)

Section SimulateExtras.
Context `{E : Environment}.

(** Splits on every call that can raise and on the measure flag. *)
Ltac method_cases :=
  repeat first
    [ backend_call
    | match goal with
      | |- context [if IQFT.measure ?s then _ else _] =>
          destruct (IQFT.measure s) eqn:?; cbn
      end ].

Lemma simulate_ideal_keeps (self : IQFT.t) :
  same_configuration (snd (IQFT.simulate_ideal self)) self
  /\ IQFT.comp_counts (snd (IQFT.simulate_ideal self)) = IQFT.comp_counts self
  /\ IQFT.comp_fidelity (snd (IQFT.simulate_ideal self))
     = IQFT.comp_fidelity self
  /\ (IQFT.measure self = false ->
      IQFT.resulting_counts (snd (IQFT.simulate_ideal self))
      = IQFT.resulting_counts self).
Proof.
  unfold IQFT.simulate_ideal, same_configuration. run_method.
  method_cases; repeat split; try reflexivity; intros; congruence.
Qed.

Lemma simulate_noisy_keeps nm (self : IQFT.t) :
  same_configuration (snd (IQFT.simulate_noisy nm self)) self
  /\ IQFT.comp_counts (snd (IQFT.simulate_noisy nm self))
     = IQFT.comp_counts self
  /\ IQFT.comp_fidelity (snd (IQFT.simulate_noisy nm self))
     = IQFT.comp_fidelity self
  /\ (IQFT.measure self = false ->
      IQFT.resulting_counts (snd (IQFT.simulate_noisy nm self))
      = IQFT.resulting_counts self).
Proof.
  unfold IQFT.simulate_noisy, same_configuration. run_method.
  method_cases; repeat split; try reflexivity; intros; congruence.
Qed.

Lemma simulate_comparison_keeps nm (self : IQFT.t) :
  same_configuration (snd (IQFT.simulate_comparison nm self)) self
  /\ IQFT.resulting_counts (snd (IQFT.simulate_comparison nm self))
     = IQFT.resulting_counts self.
Proof.
  destruct (simulate_comparison_frame nm self) as (cc & cf & ->).
  unfold same_configuration. repeat split.
Qed.

Lemma simulate_keeps (self : IQFT.t) :
  same_configuration (snd (IQFT.simulate self)) self.
Proof.
  rewrite simulate_unfold.
  destruct (IQFT.build_noise_model self) as [nm|e].
  - destruct (IQFT.comparison self).
    + apply simulate_comparison_keeps.
    + destruct (IQFT.noise self); cbn [negb].
      * apply simulate_noisy_keeps.
      * apply simulate_ideal_keeps.
  - unfold same_configuration. repeat split.
Qed.

(** X9. [simulate] never changes what configures the instance: in every
    mode, and also when it raises, [n], [state], [qc], the noise flag,
    type and options, and the measure and comparison flags are as
    before. *)
Theorem simulate_keeps_configuration (self : IQFT.t) :
  same_configuration (snd (IQFT.simulate self)) self.
Proof. exact (simulate_keeps self). Qed.

Lemma single_run_only_call (c : IQFT.call) (self : IQFT.t) :
  single_run_only self -> single_run_only (IQFT.run_call c self).
Proof.
  intros (Hcmp & Hcc & Hcf). destruct c; simpl.
  - destruct (build_iqft_frame self) as [-> | [c ->]];
      repeat split; assumption.
  - rewrite simulate_unfold, Hcmp.
    destruct (IQFT.build_noise_model self) as [nm|e];
      [|repeat split; assumption].
    destruct (IQFT.noise self); cbn [negb].
    + destruct (simulate_noisy_keeps nm self)
        as ((_ & _ & _ & _ & _ & _ & _ & Hc) & H1 & H2 & _).
      unfold single_run_only. rewrite Hc, H1, H2. repeat split; assumption.
    + destruct (simulate_ideal_keeps self)
        as ((_ & _ & _ & _ & _ & _ & _ & Hc) & H1 & H2 & _).
      unfold single_run_only. rewrite Hc, H1, H2. repeat split; assumption.
Qed.

Lemma single_run_only_calls (cs : list IQFT.call) : forall self : IQFT.t,
  single_run_only self -> single_run_only (IQFT.run_calls cs self).
Proof.
  induction cs as [|c cs IH]; intros self Hinv; simpl; [assumption|].
  apply IH. now apply single_run_only_call.
Qed.

(** X10. On an instance made with [comparison=False], after any calls of
    [build_iqft] and [simulate], the two comparison accessors return
    [None]: a single run never writes the comparison pairs. *)
Theorem single_run_keeps_comparison_fields
    (n : nat) (state : option string) (noise : bool)
    (noise_type : option string) (noise_options : option (gmap string R))
    (measure : bool) (calls : list IQFT.call) :
  let self :=
    IQFT.run_calls calls
      (IQFT.init n state noise noise_type noise_options measure false) in
  IQFT.get_comp_counts self = None /\ IQFT.get_comp_fidelity self = None.
Proof.
  intros self.
  assert (Hinv : single_run_only self).
  { apply single_run_only_calls. repeat split. }
  destruct Hinv as (_ & Hcc & Hcf). now split.
Qed.

Lemma unmeasured_call (c : IQFT.call) (self : IQFT.t) :
  unmeasured self -> unmeasured (IQFT.run_call c self).
Proof.
  intros (Hm & Hc). destruct c; simpl.
  - destruct (build_iqft_frame self) as [-> | [c ->]]; split; assumption.
  - rewrite simulate_unfold.
    destruct (IQFT.build_noise_model self) as [nm|e]; [|split; assumption].
    destruct (IQFT.comparison self).
    + destruct (simulate_comparison_keeps nm self)
        as ((_ & _ & _ & _ & _ & _ & Hm' & _) & Hc').
      unfold unmeasured. rewrite Hm', Hc'. now split.
    + destruct (IQFT.noise self); cbn [negb].
      * destruct (simulate_noisy_keeps nm self)
          as ((_ & _ & _ & _ & _ & _ & Hm' & _) & _ & _ & Hc').
        unfold unmeasured. rewrite Hm', (Hc' Hm). now split.
      * destruct (simulate_ideal_keeps self)
          as ((_ & _ & _ & _ & _ & _ & Hm' & _) & _ & _ & Hc').
        unfold unmeasured. rewrite Hm', (Hc' Hm). now split.
Qed.

(** X11. On an instance made with [measure=False], after any calls of
    [build_iqft] and [simulate], in every mode, [get_resulting_counts]
    returns [None]. *)
Theorem unmeasured_instance_has_no_counts
    (n : nat) (state : option string) (noise : bool)
    (noise_type : option string) (noise_options : option (gmap string R))
    (comparison : bool) (calls : list IQFT.call) :
  IQFT.get_resulting_counts
    (IQFT.run_calls calls
       (IQFT.init n state noise noise_type noise_options false comparison))
  = None.
Proof.
  assert (Hinv : forall s : IQFT.t,
            unmeasured s -> unmeasured (IQFT.run_calls calls s)).
  { induction calls as [|c calls IH]; intros s Hs; simpl; [assumption|].
    apply IH. now apply unmeasured_call. }
  apply Hinv. split; reflexivity.
Qed.

End SimulateExtras.
(** ** Single runs and the flip channels *)

Section RunExtras.
Context `{E : Environment}.

(** X12. With noise and comparison off, [simulate] runs the circuit on
    the statevector simulator with 1024 shots and stores the simulator's
    target, the statevector and its probabilities, whatever the noise type
    and options hold; it reads the counts only when measurement was
    requested, and if reading them raises, the state and probabilities of
    this run are already stored. *)
Theorem ideal_run_stores (self : IQFT.t) (circ : QuantumCircuit)
    (job : JobT) (result : ResultT) (sv : StatevectorT) :
  let sim := StatevectorSimulator "single" in
  IQFT.noise self = false ->
  IQFT.comparison self = false ->
  transpile (IQFT.qc self) sim = Ok circ ->
  simulator_run sim circ 1024 = Ok job ->
  job_result job = Ok result ->
  get_statevector result circ = Ok sv ->
  let stored :=
    IQFT.set_resulting_probabilities (Some (probabilities (Statevector sv)))
      (IQFT.set_resulting_state (Some (Statevector sv))
         (IQFT.set_target (Some (simulator_target sim)) self)) in
  (IQFT.measure self = false -> IQFT.simulate self = (Ok tt, stored))
  /\ (forall counts,
        IQFT.measure self = true -> get_counts result = Ok counts ->
        IQFT.simulate self
        = (Ok tt, IQFT.set_resulting_counts (Some counts) stored))
  /\ (forall e,
        IQFT.measure self = true -> get_counts result = Raise e ->
        IQFT.simulate self = (Raise e, stored)).
Proof.
  intros sim Hnoise Hcmp Htr Hrun Hres Hsv stored.
  rewrite simulate_unfold, (build_noise_model_off self Hnoise), Hcmp, Hnoise.
  cbn [negb]. unfold IQFT.simulate_ideal. run_method.
  fold sim. rewrite Htr. cbn. rewrite Hrun. cbn. rewrite Hres. cbn.
  rewrite Hsv. cbn. repeat split.
  - intros ->. reflexivity.
  - intros counts -> Hc. cbn. rewrite Hc. reflexivity.
  - intros e -> Hc. cbn. rewrite Hc. reflexivity.
Qed.

(** X13. In a single run the target is assigned before the circuit is
    run: when the run raises, [simulate] raises the same exception, the
    target is the new simulator's, and the state, probabilities and counts
    are those of the run before. *)
Theorem failed_run_keeps_old_results (self : IQFT.t)
    (nm : option NoiseModel) (circ : QuantumCircuit) (e : exn) :
  let sim :=
    if IQFT.noise self then AerSimulator "single" nm
    else StatevectorSimulator "single" in
  IQFT.comparison self = false ->
  IQFT.build_noise_model self = Ok nm ->
  transpile (IQFT.qc self) sim = Ok circ ->
  simulator_run sim circ 1024 = Raise e ->
  IQFT.simulate self
  = (Raise e, IQFT.set_target (Some (simulator_target sim)) self)
  /\ IQFT.get_resulting_state (snd (IQFT.simulate self))
     = IQFT.get_resulting_state self
  /\ IQFT.get_resulting_probabilities (snd (IQFT.simulate self))
     = IQFT.get_resulting_probabilities self
  /\ IQFT.get_resulting_counts (snd (IQFT.simulate self))
     = IQFT.get_resulting_counts self.
Proof.
  intros sim Hcmp Hnm Htr Hrun.
  assert (Hsim : IQFT.simulate self
            = (Raise e, IQFT.set_target (Some (simulator_target sim)) self)).
  { rewrite simulate_unfold, Hnm, Hcmp. unfold sim in *.
    destruct (IQFT.noise self); cbn [negb].
    - unfold IQFT.simulate_noisy. run_method.
      rewrite Htr. cbn. rewrite Hrun. reflexivity.
    - unfold IQFT.simulate_ideal. run_method.
      rewrite Htr. cbn. rewrite Hrun. reflexivity. }
  rewrite Hsim. repeat split.
Qed.

(** X14. For a parameter [p] between 0 and 1 the two operators that
    [simulate] makes for a bit flip or a phase flip are complete:
    [K0^T K0 + K1^T K1] is the identity, so the channel preserves the
    trace. *)
Theorem flip_channels_complete (self : IQFT.t) (ch : NoiseChannel)
    (m : gmap string R) (p : R) :
  (0 <= p <= 1)%R ->
  ch = Bitflip \/ ch = Phaseflip ->
  IQFT.noise self = true ->
  IQFT.noise_type self = Some (channel_label ch) ->
  IQFT.noise_options self = Some m ->
  m !! channel_key ch = Some p ->
  exists K0 K1,
    IQFT.build_noise_model self = Ok (Some [(Kraus [K0; K1], ["h"])])
    /\ mat2_add (mat2_tmul K0 K0) (mat2_tmul K1 K1) = np_eye2.
Proof.
  intros [Hlo Hhi] Hch Hnoise Htype Hopts Hp.
  pose proof (build_noise_model_channel self ch m p Hnoise Htype Hopts Hp)
    as Hnm.
  assert (Ha : (sqrt p * sqrt p = p)%R) by (apply sqrt_sqrt; lra).
  assert (Hb : (sqrt (1 - p) * sqrt (1 - p) = 1 - p)%R)
    by (apply sqrt_sqrt; lra).
  destruct Hch as [-> | ->]; cbn in Hnm; do 2 eexists;
    (split; [exact Hnm|]);
    unfold mat2_add, mat2_tmul, np_eye2;
    set (a := sqrt p) in *; set (b := sqrt (1 - p)) in *;
    repeat (f_equal; try nra).
Qed.

(** X15. At the ends of the range the flip channels degenerate as the
    weights say: with parameter 1 the first operator is the identity and
    the second is zero, so nothing is flipped; with parameter 0 the first
    is zero and the second is the whole flip. *)
Theorem flip_channels_at_bounds (self : IQFT.t) (m : gmap string R) :
  IQFT.noise self = true ->
  IQFT.noise_options self = Some m ->
  let zero : matrix := [[0; 0]; [0; 0]]%R in
  (IQFT.noise_type self = Some "Bit flip" ->
     (m !! "bit_flip" = Some 1%R ->
      IQFT.build_noise_model self
      = Ok (Some [(Kraus [np_eye2; zero], ["h"])]))
     /\ (m !! "bit_flip" = Some 0%R ->
         IQFT.build_noise_model self
         = Ok (Some [(Kraus [zero; [[0; 1]; [1; 0]]%R], ["h"])])))
  /\ (IQFT.noise_type self = Some "Phase flip" ->
        (m !! "phase_flip" = Some 1%R ->
         IQFT.build_noise_model self
         = Ok (Some [(Kraus [np_eye2; zero], ["h"])]))
        /\ (m !! "phase_flip" = Some 0%R ->
            IQFT.build_noise_model self
            = Ok (Some [(Kraus [zero; [[1; 0]; [0; -1]]%R], ["h"])]))).
Proof.
  intros Hnoise Hopts zero.
  assert (H10 : (1 - 1 = 0)%R) by ring.
  assert (H01 : (1 - 0 = 1)%R) by ring.
  split; intros Htype; split; intros Hp.
  - rewrite (build_noise_model_channel self Bitflip m 1%R) by assumption.
    cbn. unfold bitflip_kraus, np_eye2, zero.
    rewrite H10, sqrt_1, sqrt_0. reflexivity.
  - rewrite (build_noise_model_channel self Bitflip m 0%R) by assumption.
    cbn. unfold bitflip_kraus, zero.
    rewrite H01, sqrt_1, sqrt_0. reflexivity.
  - rewrite (build_noise_model_channel self Phaseflip m 1%R) by assumption.
    cbn. unfold phaseflip_kraus, np_eye2, zero.
    rewrite H10, sqrt_1, sqrt_0, Ropp_0. reflexivity.
  - rewrite (build_noise_model_channel self Phaseflip m 0%R) by assumption.
    cbn. unfold phaseflip_kraus, zero.
    rewrite H01, sqrt_1, sqrt_0. reflexivity.
Qed.

End RunExtras.

(** ** [build_circuit] beyond the qubit-count guard *)

Section FrontEndExtras.
Context `{E : Environment} {QFT PhaseEstimation : Type}.
Variable QFT_init :
  Z -> string -> bool -> option string -> option (gmap string R) ->
  bool -> bool -> QFT.
Variable build_qft : Method QFT string.
Variable PhaseEstimation_init :
  Z -> bool -> option string -> option (gmap string R) ->
  bool -> bool -> PhaseEstimation.
Variable build_phase_estimation : Method PhaseEstimation string.
Local Abbreviation window := (@QFTSimulator.t E QFT PhaseEstimation).
Variable display_circuit : string -> window -> window.

Local Abbreviation build_simulation :=
  (QFTSimulator.build_simulation QFT_init build_qft
     PhaseEstimation_init build_phase_estimation).
Local Abbreviation build_circuit :=
  (QFTSimulator.build_circuit QFT_init build_qft
     PhaseEstimation_init build_phase_estimation display_circuit).

(** [build_circuit] by the outcome of lines 294-329. *)
Lemma build_circuit_unfold (app : window) :
  build_circuit app
  = match build_simulation (QFTSimulator.n_entry app) (announced app) with
    | (Ok None, s) => (Ok tt, s)
    | (Ok (Some (n, img_path)), s) =>
        let s' :=
          QFTSimulator.set_status_label
            ("Circuit built with " ++ pretty n ++ " qubits")
            (display_circuit img_path s) in
        (Ok tt,
         QFTSimulator.set_output_text
           (QFTSimulator.output_text s' ++
            [("Circuit built with " ++ pretty n ++ " qubits using "
               ++ QFTSimulator.algorithm_var s' ++ " algorithm")%string])%list
           s')
    | (Raise e, s) => (Ok tt, reported ("Invalid input: " ++ exn_str e) s)
    end.
Proof.
  unfold QFTSimulator.build_circuit, QFTSimulator.build_circuit_try,
    QFTSimulator.add_text_to_bottom_panel, QFTSimulator.messagebox,
    try_except, announced, reported.
  unfold mbind, Method_bind, get, assign, pass, mret, Method_ret.
  cbn [QFTSimulator.n_entry QFTSimulator.set_output_text].
  destruct (QFTSimulator.build_simulation _ _ _ _ _ _) as [[[[n p]|]|e] s];
    reflexivity.
Qed.

(** X16. [build_circuit] never lets an exception out: whatever the
    window holds and whatever the builders and the drawer do, it returns
    normally. *)
Theorem build_circuit_never_raises (app : window) :
  fst (build_circuit app) = Ok tt.
Proof.
  rewrite build_circuit_unfold.
  destruct (build_simulation _ _) as [[[[n p]|]|e] s]; reflexivity.
Qed.

Lemma build_simulation_count (app : window) (n : Z) :
  int_literal (QFTSimulator.n_entry app) = Some n ->
  (1 <= n <= 10)%Z ->
  ((n <? 1) || (n >? 10))%Z = false.
Proof. intros _ Hn. apply orb_false_iff. split; lia. Qed.

(** X17. When the qubit-count entry holds no integer, [build_circuit]
    shows the error dialog with the message of [int()] and changes nothing
    else but the output panel: no simulation object is made and the one
    held before stays. *)
Theorem unreadable_qubit_count (app : window) :
  int_literal (QFTSimulator.n_entry app) = None ->
  build_circuit app
  = (Ok tt,
     reported
       ("Invalid input: invalid literal for int() with base 10: "
          ++ repr (QFTSimulator.n_entry app))
       (announced app)).
Proof.
  intros Hn. rewrite build_circuit_unfold.
  unfold QFTSimulator.build_simulation. run_method.
  unfold py_int. rewrite Hn. reflexivity.
Qed.

(** X18. With the algorithm IQFT, a qubit count from 1 to 10 and a state
    entry that holds an integer within float range, lines 294-329 leave in
    [current_simulation] a new [IQFT] instance made from the count, the
    entry, the three checkboxes and the noise attributes of the window,
    with its circuit built, and return the count and the path of the
    drawing. *)
Theorem iqft_build_succeeds (app : window) (n x : Z) (st path : string) :
  let fresh :=
    IQFT.init (Z.to_nat n) (Some st) (QFTSimulator.noise_var app)
      (QFTSimulator.noise_type app) (QFTSimulator.noise_params app)
      (QFTSimulator.measure app) (QFTSimulator.compare_var app) in
  let built :=
    extend (new_QuantumCircuit (Z.to_nat n))
      (Layers.iqft_gates x (Z.to_nat n) ++
       Layers.terminal_markers (QFTSimulator.noise_var app)
         (QFTSimulator.measure app)) in
  int_literal (QFTSimulator.n_entry app) = Some n ->
  (1 <= n <= 10)%Z ->
  QFTSimulator.algorithm_var app = "IQFT" ->
  QFTSimulator.iqft_number_entry app = Some st ->
  int_literal st = Some x ->
  Py.fits_float x = true ->
  circuit_drawer built = Ok path ->
  build_simulation (QFTSimulator.n_entry app) app
  = (Ok (Some (n, path)),
     QFTSimulator.set_current_simulation
       (Some (QFTSimulator.OfIQFT (IQFT.set_qc (Some built) fresh))) app).
Proof.
  intros fresh built Hn Hrange Halg Hentry Hst Hx Hdraw.
  assert (Hbuild : IQFT.build_iqft fresh
                   = (Ok path, IQFT.set_qc (Some built) fresh)).
  { apply build_iqft_ok with (x := x); try assumption.
    - unfold fresh. cbn [IQFT.n IQFT.init]. lia.
    - unfold fresh. cbn [IQFT.state IQFT.init py_int_of]. unfold py_int.
      now rewrite Hst. }
  unfold QFTSimulator.build_simulation, QFTSimulator.attribute,
    QFTSimulator.on_simulation.
  unfold mbind, Method_bind, get, lift, assign, pass, mret, Method_ret.
  unfold py_int. rewrite Hn.
  rewrite (build_simulation_count app n Hn Hrange).
  rewrite Halg. cbn [String.eqb Ascii.eqb Bool.eqb].
  rewrite Hentry. fold fresh.
  cbn [QFTSimulator.noise_var QFTSimulator.noise_type
       QFTSimulator.noise_params QFTSimulator.measure
       QFTSimulator.compare_var QFTSimulator.set_current_simulation].
  fold fresh. rewrite Hbuild. reflexivity.
Qed.

(** X19. With the algorithm IQFT and a valid qubit count, a state entry
    that does not convert still replaces the simulation held by the
    window: [build_circuit] shows the error of the conversion, and
    [current_simulation] is a new [IQFT] instance without a circuit. *)
Theorem iqft_bad_state_replaces_simulation (app : window) (n : Z)
    (st : string) (e : exn) :
  let fresh :=
    IQFT.init (Z.to_nat n) (Some st) (QFTSimulator.noise_var app)
      (QFTSimulator.noise_type app) (QFTSimulator.noise_params app)
      (QFTSimulator.measure app) (QFTSimulator.compare_var app) in
  int_literal (QFTSimulator.n_entry app) = Some n ->
  (1 <= n <= 10)%Z ->
  QFTSimulator.algorithm_var app = "IQFT" ->
  QFTSimulator.iqft_number_entry app = Some st ->
  py_int st = Raise e ->
  build_circuit app
  = (Ok tt,
     reported ("Invalid input: " ++ exn_str e)
       (QFTSimulator.set_current_simulation
          (Some (QFTSimulator.OfIQFT fresh)) (announced app)))
  /\ IQFT.get_circuit fresh = None.
Proof.
  intros fresh Hn Hrange Halg Hentry Hst. split; [|reflexivity].
  assert (Hbuild : IQFT.build_iqft fresh = (Raise e, fresh)).
  { rewrite build_iqft_unfold.
    rewrite (add_iqft_circuit_raises fresh _ e); [reflexivity| |exact Hst].
    unfold fresh. cbn [IQFT.n IQFT.init]. lia. }
  rewrite build_circuit_unfold.
  unfold QFTSimulator.build_simulation, QFTSimulator.attribute,
    QFTSimulator.on_simulation.
  unfold mbind, Method_bind, get, lift, assign, pass, mret, Method_ret.
  unfold py_int. rewrite Hn.
  rewrite (build_simulation_count app n Hn Hrange).
  change (QFTSimulator.algorithm_var (announced app))
    with (QFTSimulator.algorithm_var app).
  change (QFTSimulator.iqft_number_entry (announced app))
    with (QFTSimulator.iqft_number_entry app).
  change (QFTSimulator.noise_var (announced app))
    with (QFTSimulator.noise_var app).
  change (QFTSimulator.noise_type (announced app))
    with (QFTSimulator.noise_type app).
  change (QFTSimulator.noise_params (announced app))
    with (QFTSimulator.noise_params app).
  change (QFTSimulator.measure (announced app))
    with (QFTSimulator.measure app).
  change (QFTSimulator.compare_var (announced app))
    with (QFTSimulator.compare_var app).
  rewrite Halg. cbn [String.eqb Ascii.eqb Bool.eqb].
  change (QFTSimulator.iqft_number_entry (announced app))
    with (QFTSimulator.iqft_number_entry app).
  rewrite Hentry. fold fresh. rewrite Hbuild. reflexivity.
Qed.

Lemma string_app_assoc (s1 s2 s3 : string) :
  ((s1 ++ s2) ++ s3 = s1 ++ (s2 ++ s3))%string.
Proof.
  induction s1 as [|c s1 IH]; [reflexivity|].
  change (String c ((s1 ++ s2) ++ s3) = String c (s1 ++ (s2 ++ s3)))%string.
  now rewrite IH.
Qed.

Lemma string_length_app (s1 s2 : string) :
  String.length (s1 ++ s2) = String.length s1 + String.length s2.
Proof.
  induction s1 as [|c s1 IH]; [reflexivity|].
  change (S (String.length (s1 ++ s2))
          = S (String.length s1 + String.length s2)).
  now rewrite IH.
Qed.

Lemma string_app_nil_r (s : string) : (s ++ "")%string = s.
Proof.
  induction s as [|c s IH]; [reflexivity|].
  change (String c (s ++ "") = String c s)%string. now rewrite IH.
Qed.

(** One step of the loop over the selectors. *)
Lemma qft_state_step temp rest i state :
  (is_basis_label temp = true /\
   exists c, String.length c = 1 /\
     QFTSimulator.qft_state (temp :: rest) i state
     = QFTSimulator.qft_state rest (S i) (state ++ c))
  \/ (is_basis_label temp = false /\
      QFTSimulator.qft_state (temp :: rest) i state = inr (i, temp)).
Proof.
  unfold is_basis_label, basis_labels. cbn [existsb QFTSimulator.qft_state].
  destruct (String.eqb temp "|0⟩"); [left; split; [reflexivity|]; eexists; split; [|reflexivity]; reflexivity|].
  destruct (String.eqb temp "|1⟩"); [left; split; [reflexivity|]; eexists; split; [|reflexivity]; reflexivity|].
  destruct (String.eqb temp "|+⟩"); [left; split; [reflexivity|]; eexists; split; [|reflexivity]; reflexivity|].
  destruct (String.eqb temp "|−⟩"); [left; split; [reflexivity|]; eexists; split; [|reflexivity]; reflexivity|].
  destruct (String.eqb temp "|i⟩"); [left; split; [reflexivity|]; eexists; split; [|reflexivity]; reflexivity|].
  destruct (String.eqb temp "|−i⟩"); [left; split; [reflexivity|]; eexists; split; [|reflexivity]; reflexivity|].
  right. split; reflexivity.
Qed.

Lemma qft_state_valid labels : forall i state,
  forallb is_basis_label labels = true ->
  exists s,
    QFTSimulator.qft_state labels i state = inl (state ++ s)%string
    /\ String.length s = length labels.
Proof.
  induction labels as [|temp rest IH]; intros i state Hall.
  - exists ""%string. split; [|reflexivity].
    now rewrite string_app_nil_r.
  - cbn [forallb] in Hall. apply andb_true_iff in Hall as [Htemp Hrest].
    destruct (qft_state_step temp rest i state)
      as [(_ & c & Hc & ->) | (Hbad & _)]; [|congruence].
    destruct (IH (S i) (state ++ c)%string Hrest) as (s & -> & Hlen).
    exists (c ++ s)%string. split.
    + now rewrite string_app_assoc.
    + rewrite string_length_app, Hc, Hlen. reflexivity.
Qed.

Lemma qft_state_invalid labels : forall i state j temp,
  QFTSimulator.qft_state labels i state = inr (j, temp) ->
  exists k,
    j = i + k
    /\ nth_error labels k = Some temp
    /\ is_basis_label temp = false
    /\ forallb is_basis_label (firstn k labels) = true.
Proof.
  induction labels as [|t rest IH]; intros i state j temp Hq.
  - discriminate.
  - destruct (qft_state_step t rest i state)
      as [(Hok & c & _ & Hstep) | (Hbad & Hstep)]; rewrite Hstep in Hq.
    + destruct (IH _ _ _ _ Hq) as (k & -> & Hnth & Hinv & Hbefore).
      exists (S k). repeat split; [lia | assumption | assumption |].
      cbn [firstn forallb]. now rewrite Hok, Hbefore.
    + injection Hq as <- <-. exists 0.
      repeat split; [lia | assumption].
Qed.

(** X20. The loop over the selectors returns a state string exactly when
    every label is one of the six basis labels, and the string then has
    one character per selector, whatever the qubit count; otherwise it
    stops at the first label that is none of the six and names its
    index. *)
Theorem qft_state_translation (labels : list string) :
  (forallb is_basis_label labels = true ->
   exists s,
     QFTSimulator.qft_state labels 0 "" = inl s
     /\ String.length s = length labels)
  /\ (forall i temp,
        QFTSimulator.qft_state labels 0 "" = inr (i, temp) ->
        nth_error labels i = Some temp
        /\ is_basis_label temp = false
        /\ forallb is_basis_label (firstn i labels) = true)
  /\ (forallb is_basis_label labels = false ->
      exists i temp, QFTSimulator.qft_state labels 0 "" = inr (i, temp)).
Proof.
  split; [|split].
  - intros Hall. destruct (qft_state_valid labels 0 "" Hall) as (s & Hs & Hl).
    exists s. now split.
  - intros i temp Hq.
    destruct (qft_state_invalid labels 0 "" i temp Hq)
      as (k & -> & Hnth & Hinv & Hbefore).
    now repeat split.
  - intros Hsome.
    destruct (QFTSimulator.qft_state labels 0 "") as [s|[i temp]] eqn:Hq;
      [|eauto].
    exfalso.
    assert (Hall : forallb is_basis_label labels = true).
    { clear Hsome. revert Hq. generalize 0, ""%string.
      induction labels as [|t rest IH]; intros i state Hq; [reflexivity|].
      destruct (qft_state_step t rest i state)
        as [(Hok & c & _ & Hstep) | (_ & Hstep)]; rewrite Hstep in Hq.
      - cbn [forallb]. rewrite Hok. simpl. eapply IH, Hq.
      - discriminate. }
    congruence.
Qed.

(** X21. With the algorithm QFT and a valid qubit count, a selector whose
    label is none of the six makes [build_circuit] show an error dialog
    that names the qubit (counting from 1) and the label, and return
    without an exception and without making a simulation object. *)
Theorem qft_unknown_label_reported (app : window) (n : Z)
    (labels : list string) (i : nat) (temp : string) :
  int_literal (QFTSimulator.n_entry app) = Some n ->
  (1 <= n <= 10)%Z ->
  QFTSimulator.algorithm_var app = "QFT" ->
  QFTSimulator.qubit_states app = Some labels ->
  QFTSimulator.qft_state labels 0 "" = inr (i, temp) ->
  build_circuit app
  = (Ok tt,
     reported ("Invalid state for qubit " ++ pretty (i + 1) ++ ": " ++ temp)
       (announced app)).
Proof.
  intros Hn Hrange Halg Hlabels Hq. rewrite build_circuit_unfold.
  unfold QFTSimulator.build_simulation, QFTSimulator.attribute,
    QFTSimulator.messagebox.
  unfold mbind, Method_bind, get, lift, assign, pass, mret, Method_ret.
  unfold py_int. rewrite Hn.
  rewrite (build_simulation_count app n Hn Hrange).
  change (QFTSimulator.algorithm_var (announced app))
    with (QFTSimulator.algorithm_var app).
  rewrite Halg. cbn [String.eqb Ascii.eqb Bool.eqb].
  change (QFTSimulator.qubit_states (announced app))
    with (QFTSimulator.qubit_states app).
  rewrite Hlabels, Hq. reflexivity.
Qed.

(** X22. With a valid qubit count and an algorithm name that is none of
    the three, [build_circuit] reports "Unknown algorithm" with the name
    and makes no simulation object. *)
Theorem unknown_algorithm_reported (app : window) (n : Z) :
  int_literal (QFTSimulator.n_entry app) = Some n ->
  (1 <= n <= 10)%Z ->
  QFTSimulator.algorithm_var app <> "QFT" ->
  QFTSimulator.algorithm_var app <> "IQFT" ->
  QFTSimulator.algorithm_var app <> "Phase Estimation" ->
  build_circuit app
  = (Ok tt,
     reported
       ("Invalid input: Unknown algorithm: " ++ QFTSimulator.algorithm_var app)
       (announced app)).
Proof.
  intros Hn Hrange H1 H2 H3. rewrite build_circuit_unfold.
  unfold QFTSimulator.build_simulation.
  unfold mbind, Method_bind, get, lift, assign, pass, mret, Method_ret.
  unfold py_int. rewrite Hn.
  rewrite (build_simulation_count app n Hn Hrange).
  change (QFTSimulator.algorithm_var (announced app))
    with (QFTSimulator.algorithm_var app).
  apply String.eqb_neq in H1, H2, H3. rewrite H1, H2, H3. reflexivity.
Qed.

(** X23. With the algorithm IQFT and a valid qubit count, building before
    the state entry exists raises an [AttributeError] inside
    [build_circuit], which reports it; no simulation object is made and
    the one held before stays. *)
Theorem iqft_without_state_entry (app : window) (n : Z) :
  int_literal (QFTSimulator.n_entry app) = Some n ->
  (1 <= n <= 10)%Z ->
  QFTSimulator.algorithm_var app = "IQFT" ->
  QFTSimulator.iqft_number_entry app = None ->
  (exists msg,
     build_simulation (QFTSimulator.n_entry app) (announced app)
     = (Raise (mk_exn AttributeError msg), announced app)
     /\ build_circuit app
        = (Ok tt, reported ("Invalid input: " ++ msg) (announced app)))
  /\ QFTSimulator.current_simulation (snd (build_circuit app))
     = QFTSimulator.current_simulation app.
Proof.
  intros Hn Hrange Halg Hentry.
  assert (Hsim : exists msg,
            build_simulation (QFTSimulator.n_entry app) (announced app)
            = (Raise (mk_exn AttributeError msg), announced app)).
  { eexists.
    unfold QFTSimulator.build_simulation, QFTSimulator.attribute.
    unfold mbind, Method_bind, get, lift, assign, pass, mret, Method_ret.
    unfold py_int. rewrite Hn.
    rewrite (build_simulation_count app n Hn Hrange).
    change (QFTSimulator.algorithm_var (announced app))
      with (QFTSimulator.algorithm_var app).
    rewrite Halg. cbn [String.eqb Ascii.eqb Bool.eqb].
    change (QFTSimulator.iqft_number_entry (announced app))
      with (QFTSimulator.iqft_number_entry app).
    rewrite Hentry. reflexivity. }
  destruct Hsim as [msg Hsim].
  assert (Hb : build_circuit app
               = (Ok tt, reported ("Invalid input: " ++ msg) (announced app))).
  { rewrite build_circuit_unfold, Hsim. reflexivity. }
  split; [exists msg; now split|]. rewrite Hb. reflexivity.
Qed.

End FrontEndExtras.
(** ** The noise panel, the Analysis menu and the comparison window *)

Section DesktopExtras.
Context `{E : Environment} {QFT PhaseEstimation : Type}.
Variable simulate_qft : Method QFT unit.
Variable simulate_phase_estimation : Method PhaseEstimation unit.
Variable qft_get_circuit : QFT -> option QuantumCircuit.
Variable qft_get_comp_counts : QFT -> option (CountsT * CountsT).
Variable qft_get_comp_fidelity : QFT -> option (IQFT.State * IQFT.State).
Variable pe_get_circuit : PhaseEstimation -> option QuantumCircuit.
Variable pe_get_comp_counts : PhaseEstimation -> option (CountsT * CountsT).
Variable pe_get_comp_fidelity :
  PhaseEstimation -> option (IQFT.State * IQFT.State).
Variable state_fidelity_text : IQFT.State -> IQFT.State -> res string.
Variable plot_histogram : CountsT -> CountsT -> res unit.

Local Abbreviation desktop := (@Desktop.t E QFT PhaseEstimation).
Local Abbreviation window := (@QFTSimulator.t E QFT PhaseEstimation).
Local Abbreviation simulate_current :=
  (Desktop.simulate_current simulate_qft simulate_phase_estimation).
Local Abbreviation run_simulation :=
  (Desktop.run_simulation simulate_qft simulate_phase_estimation).
Local Abbreviation perform_all :=
  (Desktop.perform_all simulate_qft simulate_phase_estimation).
Local Abbreviation show_comparison_window :=
  (Desktop.show_comparison_window qft_get_circuit qft_get_comp_counts
     qft_get_comp_fidelity pe_get_circuit pe_get_comp_counts
     pe_get_comp_fidelity state_fidelity_text plot_histogram).

Lemma options_key_label (ch : NoiseChannel) :
  Desktop.options_key (channel_label ch) = channel_key ch.
Proof. destruct ch; reflexivity. Qed.

Lemma channel_key_inj (ch ch' : NoiseChannel) :
  channel_key ch = channel_key ch' -> ch = ch'.
Proof. destruct ch, ch'; simpl; intros H; congruence. Qed.

(** X24. The key under which the button of the noise panel stores the
    parameter is the key that [simulate] reads: after the panel is opened
    for one of the five noise types and applied with a parameter [p] in
    the domain of its channel, an [IQFT] instance made with noise on from
    the window's noise type and parameters gets the channel of that type
    with parameter [p], attached to ["h"]. *)
Theorem noise_panel_reaches_simulate (d : desktop) (ch : NoiseChannel)
    (p : R) :
  channel_domain ch p ->
  Desktop.noise_type_var d = channel_label ch ->
  exists noise_type,
    fst (Desktop.create_noise_panel d) = Ok noise_type
    /\ let d' :=
         snd (Desktop.apply noise_type p (snd (Desktop.create_noise_panel d)))
       in
       QFTSimulator.noise_type (Desktop.window d') = Some (channel_label ch)
       /\ QFTSimulator.noise_params (Desktop.window d')
          = Some {[channel_key ch := p]}
       /\ forall self : IQFT.t,
            IQFT.noise self = true ->
            IQFT.noise_type self = QFTSimulator.noise_type (Desktop.window d') ->
            IQFT.noise_options self
            = QFTSimulator.noise_params (Desktop.window d') ->
            IQFT.build_noise_model self
            = Ok (Some [(make_channel ch p, ["h"])]).
Proof.
  intros _ Hvar. exists (channel_label ch).
  unfold Desktop.apply, Desktop.create_noise_panel, Desktop.in_window.
  run_method. rewrite Hvar, options_key_label.
  repeat split.
  intros self Hnoise Htype Hopts.
  apply (build_noise_model_channel self ch {[channel_key ch := p]} p);
    try assumption.
  apply lookup_singleton_eq.
Qed.

(** X25. Opening the noise panel assigns the noise type at once and
    leaves the parameters alone until the button is pressed. An [IQFT]
    instance made with noise on from a window whose panel was opened for
    one of the five types and not applied fails in [simulate]: with a
    [TypeError] when no parameters were ever applied, and with a
    [KeyError] when the parameters left are those of another type. *)
Theorem noise_panel_not_applied (d : desktop) (ch : NoiseChannel) :
  Desktop.noise_type_var d = channel_label ch ->
  let w' := Desktop.window (snd (Desktop.create_noise_panel d)) in
  QFTSimulator.noise_type w' = Some (channel_label ch)
  /\ QFTSimulator.noise_params w'
     = QFTSimulator.noise_params (Desktop.window d)
  /\ forall self : IQFT.t,
       IQFT.noise self = true ->
       IQFT.noise_type self = QFTSimulator.noise_type w' ->
       IQFT.noise_options self = QFTSimulator.noise_params w' ->
       (QFTSimulator.noise_params (Desktop.window d) = None ->
        raises (fst (IQFT.simulate self)) TypeError)
       /\ (forall ch' p,
             ch' <> ch ->
             QFTSimulator.noise_params (Desktop.window d)
             = Some {[channel_key ch' := p]} ->
             raises (fst (IQFT.simulate self)) KeyError).
Proof.
  intros Hvar w'.
  assert (Htype : QFTSimulator.noise_type w' = Some (channel_label ch)).
  { unfold w', Desktop.create_noise_panel, Desktop.in_window.
    run_method. now rewrite Hvar. }
  assert (Hparams : QFTSimulator.noise_params w'
                    = QFTSimulator.noise_params (Desktop.window d))
    by reflexivity.
  split; [exact Htype|]. split; [exact Hparams|].
  intros self Hnoise Hst Hso. rewrite Htype in Hst. rewrite Hparams in Hso.
  split.
  - intros Hnone. rewrite Hnone in Hso.
    destruct (build_noise_model_no_options self ch Hnoise Hst Hso)
      as [msg Hraise].
    rewrite simulate_unfold, Hraise. now exists msg.
  - intros ch' p Hne Hold. rewrite Hold in Hso.
    destruct (build_noise_model_no_key self ch {[channel_key ch' := p]}
                Hnoise Hst Hso) as [msg Hraise].
    + apply lookup_singleton_ne. intros Heq. apply Hne.
      now apply channel_key_inj.
    + rewrite simulate_unfold, Hraise. now exists msg.
Qed.

(** [simulate_current] writes [current_simulation] and nothing else. *)
Lemma simulate_current_frame (w : window) :
  exists held,
    snd (simulate_current w) = QFTSimulator.set_current_simulation held w.
Proof.
  unfold Desktop.simulate_current, QFTSimulator.on_simulation.
  unfold mbind, Method_bind, get, lift.
  destruct (QFTSimulator.current_simulation w) as [[o|o|o]|] eqn:Hheld.
  - destruct (simulate_qft o). eexists. reflexivity.
  - destruct (IQFT.simulate o). eexists. reflexivity.
  - destruct (simulate_phase_estimation o). eexists. reflexivity.
  - exists None. cbn. destruct w. cbn in Hheld. now rewrite Hheld.
Qed.

(** [run_simulation] by the outcome of the simulation. *)
Lemma run_simulation_unfold (d : desktop) :
  let w0 :=
    QFTSimulator.set_output_text
      (QFTSimulator.output_text (Desktop.window d)
       ++ ["Running simulation..."])%list (Desktop.window d) in
  run_simulation d
  = match simulate_current w0 with
    | (Ok _, w) =>
        let compare := QFTSimulator.compare_var w in
        let measure := QFTSimulator.measure w in
        (Ok tt,
         Desktop.mk
           (QFTSimulator.set_output_text
              (QFTSimulator.output_text w
               ++ ["Simulation completed successfully"])%list
              (QFTSimulator.set_status_label
                 "Simulation completed - Analysis menu enabled" w))
           (Desktop.noise_type_var d)
           (Desktop.mk_menu (negb compare) (negb compare && measure)
              (negb compare && measure) compare)
           (Desktop.toplevels d))
    | (Raise e, w) =>
        (Ok tt,
         Desktop.mk (reported ("Simulation failed: " ++ exn_str e) w)
           (Desktop.noise_type_var d) (Desktop.analysis_menu d)
           (Desktop.toplevels d))
    end.
Proof.
  intros w0. unfold Desktop.run_simulation, Desktop.run_simulation_try,
    Desktop.in_window, Desktop.menu_entryconfig, try_except,
    QFTSimulator.add_text_to_bottom_panel, QFTSimulator.messagebox.
  unfold mbind, Method_bind, get, assign, mret, Method_ret.
  cbn [Desktop.window Desktop.set_window]. fold w0.
  destruct (simulate_current w0) as [[[]|e] w]; cbn.
  - destruct (QFTSimulator.compare_var w); cbn; [reflexivity|].
    destruct (QFTSimulator.measure w); reflexivity.
  - reflexivity.
Qed.

(** X26. After a simulation that returns, [run_simulation] sets all four
    entries of the Analysis menu from the checkboxes as they are at that
    moment: Comparison Analysis is enabled exactly when the comparison
    box is ticked, Bloch Sphere Analysis exactly when it is not, and
    Probability and State City Analysis exactly when it is not and the
    measure box is ticked. *)
Theorem run_simulation_sets_menu (d : desktop) :
  let w0 :=
    QFTSimulator.set_output_text
      (QFTSimulator.output_text (Desktop.window d)
       ++ ["Running simulation..."])%list (Desktop.window d) in
  fst (simulate_current w0) = Ok tt ->
  let compare := QFTSimulator.compare_var (Desktop.window d) in
  let measure := QFTSimulator.measure (Desktop.window d) in
  fst (run_simulation d) = Ok tt
  /\ Desktop.analysis_menu (snd (run_simulation d))
     = Desktop.mk_menu (negb compare) (negb compare && measure)
         (negb compare && measure) compare.
Proof.
  intros w0 Hok compare measure. rewrite run_simulation_unfold. fold w0.
  destruct (simulate_current_frame w0) as [held Hframe].
  destruct (simulate_current w0) as [[[]|e] w]; [|discriminate].
  cbn in Hframe. subst w. split; reflexivity.
Qed.

(** X27. When the simulation raises, and so too when no simulation was
    built, [run_simulation] returns normally, shows the error in a dialog
    and leaves the Analysis menu and the status label as they were. *)
Theorem run_simulation_failure (d : desktop) (e : exn) :
  let w0 :=
    QFTSimulator.set_output_text
      (QFTSimulator.output_text (Desktop.window d)
       ++ ["Running simulation..."])%list (Desktop.window d) in
  (fst (simulate_current w0) = Raise e ->
   fst (run_simulation d) = Ok tt
   /\ Desktop.analysis_menu (snd (run_simulation d)) = Desktop.analysis_menu d
   /\ QFTSimulator.status_label (Desktop.window (snd (run_simulation d)))
      = QFTSimulator.status_label (Desktop.window d)
   /\ QFTSimulator.messageboxes (Desktop.window (snd (run_simulation d)))
      = (QFTSimulator.messageboxes (Desktop.window d)
         ++ [QFTSimulator.showerror "Error"
               ("Simulation failed: " ++ exn_str e)])%list)
  /\ (QFTSimulator.current_simulation (Desktop.window d) = None ->
      exists msg,
        fst (simulate_current w0) = Raise (mk_exn AttributeError msg)).
Proof.
  intros w0. split.
  - intros Hfail. rewrite run_simulation_unfold. fold w0.
    destruct (simulate_current_frame w0) as [held Hframe].
    destruct (simulate_current w0) as [[[]|e'] w]; [discriminate|].
    cbn in Hfail. injection Hfail as ->. cbn in Hframe. subst w.
    repeat split.
  - intros Hnone. eexists.
    unfold Desktop.simulate_current. unfold mbind, Method_bind, get, lift.
    change (QFTSimulator.current_simulation w0)
      with (QFTSimulator.current_simulation (Desktop.window d)).
    rewrite Hnone. reflexivity.
Qed.

Lemma menu_consistent_after_run (d : desktop) :
  Desktop.menu_consistent (Desktop.analysis_menu d) ->
  Desktop.menu_consistent (Desktop.analysis_menu (snd (run_simulation d))).
Proof.
  intros Hd. rewrite run_simulation_unfold.
  destruct (simulate_current _) as [[[]|e] w]; cbn; [|exact Hd].
  unfold Desktop.menu_consistent. cbn.
  destruct (QFTSimulator.compare_var w), (QFTSimulator.measure w);
    cbn; repeat split; intros; repeat split; congruence.
Qed.

Lemma reset_simulation_menu (d : desktop) :
  Desktop.analysis_menu (snd (Desktop.reset_simulation d))
  = Desktop.create_menu.
Proof.
  unfold Desktop.reset_simulation, Desktop.menu_entryconfig,
    Desktop.in_window.
  run_method. reflexivity.
Qed.

(** X28. Starting from the menu as [create_menu] makes it, after any
    sequence of simulation runs, resets and changes to the widgets, the
    entries never contradict each other: Comparison Analysis is never
    enabled together with one of the other three, Probability and State
    City Analysis are enabled together or not at all, and only when Bloch
    Sphere Analysis is. *)
Theorem analysis_menu_consistent (w : window) (noise_type_var : string)
    (actions : list (@Desktop.action E QFT PhaseEstimation)) :
  Desktop.menu_consistent
    (Desktop.analysis_menu
       (perform_all actions
          (Desktop.mk w noise_type_var Desktop.create_menu []))).
Proof.
  assert (Hinv : forall d : desktop,
            Desktop.menu_consistent (Desktop.analysis_menu d) ->
            Desktop.menu_consistent
              (Desktop.analysis_menu (perform_all actions d))).
  { induction actions as [|a actions IH]; intros d Hd; [exact Hd|].
    cbn [Desktop.perform_all fold_left]. apply IH.
    destruct a as [change| |]; cbn [Desktop.perform].
    - exact Hd.
    - now apply menu_consistent_after_run.
    - rewrite reset_simulation_menu. unfold Desktop.menu_consistent.
      cbn. repeat split; intros; repeat split; congruence. }
  apply Hinv. unfold Desktop.menu_consistent. cbn.
  repeat split; intros; repeat split; congruence.
Qed.

(** X29. [show_comparison_window] guards on the circuit, not on the
    comparison results. Without a circuit it only warns. With a circuit
    and no comparison counts it opens the window and then raises a
    [TypeError] that nothing catches, before anything is computed or
    drawn. *)
Theorem comparison_window_guard (d : desktop)
    (sim : @QFTSimulator.Simulation E QFT PhaseEstimation) :
  let get_circuit := Desktop.get_circuit qft_get_circuit pe_get_circuit in
  let get_comp_counts :=
    Desktop.get_comp_counts qft_get_comp_counts pe_get_comp_counts in
  QFTSimulator.current_simulation (Desktop.window d) = Some sim ->
  (get_circuit sim = None ->
   show_comparison_window d
   = (Ok tt,
      Desktop.set_window
        (QFTSimulator.set_messageboxes
           (QFTSimulator.messageboxes (Desktop.window d)
            ++ [QFTSimulator.showwarning "Warning"
                  "No simulation results available. Run a simulation first."])%list
           (Desktop.window d)) d))
  /\ (forall c, get_circuit sim = Some c -> get_comp_counts sim = None ->
      show_comparison_window d
      = (Raise (mk_exn TypeError "cannot unpack non-iterable NoneType object"),
         Desktop.set_toplevels
           (Desktop.toplevels d ++ ["Fidelity Analysis"])%list d)).
Proof.
  intros get_circuit get_comp_counts Hheld.
  unfold Desktop.show_comparison_window, Desktop.in_window,
    QFTSimulator.messagebox.
  unfold mbind, Method_bind, get, lift, assign.
  rewrite Hheld. fold get_circuit get_comp_counts. split.
  - intros ->. reflexivity.
  - intros c -> ->. reflexivity.
Qed.

(** X30. The menu follows the comparison box, not the instance: when
    the window holds a built [IQFT] instance that was made with
    [comparison=False] and the comparison box is ticked, a simulation run
    that returns enables Comparison Analysis, and [show_comparison_window]
    then raises the [TypeError] of the missing comparison counts. *)
Theorem comparison_enabled_without_results (d : desktop)
    (n : nat) (state : option string) (noise : bool)
    (noise_type : option string) (noise_options : option (gmap string R))
    (measure : bool) (calls : list IQFT.call) (c : QuantumCircuit) :
  let o :=
    IQFT.run_calls calls
      (IQFT.init n state noise noise_type noise_options measure false) in
  QFTSimulator.current_simulation (Desktop.window d)
  = Some (QFTSimulator.OfIQFT o) ->
  IQFT.qc o = Some c ->
  QFTSimulator.compare_var (Desktop.window d) = true ->
  fst (IQFT.simulate o) = Ok tt ->
  let d' := snd (run_simulation d) in
  Desktop.comparison_analysis (Desktop.analysis_menu d') = true
  /\ raises (fst (show_comparison_window d')) TypeError.
Proof.
  intros o Hheld Hqc Hcmp Hok d'.
  assert (Hsingle : single_run_only (snd (IQFT.simulate o))).
  { apply (single_run_only_call IQFT.call_simulate o).
    apply single_run_only_calls. repeat split. }
  destruct Hsingle as (_ & Hcounts & _).
  destruct (simulate_keeps o) as (_ & _ & Hqc' & _). rewrite Hqc in Hqc'.
  assert (Hd' : d'
    = Desktop.mk
        (QFTSimulator.set_output_text
           (QFTSimulator.output_text (Desktop.window d)
            ++ ["Running simulation..."; "Simulation completed successfully"])%list
           (QFTSimulator.set_status_label
              "Simulation completed - Analysis menu enabled"
              (QFTSimulator.set_current_simulation
                 (Some (QFTSimulator.OfIQFT (snd (IQFT.simulate o))))
                 (Desktop.window d))))
        (Desktop.noise_type_var d)
        (Desktop.mk_menu false false false true)
        (Desktop.toplevels d)).
  { unfold d'. rewrite run_simulation_unfold.
    unfold Desktop.simulate_current, QFTSimulator.on_simulation.
    unfold mbind, Method_bind, get, lift.
    change (QFTSimulator.current_simulation
              (QFTSimulator.set_output_text
                 (QFTSimulator.output_text (Desktop.window d)
                  ++ ["Running simulation..."])%list (Desktop.window d)))
      with (QFTSimulator.current_simulation (Desktop.window d)).
    rewrite Hheld.
    destruct (IQFT.simulate o) as [r o'] eqn:Hsim. cbn in Hok. subst r.
    cbn [snd]. cbn. rewrite Hcmp. cbn. rewrite <- app_assoc. reflexivity. }
  rewrite Hd'. split; [reflexivity|].
  unfold Desktop.show_comparison_window.
  unfold mbind, Method_bind, get, lift, assign.
  cbn [Desktop.window QFTSimulator.current_simulation
       QFTSimulator.set_output_text QFTSimulator.set_status_label
       QFTSimulator.set_current_simulation Desktop.get_circuit
       Desktop.get_comp_counts].
  unfold IQFT.get_circuit, IQFT.get_comp_counts.
  rewrite Hqc', Hcounts. cbn. now eexists.
Qed.

End DesktopExtras.
(** ** Concrete runs for the further properties *)

Section ExtraRuns.
Import Layers.
#[local] Existing Instance recording.

Lemma built_gates_fit_register_witness :
  exists qc,
    IQFT.add_iqft_circuit two_qubits_state_2 (new_QuantumCircuit 2) = Ok qc
    /\ num_qubits qc = 2
    /\ forallb (gate_fits (num_qubits qc)) (data qc) = true.
Proof.
  apply (built_gates_fit_register two_qubits_state_2 2).
  - simpl. lia.
  - reflexivity.
  - reflexivity.
Defined.

Lemma built_gate_counts_witness :
  exists qc gates,
    IQFT.add_iqft_circuit two_qubits_state_2 (new_QuantumCircuit 2) = Ok qc
    /\ data qc = (gates ++ [SaveDensityMatrix; MeasureAll])%list
    /\ count_gates is_hadamard (data qc) = 4
    /\ 2 * count_gates is_cphase (data qc) = 2
    /\ 2 * length gates = 18.
Proof.
  apply (built_gate_counts two_qubits_state_2 2).
  - simpl. lia.
  - reflexivity.
  - reflexivity.
Defined.

Lemma built_circuit_reverses_wires_witness :
  exists qc,
    IQFT.add_iqft_circuit two_qubits_state_2 (new_QuantumCircuit 2) = Ok qc
    /\ route (data qc) 0 = 1.
Proof.
  apply (built_circuit_reverses_wires two_qubits_state_2 2 0).
  - simpl. lia.
  - reflexivity.
  - reflexivity.
  - simpl. lia.
Defined.

Lemma state_converted_in_phase_loop_witness :
  IQFT.add_iqft_circuit empty_register (new_QuantumCircuit 0)
  = Ok {| num_qubits := 0; data := [MeasureAll] |}
  /\ raises (IQFT.add_iqft_circuit default_state (new_QuantumCircuit 2))
       TypeError.
Proof.
  split.
  - apply (proj1 (state_converted_in_phase_loop empty_register
                    (new_QuantumCircuit 0))).
    + reflexivity.
    + reflexivity.
  - apply (proj2 (state_converted_in_phase_loop default_state
                    (new_QuantumCircuit 2))).
    + simpl. lia.
    + reflexivity.
Defined.

Lemma build_iqft_bad_state_changes_nothing_witness :
  IQFT.build_iqft two_qubits_state_abc
  = (Raise (mk_exn ValueError
              "invalid literal for int() with base 10: 'abc'"),
     two_qubits_state_abc).
Proof.
  apply (build_iqft_bad_state_changes_nothing two_qubits_state_abc).
  - simpl. lia.
  - reflexivity.
Defined.

Lemma build_iqft_stores_before_drawing_witness :
  IQFT.build_iqft two_qubits_undrawn
  = (Raise (mk_exn ExternalError "no display"),
     IQFT.set_qc (Some plain_circuit) two_qubits_undrawn)
  /\ IQFT.get_circuit (snd (IQFT.build_iqft two_qubits_undrawn))
     = Some plain_circuit.
Proof.
  apply (build_iqft_stores_before_drawing two_qubits_undrawn 2
           (mk_exn ExternalError "no display")).
  - simpl. lia.
  - reflexivity.
  - reflexivity.
  - reflexivity.
Defined.

Lemma ideal_run_stores_witness :
  let run := RunOf (StatevectorSimulator "single") plain_circuit 1024 in
  IQFT.simulate without_noise
  = (Ok tt,
     IQFT.set_resulting_probabilities (E := recording) (Some (Statevector run))
       (IQFT.set_resulting_state (E := recording) (Some (Statevector run))
          (IQFT.set_target (E := recording)
             (Some (StatevectorSimulator "single")) without_noise))).
Proof.
  intros run.
  destruct (ideal_run_stores without_noise plain_circuit run run run)
    as [Hplain _].
  - reflexivity.
  - reflexivity.
  - reflexivity.
  - reflexivity.
  - reflexivity.
  - reflexivity.
  - apply Hplain. reflexivity.
Defined.

Lemma failed_run_keeps_old_results_witness :
  IQFT.simulate without_noise_or_simulator
  = (Raise (mk_exn ExternalError "simulator unavailable"),
     IQFT.set_target (E := recording_without_simulator)
       (Some (StatevectorSimulator "single")) without_noise_or_simulator).
Proof.
  destruct (failed_run_keeps_old_results without_noise_or_simulator None
              plain_circuit (mk_exn ExternalError "simulator unavailable"))
    as [Hsim _].
  - reflexivity.
  - reflexivity.
  - reflexivity.
  - reflexivity.
  - exact Hsim.
Defined.

Lemma flip_channels_complete_witness :
  exists K0 K1,
    IQFT.build_noise_model (with_bitflip false)
    = Ok (Some [(Kraus [K0; K1], ["h"])])
    /\ mat2_add (mat2_tmul K0 K0) (mat2_tmul K1 K1) = np_eye2.
Proof.
  apply (flip_channels_complete (with_bitflip false) Bitflip
           bitflip_options 1%R).
  - lra.
  - left. reflexivity.
  - reflexivity.
  - reflexivity.
  - reflexivity.
  - exact bitflip_options_lookup.
Defined.

Lemma flip_channels_at_bounds_witness :
  IQFT.build_noise_model (with_bitflip false)
  = Ok (Some [(Kraus [np_eye2; [[0; 0]; [0; 0]]%R], ["h"])]).
Proof.
  destruct (flip_channels_at_bounds (with_bitflip false) bitflip_options)
    as [Hbit _].
  - reflexivity.
  - reflexivity.
  - apply Hbit; [reflexivity | exact bitflip_options_lookup].
Defined.

Lemma unreadable_qubit_count_witness :
  QFTSimulator.build_circuit unit_init7 (unit_build "qft.png") unit_init6
    (unit_build "pe.png") same_window (window_with "abc" "IQFT" None None)
  = (Ok tt,
     reported
       "Invalid input: invalid literal for int() with base 10: 'abc'"
       (announced (window_with "abc" "IQFT" None None))).
Proof.
  apply (unreadable_qubit_count unit_init7 (unit_build "qft.png") unit_init6
           (unit_build "pe.png") same_window
           (window_with "abc" "IQFT" None None)).
  reflexivity.
Defined.

Lemma iqft_build_succeeds_witness :
  QFTSimulator.build_simulation unit_init7 (unit_build "qft.png") unit_init6
    (unit_build "pe.png") "2" (window_with "2" "IQFT" None (Some "2"))
  = (Ok (Some (2%Z, "circuit.png")),
     QFTSimulator.set_current_simulation
       (Some (QFTSimulator.OfIQFT (with_bitflip false)))
       (window_with "2" "IQFT" None (Some "2"))).
Proof.
  apply (iqft_build_succeeds unit_init7 (unit_build "qft.png") unit_init6
           (unit_build "pe.png") (window_with "2" "IQFT" None (Some "2"))
           2%Z 2%Z "2" "circuit.png").
  - reflexivity.
  - lia.
  - reflexivity.
  - reflexivity.
  - reflexivity.
  - reflexivity.
  - reflexivity.
Defined.

Lemma iqft_bad_state_replaces_simulation_witness :
  let w := window_with "2" "IQFT" None (Some "x") in
  let fresh : @IQFT.t recording :=
    IQFT.init 2 (Some "x") true (Some "Bit flip") (Some bitflip_options)
      true false in
  QFTSimulator.build_circuit unit_init7 (unit_build "qft.png") unit_init6
    (unit_build "pe.png") same_window w
  = (Ok tt,
     reported "Invalid input: invalid literal for int() with base 10: 'x'"
       (QFTSimulator.set_current_simulation
          (Some (QFTSimulator.OfIQFT fresh)) (announced w)))
  /\ IQFT.get_circuit fresh = None.
Proof.
  intros w fresh.
  apply (iqft_bad_state_replaces_simulation unit_init7 (unit_build "qft.png")
           unit_init6 (unit_build "pe.png") same_window w 2%Z "x"
           (mk_exn ValueError
              "invalid literal for int() with base 10: 'x'")).
  - reflexivity.
  - lia.
  - reflexivity.
  - reflexivity.
  - reflexivity.
Defined.

Lemma qft_state_translation_witness :
  exists s,
    QFTSimulator.qft_state ["|0⟩"; "|+⟩"] 0 "" = inl s
    /\ String.length s = 2.
Proof.
  apply (proj1 (qft_state_translation ["|0⟩"; "|+⟩"])).
  reflexivity.
Defined.

Lemma qft_unknown_label_reported_witness :
  let w := window_with "2" "QFT" (Some ["|0⟩"; "?"]) None in
  QFTSimulator.build_circuit unit_init7 (unit_build "qft.png") unit_init6
    (unit_build "pe.png") same_window w
  = (Ok tt, reported "Invalid state for qubit 2: ?" (announced w)).
Proof.
  intros w.
  apply (qft_unknown_label_reported unit_init7 (unit_build "qft.png")
           unit_init6 (unit_build "pe.png") same_window w 2%Z
           ["|0⟩"; "?"] 1 "?").
  - reflexivity.
  - lia.
  - reflexivity.
  - reflexivity.
  - reflexivity.
Defined.

Lemma unknown_algorithm_reported_witness :
  let w := window_with "2" "Grover" None None in
  QFTSimulator.build_circuit unit_init7 (unit_build "qft.png") unit_init6
    (unit_build "pe.png") same_window w
  = (Ok tt,
     reported "Invalid input: Unknown algorithm: Grover" (announced w)).
Proof.
  intros w.
  apply (unknown_algorithm_reported unit_init7 (unit_build "qft.png")
           unit_init6 (unit_build "pe.png") same_window w 2%Z).
  - reflexivity.
  - lia.
  - discriminate.
  - discriminate.
  - discriminate.
Defined.

Lemma iqft_without_state_entry_witness :
  let w := window_with "2" "IQFT" None None in
  QFTSimulator.current_simulation
    (snd (QFTSimulator.build_circuit unit_init7 (unit_build "qft.png")
            unit_init6 (unit_build "pe.png") same_window w))
  = None.
Proof.
  intros w.
  destruct (iqft_without_state_entry unit_init7 (unit_build "qft.png")
              unit_init6 (unit_build "pe.png") same_window w 2%Z)
    as [_ Hkept].
  - reflexivity.
  - lia.
  - reflexivity.
  - reflexivity.
  - exact Hkept.
Defined.

End ExtraRuns.

Section DesktopRuns.
#[local] Existing Instance recording.

Lemma noise_panel_reaches_simulate_witness :
  exists noise_type,
    fst (Desktop.create_noise_panel
           (desktop_of (window_with "2" "IQFT" None None)))
    = Ok noise_type
    /\ QFTSimulator.noise_params
         (Desktop.window
            (snd (Desktop.apply noise_type 1
                    (snd (Desktop.create_noise_panel
                            (desktop_of (window_with "2" "IQFT" None None)))))))
       = Some {[ "bit_flip" := 1%R ]}
    /\ IQFT.build_noise_model (with_bitflip false)
       = Ok (Some [(make_channel Bitflip 1, ["h"])]).
Proof.
  destruct (noise_panel_reaches_simulate
              (desktop_of (window_with "2" "IQFT" None None)) Bitflip 1%R)
    as (noise_type & Hpanel & _ & Hparams & Hmodel).
  - simpl. lra.
  - reflexivity.
  - exists noise_type. split; [exact Hpanel|]. split; [exact Hparams|].
    apply Hmodel.
    + reflexivity.
    + reflexivity.
    + rewrite Hparams. reflexivity.
Defined.

Lemma noise_panel_not_applied_witness :
  let d :=
    Desktop.mk (window_with "2" "IQFT" None None) "Phase flip"
      Desktop.create_menu [] in
  let w' := Desktop.window (snd (Desktop.create_noise_panel d)) in
  QFTSimulator.noise_type w' = Some "Phase flip"
  /\ QFTSimulator.noise_params w' = Some bitflip_options
  /\ raises
       (fst (IQFT.simulate
               (IQFT.init (E := recording) 2 (Some "2") true
                  (Some "Phase flip") (Some bitflip_options) false false)))
       KeyError.
Proof.
  intros d w'.
  destruct (noise_panel_not_applied d Phaseflip) as (Htype & Hparams & Hfails).
  - reflexivity.
  - split; [exact Htype|]. split; [exact Hparams|].
    destruct (Hfails (IQFT.init (E := recording) 2 (Some "2") true
                        (Some "Phase flip") (Some bitflip_options) false
                        false))
      as [_ Hkey].
    + reflexivity.
    + reflexivity.
    + reflexivity.
    + apply (Hkey Bitflip 1%R).
      * discriminate.
      * reflexivity.
Defined.

Lemma run_simulation_sets_menu_witness :
  let d :=
    desktop_of (window_holding false (Some (QFTSimulator.OfIQFT built_single_run)))
  in
  fst (Desktop.run_simulation unit_simulate unit_simulate d) = Ok tt
  /\ Desktop.analysis_menu
       (snd (Desktop.run_simulation unit_simulate unit_simulate d))
     = Desktop.mk_menu true true true false.
Proof.
  intros d.
  apply (run_simulation_sets_menu unit_simulate unit_simulate d).
  reflexivity.
Defined.

Lemma run_simulation_failure_witness :
  let d := desktop_of (window_holding false None) in
  fst (Desktop.run_simulation unit_simulate unit_simulate d) = Ok tt
  /\ Desktop.analysis_menu
       (snd (Desktop.run_simulation unit_simulate unit_simulate d))
     = Desktop.create_menu
  /\ QFTSimulator.messageboxes
       (Desktop.window
          (snd (Desktop.run_simulation unit_simulate unit_simulate d)))
     = [QFTSimulator.showerror "Error"
          "Simulation failed: 'NoneType' object has no attribute 'simulate'"].
Proof.
  intros d.
  destruct (run_simulation_failure unit_simulate unit_simulate d
              (mk_exn AttributeError
                 "'NoneType' object has no attribute 'simulate'"))
    as [Hfails _].
  destruct Hfails as (Hret & Hmenu & _ & Hbox).
  - reflexivity.
  - split; [exact Hret|]. split; [exact Hmenu|exact Hbox].
Defined.

Lemma comparison_window_guard_witness :
  let d :=
    desktop_of (window_holding false (Some (QFTSimulator.OfIQFT built_single_run)))
  in
  Desktop.show_comparison_window unit_none unit_none unit_none unit_none
    unit_none unit_none fidelity_one plot_nothing d
  = (Raise (mk_exn TypeError "cannot unpack non-iterable NoneType object"),
     Desktop.set_toplevels ["Fidelity Analysis"] d).
Proof.
  intros d.
  destruct (comparison_window_guard unit_none unit_none unit_none unit_none
              unit_none unit_none fidelity_one plot_nothing d
              (QFTSimulator.OfIQFT built_single_run))
    as [_ Hopens].
  - reflexivity.
  - apply (Hopens measured_circuit); reflexivity.
Defined.

Lemma comparison_enabled_without_results_witness :
  let d :=
    desktop_of (window_holding true (Some (QFTSimulator.OfIQFT built_single_run)))
  in
  let d' := snd (Desktop.run_simulation unit_simulate unit_simulate d) in
  Desktop.comparison_analysis (Desktop.analysis_menu d') = true
  /\ raises
       (fst (Desktop.show_comparison_window unit_none unit_none unit_none
               unit_none unit_none unit_none fidelity_one plot_nothing d'))
       TypeError.
Proof.
  intros d.
  apply (comparison_enabled_without_results unit_simulate unit_simulate
           unit_none unit_none unit_none unit_none unit_none unit_none
           fidelity_one plot_nothing d 2 (Some "2") true (Some "Bit flip")
           (Some bitflip_options) true [IQFT.call_build_iqft]
           measured_circuit).
  - reflexivity.
  - reflexivity.
  - reflexivity.
  - reflexivity.
Defined.

End DesktopRuns.
